(** * Gonio visualizer: the processing pipeline of [Worker.run]

    A shallow embedding of the audio-to-video pipeline of
    "Visualizer Generator.py" (class [Worker]: [run] and [compile_video]).
    The numerical stages (peak normalisation, windowing, polar projection)
    and the rendering loop are shared verbatim with [vizlab.py], whose
    [Worker.run] stops after the loop: it neither encodes nor cleans up and
    emits no signal. The orchestration below is that of
    "Visualizer Generator.py".

    Conventions of the embedding.
    - numpy scalars are an abstract numeric type [A] with the operations the
      source uses ([NumOps], [Arctan2]); it is instantiated with the real
      numbers for the algebraic facts and with binary64 floats for
      evaluation (0/0 is NaN there, as in numpy).
    - Python exceptions are values [Exn class message]; a computation that
      may raise returns [result X = exn + X].
    - [Worker.run] is a state-and-exception computation over [State]: the
      three folders, the error log, the emitted Qt signals and the local
      counter [num_frames_generated], which survives an exception.
    - matplotlib and ffmpeg are external, oracles of [Env]: [savefig] either
      writes the frame file and returns or raises without writing;
      [ffmpeg_run] returns, raises [ffmpeg.Error], or raises another
      exception (the executable cannot be started, for instance), may leave
      an output file behind when it does not return, and need not answer two
      calls alike.
    - exceptions are instances of [Exception]; paths follow POSIX rules.
    - the real numbers carry the algebra of the numerical stages; [xreal]
      adds what floats have and reals lack, signed zeros, infinities and
      NaN, with exact arithmetic in between (rounding is not modelled).
    - the front end [GonioVisualizer] is the record of its attributes and of
      the state of its widgets, with one function per slot; events carry
      what the desktop answers (the dropped paths, the dialog's result, what
      [shutil.copy] finds). An exception that leaves a slot ends the
      application, and a job completes, its signals delivered in order,
      before the next event.
    - [VizLab] is the [Worker] of [vizlab.py], over its own state: the
      files it can load, the temporary folder and standard output. *)

From Stdlib Require Import Reals Lra Lia ZArith QArith Qminmax List String Ascii Bool.
From Stdlib Require Import Floats.PrimFloat Floats.SpecFloat Floats.FloatOps Uint63.
From Stdlib Require Import DecimalString DecimalNat.
From stdpp Require Import gmap strings.
Import ListNotations.

Local Open Scope string_scope.
Local Open Scope Z_scope.

(* ===================================================================== *)
(** ** Python primitives                                                  *)
(* ===================================================================== *)

Module Py.

(** An exception object: its class name and [str(e)]. *)
Record exn := Exn { exn_class : string; exn_msg : string }.

Definition result (X : Type) : Type := (exn + X)%type.

Definition ok {X : Type} (x : X) : result X := inr x.
Definition raise {X : Type} (cls msg : string) : result X := inl (Exn cls msg).

Definition rbind {X Y : Type} (c : result X) (k : X -> result Y) : result Y :=
  match c with
  | inl e => inl e
  | inr x => k x
  end.

(** [xs[start:stop]] for a list, with Python's treatment of negative and
    out-of-range bounds. *)
Definition slice_index (n i : Z) : Z :=
  if i <? 0 then Z.max 0 (i + n) else Z.min i n.

Definition slice {X : Type} (xs : list X) (start stop : Z) : list X :=
  let n := Z.of_nat (length xs) in
  let s := slice_index n start in
  let e := slice_index n stop in
  firstn (Z.to_nat (e - s)) (skipn (Z.to_nat s) xs).

(** [range(n)]: empty when [n <= 0]. *)
Definition range (n : Z) : list nat := seq 0 (Z.to_nat n).

(** [str(n)] for a non-negative integer. *)
Definition str (n : nat) : string := NilEmpty.string_of_uint (Nat.to_uint n).

Fixpoint zeros (k : nat) : string :=
  match k with
  | O => ""
  | S k' => String "0" (zeros k')
  end.

(** [f"{n:0{w}d}"]: decimal digits, left-padded with zeros to width [w]. *)
Definition zfill (w : nat) (s : string) : string :=
  zeros (w - String.length s) +:+ s.

Definition format_05d (n : nat) : string := zfill 5 (str n).

(** [s.endswith(suffix)]. *)
Definition endswith (s suffix : string) : bool :=
  let n := String.length s in
  let m := String.length suffix in
  (m <=? n)%nat && String.eqb (substring (n - m) m s) suffix.

(** [os.path.splitext(p)[0]], with the separator [/]: the path is cut at
    its last dot, unless that dot precedes the last separator or only dots
    lie between that separator and it. *)
Fixpoint all_dots (cs : list ascii) : bool :=
  match cs with
  | [] => true
  | c :: cs' => Ascii.eqb c "." && all_dots cs'
  end.

Fixpoint rfind_dot (cs : list ascii) : option nat :=
  match cs with
  | [] => None
  | c :: cs' =>
      match rfind_dot cs' with
      | Some k => Some (S k)
      | None => if Ascii.eqb c "." then Some O else None
      end
  end.

Fixpoint rfind_sep (cs : list ascii) : option nat :=
  match cs with
  | [] => None
  | c :: cs' =>
      match rfind_sep cs' with
      | Some k => Some (S k)
      | None => if Ascii.eqb c "/" then Some O else None
      end
  end.

Definition splitext_root (p : string) : string :=
  let cs := list_ascii_of_string p in
  match rfind_dot cs with
  | Some dotIndex =>
      let filenameIndex :=
        match rfind_sep cs with Some sepIndex => S sepIndex | None => O end in
      if (filenameIndex <=? dotIndex)%nat
         && negb (all_dots (firstn (dotIndex - filenameIndex) (skipn filenameIndex cs)))
      then string_of_list_ascii (firstn dotIndex cs)
      else p
  | None => p
  end.

(** [os.path.join(a, b)] with the separator [/]. *)
Definition join (a b : string) : string :=
  match b with
  | String "/" _ => b
  | _ => if String.eqb a "" || endswith a "/" then a +:+ b else a +:+ "/" +:+ b
  end.

(** [str(e)] of the [FileNotFoundError] raised on opening [path]. *)
Definition no_such_file (path : string) : string :=
  "[Errno 2] No such file or directory: '" +:+ path +:+ "'".

(** Conversion of a Python [int] to [float]; exact below 2^53. *)
Definition float_of_Z (z : Z) : float :=
  if z <? 0 then PrimFloat.opp (PrimFloat.of_uint63 (Uint63.of_Z (- z)))
  else PrimFloat.of_uint63 (Uint63.of_Z z).

(** [int(x)] for a float: truncation toward zero. Python raises on
    infinities and NaN; the callers below only pass finite values, and the
    two non-finite cases map to 0. *)
Definition int_of_float (x : float) : Z :=
  match Prim2SF x with
  | S754_finite s m e =>
      let v := if 0 <=? e then Z.pos m * 2 ^ e else Z.pos m / 2 ^ (- e) in
      if s then - v else v
  | _ => 0
  end.

End Py.

Import Py.

Declare Scope result_scope.
Delimit Scope result_scope with result.
Notation "x <- c ;; k" := (rbind c (fun x => k))
  (at level 100, c at next level, right associativity) : result_scope.

(* ===================================================================== *)
(** ** numpy scalars and arrays                                           *)
(* ===================================================================== *)

(** The scalar operations the source applies to samples. *)
Class NumOps (A : Type) : Type := {
  n_zero : A;
  n_one : A;
  n_add : A -> A -> A;
  n_mul : A -> A -> A;
  n_div : A -> A -> A;
  n_abs : A -> A;
  n_sqrt : A -> A;
  n_max : A -> A -> A;
  n_of_nat : nat -> A
}.

(** [np.arctan2 y x], kept apart: binary64 has no primitive for it. *)
Class Arctan2 (A : Type) : Type := n_arctan2 : A -> A -> A.

Module Np.
Section Arrays.
Context {A : Type} `{NumOps A}.

Definition abs (xs : list A) : list A := map n_abs xs.

Definition add (xs ys : list A) : list A := zip_with n_add xs ys.

Definition square (xs : list A) : list A := map (fun x => n_mul x x) xs.

Definition sqrt (xs : list A) : list A := map n_sqrt xs.

(** array * scalar and array / scalar *)
Definition scale (xs : list A) (c : A) : list A := map (fun x => n_mul x c) xs.

Definition div (xs : list A) (c : A) : list A := map (fun x => n_div x c) xs.

Definition sum (xs : list A) : A := fold_left n_add xs n_zero.

Definition mean (xs : list A) : A := n_div (sum xs) (n_of_nat (length xs)).

(** [np.max] raises on an empty array. *)
Definition max (xs : list A) : result A :=
  match xs with
  | [] => raise "ValueError"
            "zero-size array to reduction operation maximum which has no identity"
  | x :: rest => ok (fold_left n_max rest x)
  end.

Definition arctan2 `{Arctan2 A} (ys xs : list A) : list A :=
  zip_with n_arctan2 ys xs.

End Arrays.
End Np.

(** What [librosa.load(path, mono=False)] returns as [y]: a one-dimensional
    array for a mono file, otherwise one row per channel. *)
Inductive ndarray (A : Type) : Type :=
  | Arr1 (samples : list A)
  | Arr2 (rows : list (list A)).
Arguments Arr1 {A} samples.
Arguments Arr2 {A} rows.

(** [y[k]]: a scalar of a one-dimensional array, a row of a two-dimensional one. *)
Inductive ndvalue (A : Type) : Type :=
  | Scalar (a : A)
  | Array (xs : list A).
Arguments Scalar {A} a.
Arguments Array {A} xs.

Definition getitem {A : Type} (y : ndarray A) (k : nat) : result (ndvalue A) :=
  match y with
  | Arr1 samples =>
      match nth_error samples k with
      | Some a => ok (Scalar a)
      | None => raise "IndexError" "index out of bounds"
      end
  | Arr2 rows =>
      match nth_error rows k with
      | Some row => ok (Array row)
      | None => raise "IndexError" "index out of bounds"
      end
  end.

Definition len {A : Type} (v : ndvalue A) : result Z :=
  match v with
  | Scalar _ => raise "TypeError" "object of type 'numpy.float32' has no len()"
  | Array xs => ok (Z.of_nat (length xs))
  end.

Definition getslice {A : Type} (v : ndvalue A) (start stop : Z) : result (list A) :=
  match v with
  | Scalar _ => raise "IndexError" "invalid index to scalar variable."
  | Array xs => ok (slice xs start stop)
  end.

(* ===================================================================== *)
(** ** The world [Worker.run] acts on                                     *)
(* ===================================================================== *)

(** The three signals of [Worker]. *)
Inductive signal : Type :=
  | progress (pct : Z)
  | finished (msg : string)
  | error (msg : string).

(** The stream graph handed to [ffmpeg.run]: the keyword arguments of
    [ffmpeg.input], the two filters and [ffmpeg.output]. Paths are file
    names relative to their folder. *)
Record FfmpegJob : Type := {
  video_input : string;
  pattern_type : string;
  framerate : Z;
  audio_input : string;
  scale : Z * Z;
  pad : Z * Z;
  output_file : string;
  vcodec : string;
  acodec : string;
  audio_bitrate : string;
  pix_fmt : string;
  ff_r : Z;
  ff_t : Q
}.

(** What [compile_video] meets between building the stream and its
    [return True]: [ffmpeg.run] returns, or raises [ffmpeg.Error] carrying a
    [stderr] that can be decoded, or something else is raised: the
    executable cannot be started, the stream cannot be built, [stderr] is
    not UTF-8, ... A call that does not return may still have created the
    output file, which ffmpeg opens before it encodes. *)
Inductive ffmpeg_outcome : Type :=
  | FfmpegOk
  | FfmpegError (stderr : string) (output_created : bool)
  | FfmpegRaises (e : exn) (output_created : bool).

(** A file of the output folder: the stream of the call that wrote it, and
    whether that call returned. *)
Record Video : Type := { written_by : FfmpegJob; complete : bool }.

Record State (A : Type) : Type := {
  input_folder : gmap string (result (ndarray A * Z));
  output_folder : gmap string Video;
  temp_folder : gset string;
  error_log : list string;
  emitted : list signal;
  ffmpeg_calls : list (FfmpegJob * gset string);
  num_frames_generated : nat
}.
Arguments input_folder {A} _.
Arguments output_folder {A} _.
Arguments temp_folder {A} _.
Arguments error_log {A} _.
Arguments emitted {A} _.
Arguments ffmpeg_calls {A} _.
Arguments num_frames_generated {A} _.

(** The external collaborators. [savefig i theta r] stands for the figure
    construction, [plt.savefig] and [plt.close] of frame [i]: [None] when the
    file was written, [Some e] when [e] was raised and nothing was written.
    [ffmpeg_run earlier job frames] is the call of [ffmpeg.run] on the stream
    [job] against the frame store, after [earlier] calls. [script_dir] is
    the directory of the script, under which the folders lie. *)
Record Env (A : Type) : Type := {
  savefig : nat -> list A -> list A -> option exn;
  ffmpeg_run : nat -> FfmpegJob -> gset string -> ffmpeg_outcome;
  script_dir : string
}.
Arguments savefig {A} _ _ _ _.
Arguments ffmpeg_run {A} _ _ _ _.
Arguments script_dir {A} _.

(** State-and-exception computations; the state survives a raise. *)
Definition M (A X : Type) : Type := State A -> result X * State A.

Section Monad.
Context {A : Type}.

Definition ret {X : Type} (x : X) : M A X := fun s => (ok x, s).

Definition bind {X Y : Type} (c : M A X) (k : X -> M A Y) : M A Y :=
  fun s =>
    match c s with
    | (inl e, s') => (inl e, s')
    | (inr x, s') => k x s'
    end.

Definition lift {X : Type} (c : result X) : M A X := fun s => (c, s).

Definition gets {X : Type} (f : State A -> X) : M A X := fun s => (ok (f s), s).

Definition modify (f : State A -> State A) : M A unit := fun s => (ok tt, f s).

(** [try: body except Exception as e: handler(e)] *)
Definition try_except {X : Type} (body : M A X) (handler : exn -> M A X) : M A X :=
  fun s =>
    match body s with
    | (inl e, s') => handler e s'
    | (inr x, s') => (inr x, s')
    end.

Definition when (b : bool) (c : M A unit) : M A unit :=
  if b then c else ret tt.

Fixpoint for_each (idxs : list nat) (body : nat -> M A unit) : M A unit :=
  match idxs with
  | [] => ret tt
  | i :: rest => bind (body i) (fun _ => for_each rest body)
  end.

(** Field updates. *)
Definition set_temp_folder (f : gset string -> gset string) (s : State A) : State A :=
  {| input_folder := input_folder s; output_folder := output_folder s;
     temp_folder := f (temp_folder s); error_log := error_log s;
     emitted := emitted s; ffmpeg_calls := ffmpeg_calls s;
     num_frames_generated := num_frames_generated s |}.

Definition set_input_folder
    (f : gmap string (result (ndarray A * Z)) -> gmap string (result (ndarray A * Z)))
    (s : State A) : State A :=
  {| input_folder := f (input_folder s); output_folder := output_folder s;
     temp_folder := temp_folder s; error_log := error_log s;
     emitted := emitted s; ffmpeg_calls := ffmpeg_calls s;
     num_frames_generated := num_frames_generated s |}.

Definition set_output_folder
    (f : gmap string Video -> gmap string Video) (s : State A) : State A :=
  {| input_folder := input_folder s; output_folder := f (output_folder s);
     temp_folder := temp_folder s; error_log := error_log s;
     emitted := emitted s; ffmpeg_calls := ffmpeg_calls s;
     num_frames_generated := num_frames_generated s |}.

Definition logging_error (msg : string) (s : State A) : State A :=
  {| input_folder := input_folder s; output_folder := output_folder s;
     temp_folder := temp_folder s; error_log := error_log s ++ [msg];
     emitted := emitted s; ffmpeg_calls := ffmpeg_calls s;
     num_frames_generated := num_frames_generated s |}.

Definition emit (sig : signal) (s : State A) : State A :=
  {| input_folder := input_folder s; output_folder := output_folder s;
     temp_folder := temp_folder s; error_log := error_log s;
     emitted := emitted s ++ [sig]; ffmpeg_calls := ffmpeg_calls s;
     num_frames_generated := num_frames_generated s |}.

Definition record_ffmpeg_call (job : FfmpegJob) (s : State A) : State A :=
  {| input_folder := input_folder s; output_folder := output_folder s;
     temp_folder := temp_folder s; error_log := error_log s;
     emitted := emitted s;
     ffmpeg_calls := ffmpeg_calls s ++ [(job, temp_folder s)];
     num_frames_generated := num_frames_generated s |}.

Definition set_num_frames_generated (f : nat -> nat) (s : State A) : State A :=
  {| input_folder := input_folder s; output_folder := output_folder s;
     temp_folder := temp_folder s; error_log := error_log s;
     emitted := emitted s; ffmpeg_calls := ffmpeg_calls s;
     num_frames_generated := f (num_frames_generated s) |}.

End Monad.

Declare Scope M_scope.
Delimit Scope M_scope with M.
Notation "x <- c ;; k" := (bind c (fun x => k))
  (at level 100, c at next level, right associativity) : M_scope.
Notation "c ;; k" := (bind c (fun _ => k))
  (at level 100, right associativity) : M_scope.

(* ===================================================================== *)
(** ** class Worker                                                       *)
(* ===================================================================== *)

Module Worker.

(** The attributes set by [__init__]. *)
Record t (A : Type) : Type := {
  audio_file : string;
  fps : Z;
  resolution : Z * Z;
  color : Z * Z * Z;
  amplitude_scale : A;
  point_size : A
}.
Arguments audio_file {A} _.
Arguments fps {A} _.
Arguments resolution {A} _.
Arguments color {A} _.
Arguments amplitude_scale {A} _.
Arguments point_size {A} _.

(** [frame_step = int(sr / self.fps)]: true division, then truncation.
    Both operands are integers far below 2^53, where the rounded quotient
    truncates to the truncated exact quotient. *)
Definition frame_step (sr fps : Z) : result Z :=
  if fps =? 0 then raise "ZeroDivisionError" "division by zero"
  else ok (Z.quot sr fps).

(** [num_frames = len(left_channel) // frame_step]: floor division. *)
Definition num_frames (n fstep : Z) : result Z :=
  if fstep =? 0 then raise "ZeroDivisionError" "integer division or modulo by zero"
  else ok (n / fstep).

(** [duration = num_frames_generated / self.fps], as an exact rational. *)
Definition duration (generated : nat) (fps : Z) : result Q :=
  if fps =? 0 then raise "ZeroDivisionError" "division by zero"
  else ok (inject_Z (Z.of_nat generated) / inject_Z fps)%Q.

(** [int((i + 1) / num_frames * 100)], in binary64 as Python computes it. *)
Definition percent (done total : Z) : Z :=
  int_of_float
    (PrimFloat.mul (PrimFloat.div (float_of_Z done) (float_of_Z total))
                   (float_of_Z 100)).

(** [f"frame_{i:05d}.png"] *)
Definition frame_name (i : nat) : string := "frame_" +:+ format_05d i +:+ ".png".

(** The file the sequence pattern [pat] names at index [i]: every [%05d]
    is replaced as C's printf does. *)
Fixpoint expand_pattern (fuel : nat) (pat : string) (i : nat) : string :=
  match fuel with
  | O => pat
  | S fuel' =>
      match pat with
      | EmptyString => EmptyString
      | String c rest =>
          if String.prefix "%05d" pat
          then format_05d i +:+ expand_pattern fuel' (substring 4 (String.length pat - 4) pat) i
          else String c (expand_pattern fuel' rest i)
      end
  end.

Definition sequence_file (pat : string) (i : nat) : string :=
  expand_pattern (String.length pat) pat i.

Section Stages.
Context {A : Type} `{NumOps A}.

(** [channel / np.max(np.abs(channel))] on an array. *)
Definition peak_normalize (channel : list A) : result (list A) :=
  (peak <- Np.max (Np.abs channel) ;;
   ok (Np.div channel peak))%result.

(** The same expression on whatever [y[k]] is. *)
Definition normalize (channel : ndvalue A) : result (ndvalue A) :=
  match channel with
  | Scalar a => ok (Scalar (n_div a (n_abs a)))
  | Array xs => (xs' <- peak_normalize xs ;; ok (Array xs'))%result
  end.

(** The bounds [start], [end] of window [i] and the two chunks. *)
Definition window_start (fstep : Z) (i : nat) : Z := Z.of_nat i * fstep.

Definition window_end (fstep n : Z) (i : nat) : Z :=
  Z.min (window_start fstep i + fstep) n.

(** All windows of the loop, as pairs [(left_chunk, right_chunk)]. The
    bounds of both chunks come from [len(left_channel)]. *)
Definition windows (left_channel right_channel : list A) (fstep nframes : Z)
    : list (list A * list A) :=
  map (fun i =>
         let start := window_start fstep i in
         let stop := window_end fstep (Z.of_nat (length left_channel)) i in
         (slice left_channel start stop, slice right_channel start stop))
      (range nframes).

(** [np.mean(np.abs(left_chunk) + np.abs(right_chunk)) * self.amplitude_scale] *)
Definition amplitude (left_chunk right_chunk : list A) (amplitude_scale : A) : A :=
  n_mul (Np.mean (Np.add (Np.abs left_chunk) (Np.abs right_chunk))) amplitude_scale.

(** [np.arctan2(right_chunk, left_chunk)] *)
Definition theta `{Arctan2 A} (left_chunk right_chunk : list A) : list A :=
  Np.arctan2 right_chunk left_chunk.

(** [np.sqrt(left_chunk**2 + right_chunk**2) * (1 + amplitude)] *)
Definition r (left_chunk right_chunk : list A) (amplitude_scale : A) : list A :=
  Np.scale (Np.sqrt (Np.add (Np.square left_chunk) (Np.square right_chunk)))
           (n_add n_one (amplitude left_chunk right_chunk amplitude_scale)).

End Stages.

Section Run.
Context {A : Type} `{NumOps A} `{Arctan2 A}.
Variable env : Env A.
Variable self : t A.

Local Open Scope M_scope.

(** [input_folder], and [os.path.join(input_folder, name)], as texts. *)
Definition input_dir : string := join (script_dir env) "input".

(** [librosa.load(audio_path, mono=False)], for the file [audio_path] of the
    input folder. *)
Definition librosa_load (audio_path : string) : M A (ndarray A * Z) :=
  fun s =>
    match input_folder s !! audio_path with
    | Some decoded => (decoded, s)
    | None =>
        (raise "FileNotFoundError" (no_such_file (join input_dir audio_path)), s)
    end.

(** [os.path.exists(audio_path)] *)
Definition path_exists (audio_path : string) : M A bool :=
  gets (fun s => bool_decide (is_Some (input_folder s !! audio_path))).

(** The [stream] value built from the two inputs, the filters and the
    output options. *)
Definition stream (audio_path output_video : string) (t_ : Q) : FfmpegJob :=
  {| video_input := "frame_%05d.png"; pattern_type := "sequence";
     framerate := fps self; audio_input := audio_path;
     scale := resolution self; pad := resolution self;
     output_file := output_video;
     vcodec := "libx264"; acodec := "libmp3lame"; audio_bitrate := "192k";
     pix_fmt := "yuv420p"; ff_r := fps self; ff_t := t_ |}.

Definition compile_video (audio_path output_video : string) (generated : nat)
    : M A bool :=
  t_ <- lift (duration generated (fps self)) ;;
  let job := stream audio_path output_video t_ in
  frames <- gets temp_folder ;;
  earlier <- gets (fun s => length (ffmpeg_calls s)) ;;
  modify (record_ffmpeg_call job) ;;
  match ffmpeg_run env earlier job frames with
  | FfmpegOk =>
      modify (set_output_folder
                (fun out => <[output_video := Build_Video job true]> out)) ;;
      ret true
  | FfmpegError stderr output_created =>
      when output_created
        (modify (set_output_folder
                   (fun out => <[output_video := Build_Video job false]> out))) ;;
      let error_msg :=
        if String.eqb stderr "" then "No stderr output available" else stderr in
      modify (logging_error
                ("Video compilation failed for " +:+ audio_file self +:+ ": "
                 +:+ error_msg)) ;;
      ret false
  | FfmpegRaises e output_created =>
      when output_created
        (modify (set_output_folder
                   (fun out => <[output_video := Build_Video job false]> out))) ;;
      lift (inl e)
  end.

(** One iteration of [for i in range(num_frames)]. *)
Definition frame (left_channel right_channel : ndvalue A) (fstep nframes : Z)
    (i : nat) : M A unit :=
  let start := window_start fstep i in
  n <- lift (len left_channel) ;;
  let stop := Z.min (start + fstep) n in
  left_chunk <- lift (getslice left_channel start stop) ;;
  right_chunk <- lift (getslice right_channel start stop) ;;
  let theta_ := theta left_chunk right_chunk in
  let r_ := r left_chunk right_chunk (amplitude_scale self) in
  match savefig env i theta_ r_ with
  | Some e => lift (inl e)
  | None =>
      modify (set_temp_folder (fun files => {[ frame_name i ]} ∪ files)) ;;
      modify (set_num_frames_generated S) ;;
      modify (emit (progress (percent (Z.of_nat i + 1) nframes)))
  end.

(** [if num_frames_generated > 0 and os.path.exists(audio_path): ...] *)
Definition compile_if_frames (audio_path output_video : string) : M A unit :=
  generated <- gets num_frames_generated ;;
  present <- path_exists audio_path ;;
  when ((0 <? generated)%nat && present)
    (success <- compile_video audio_path output_video generated ;;
     when (negb success)
       (modify (emit (error ("Video compilation failed for " +:+ audio_file self
                             +:+ ". Check log."))))).

(** The body of the [try] block. *)
Definition try_body (audio_path output_video : string) : M A unit :=
  loaded <- librosa_load audio_path ;;
  let y := fst loaded in
  let sr := snd loaded in
  left_channel <- lift (getitem y 0) ;;
  right_channel <- lift (getitem y 1) ;;
  left_channel <- lift (normalize left_channel) ;;
  right_channel <- lift (normalize right_channel) ;;
  fstep <- lift (frame_step sr (fps self)) ;;
  n <- lift (len left_channel) ;;
  nframes <- lift (num_frames n fstep) ;;
  for_each (range nframes) (frame left_channel right_channel fstep nframes) ;;
  compile_if_frames audio_path output_video.

(** The [except Exception as e] handler. *)
Definition handler (audio_path output_video : string) (e : exn) : M A unit :=
  modify (logging_error ("Frame generation failed for " +:+ audio_file self
                         +:+ ": " +:+ exn_msg e)) ;;
  modify (emit (error ("Error processing " +:+ audio_file self +:+ ". Check log."))) ;;
  compile_if_frames audio_path output_video.

(** "Always clean up temp frames", then the consumed input. *)
Definition cleanup (audio_path : string) : M A unit :=
  modify (set_temp_folder (filter (fun file => endswith file ".png" = false))) ;;
  present <- path_exists audio_path ;;
  when present (modify (set_input_folder (delete audio_path))).

Definition run : M A unit :=
  let audio_path := audio_file self in
  let output_video := splitext_root (audio_file self) +:+ "_gonio.mp4" in
  modify (set_num_frames_generated (fun _ => O)) ;;
  try_except (try_body audio_path output_video)
             (handler audio_path output_video) ;;
  cleanup audio_path ;;
  generated <- gets num_frames_generated ;;
  if (0 <? generated)%nat
  then modify (emit (finished ("Processed " +:+ audio_file self +:+ " with "
                               +:+ str generated +:+ " frames.")))
  else modify (emit (error ("No frames generated for " +:+ audio_file self +:+ "."))).

End Run.

End Worker.

(** [GonioVisualizer.clear_temp_frames]: every file of the folder is removed. *)
Definition clear_temp_frames {A : Type} : M A unit :=
  modify (set_temp_folder (fun _ => ∅)).

(* ===================================================================== *)
(** ** Two scalar types                                                   *)
(* ===================================================================== *)

(** Real numbers: the two-argument arctangent with values in (-PI, PI].
    The reals have one zero and no NaN: what [np.arctan2] does on those is
    in [xatan2] below. *)
Definition Ratan2 (y x : R) : R :=
  if Rlt_dec 0 x then atan (y / x)
  else if Rlt_dec x 0 then
    (if Rle_dec 0 y then atan (y / x) + PI else atan (y / x) - PI)
  else if Rlt_dec 0 y then PI / 2
  else if Rlt_dec y 0 then - (PI / 2)
  else 0%R.

#[export] Instance R_NumOps : NumOps R := {|
  n_zero := 0%R;
  n_one := 1%R;
  n_add := Rplus;
  n_mul := Rmult;
  n_div := Rdiv;
  n_abs := Rabs;
  n_sqrt := R_sqrt.sqrt;
  n_max := Rmax;
  n_of_nat := INR
|}.

#[export] Instance R_Arctan2 : Arctan2 R := Ratan2.

(** Binary64 floats. [np.max] propagates NaN. *)
Definition float_max (a b : float) : float :=
  if PrimFloat.is_nan a then a
  else if PrimFloat.is_nan b then b
  else if PrimFloat.ltb a b then b else a.

#[export] Instance float_NumOps : NumOps float := {|
  n_zero := PrimFloat.zero;
  n_one := PrimFloat.one;
  n_add := PrimFloat.add;
  n_mul := PrimFloat.mul;
  n_div := PrimFloat.div;
  n_abs := PrimFloat.abs;
  n_sqrt := PrimFloat.sqrt;
  n_max := float_max;
  n_of_nat := fun n => float_of_Z (Z.of_nat n)
|}.

(** Samples as numpy has them, rounding set aside: a NaN, the two
    infinities, the two zeros, and the non-zero reals. The operations follow
    IEEE 754 on the special values and are exact on the others; [xatan2]
    follows the special cases C gives [atan2], which [np.arctan2] calls. *)
Inductive xreal : Type :=
  | XNaN
  | XInf (negative : bool)
  | XZero (negative : bool)
  | XReal (x : R).

Definition Rnegative (x : R) : bool := if Rlt_dec x 0 then true else false.

(** The sign bit; that of a NaN is not looked at. *)
Definition xsign (a : xreal) : bool :=
  match a with
  | XNaN => false
  | XInf negative | XZero negative => negative
  | XReal x => Rnegative x
  end.

(** A computed real: an exact zero result is [+0]. *)
Definition xreal_of_R (x : R) : xreal :=
  if Req_dec_T x 0 then XZero false else XReal x.

Definition xadd (a b : xreal) : xreal :=
  match a, b with
  | XNaN, _ | _, XNaN => XNaN
  | XInf n, XInf m => if Bool.eqb n m then XInf n else XNaN
  | XInf n, _ => XInf n
  | _, XInf m => XInf m
  | XZero n, XZero m => XZero (n && m)
  | XZero _, XReal y => XReal y
  | XReal x, XZero _ => XReal x
  | XReal x, XReal y => xreal_of_R (x + y)
  end.

Definition xmul (a b : xreal) : xreal :=
  match a, b with
  | XNaN, _ | _, XNaN => XNaN
  | XInf _, XZero _ | XZero _, XInf _ => XNaN
  | XInf n, _ => XInf (xorb n (xsign b))
  | _, XInf m => XInf (xorb (xsign a) m)
  | XZero n, _ => XZero (xorb n (xsign b))
  | _, XZero m => XZero (xorb (xsign a) m)
  | XReal x, XReal y => XReal (x * y)
  end.

(** numpy divides by zero with a warning, not an exception. *)
Definition xdiv (a b : xreal) : xreal :=
  match a, b with
  | XNaN, _ | _, XNaN => XNaN
  | XInf _, XInf _ | XZero _, XZero _ => XNaN
  | XInf n, _ => XInf (xorb n (xsign b))
  | _, XInf m => XZero (xorb (xsign a) m)
  | XZero n, _ => XZero (xorb n (xsign b))
  | XReal x, XZero m => XInf (xorb (Rnegative x) m)
  | XReal x, XReal y => XReal (x / y)
  end.

Definition xabs (a : xreal) : xreal :=
  match a with
  | XNaN => XNaN
  | XInf _ => XInf false
  | XZero _ => XZero false
  | XReal x => XReal (Rabs x)
  end.

Definition xsqrt (a : xreal) : xreal :=
  match a with
  | XNaN => XNaN
  | XInf negative => if negative then XNaN else XInf false
  | XZero negative => XZero negative
  | XReal x => if Rnegative x then XNaN else XReal (R_sqrt.sqrt x)
  end.

(** [a < b]; false when either is a NaN, and between the two zeros. *)
Definition xlt (a b : xreal) : bool :=
  match a, b with
  | XNaN, _ | _, XNaN => false
  | XInf n, XInf m => n && negb m
  | XInf n, _ => n
  | _, XInf m => negb m
  | XZero _, XZero _ => false
  | XZero _, XReal y => Rnegative (- y)
  | XReal x, XZero _ => Rnegative x
  | XReal x, XReal y => Rnegative (x - y)
  end.

(** [np.max] propagates NaN. *)
Definition xmax (a b : xreal) : xreal :=
  match a, b with
  | XNaN, _ => a
  | _, XNaN => b
  | _, _ => if xlt a b then b else a
  end.

Definition signed (negative : bool) (x : R) : R := if negative then (- x)%R else x.

Definition xatan2 (y x : xreal) : xreal :=
  match y, x with
  | XNaN, _ | _, XNaN => XNaN
  | XInf n, XInf m => XReal (signed n (if m then 3 * PI / 4 else PI / 4))
  | XInf n, _ => XReal (signed n (PI / 2))
  | _, XInf m => if m then XReal (signed (xsign y) PI) else XZero (xsign y)
  | XZero n, XZero m => if m then XReal (signed n PI) else XZero n
  | XZero n, XReal x' => if Rnegative x' then XReal (signed n PI) else XZero n
  | XReal y', XZero _ => XReal (signed (Rnegative y') (PI / 2))
  | XReal y', XReal x' => XReal (Ratan2 y' x')
  end.

#[export] Instance xreal_NumOps : NumOps xreal := {|
  n_zero := XZero false;
  n_one := XReal 1;
  n_add := xadd;
  n_mul := xmul;
  n_div := xdiv;
  n_abs := xabs;
  n_sqrt := xsqrt;
  n_max := xmax;
  n_of_nat := fun n => xreal_of_R (INR n)
|}.

#[export] Instance xreal_Arctan2 : Arctan2 xreal := xatan2.

(** A finite sample: a zero of either sign or a non-zero real. *)
Definition xfinite (a : xreal) : Prop :=
  match a with
  | XZero _ => True
  | XReal x => x <> 0%R
  | _ => False
  end.

(** [+0] or a positive real. *)
Definition xnonneg (a : xreal) : Prop :=
  match a with
  | XZero negative => negative = false
  | XReal x => (0 < x)%R
  | _ => False
  end.


(* ===================================================================== *)
(** ** Notions used in the statements                                     *)
(* ===================================================================== *)

(** The state change of one successful iteration of the loop: the frame
    file is written, the counter incremented, the progress emitted. *)
Definition frame_saved {A : Type} (nframes : Z) (i : nat) (s : State A) : State A :=
  emit (progress (Worker.percent (Z.of_nat i + 1) nframes))
    (set_num_frames_generated S
       (set_temp_folder (fun files => {[ Worker.frame_name i ]} ∪ files) s)).

Definition frames_saved {A : Type} (nframes : Z) (idxs : list nat) (s : State A)
    : State A :=
  fold_left (fun st i => frame_saved nframes i st) idxs s.

(** The image files of a folder, and the frame files with indices below [n]. *)
Definition png_files (files : gset string) : gset string :=
  filter (fun file => endswith file ".png" = true) files.

Definition frame_files (n : nat) : gset string :=
  list_to_set (Worker.frame_name <$> seq 0 n).




(** The messages of [Worker.run]. *)
Definition msg_processed {A : Type} (self : Worker.t A) (generated : nat) : string :=
  "Processed " +:+ Worker.audio_file self +:+ " with " +:+ str generated +:+ " frames.".

Definition msg_no_frames {A : Type} (self : Worker.t A) : string :=
  "No frames generated for " +:+ Worker.audio_file self +:+ ".".

Definition msg_processing_error {A : Type} (self : Worker.t A) : string :=
  "Error processing " +:+ Worker.audio_file self +:+ ". Check log.".

Definition msg_compile_failed {A : Type} (self : Worker.t A) : string :=
  "Video compilation failed for " +:+ Worker.audio_file self +:+ ". Check log.".

(** The line [compile_video] logs when the encoder raises [ffmpeg.Error]. *)
Definition compile_log {A : Type} (self : Worker.t A) (stderr : string) : string :=
  "Video compilation failed for " +:+ Worker.audio_file self +:+ ": "
  +:+ (if String.eqb stderr "" then "No stderr output available" else stderr).

(** The three ways a call of the encoder ends: it returned, it was
    reported ([ffmpeg.Error], caught by [compile_video]), it raised something
    else, which leaves [compile_video]. *)
Definition returned (outcome : ffmpeg_outcome) : bool :=
  match outcome with FfmpegOk => true | _ => false end.

Definition failed (outcome : ffmpeg_outcome) : bool :=
  match outcome with FfmpegError _ _ => true | _ => false end.

Definition raised (outcome : ffmpeg_outcome) : option exn :=
  match outcome with FfmpegRaises e _ => Some e | _ => None end.

(** What a call leaves in the output folder: the complete video when it
    returned, an incomplete file when it created one and did not return. *)
Definition leaves_output (outcome : ffmpeg_outcome) : bool :=
  match outcome with
  | FfmpegOk => true
  | FfmpegError _ output_created | FfmpegRaises _ output_created => output_created
  end.

Definition output_after (output_video : string) (job : FfmpegJob)
    (outcome : ffmpeg_outcome) (out : gmap string Video) : gmap string Video :=
  if leaves_output outcome
  then <[output_video := Build_Video job (returned outcome)]> out
  else out.

(** The state after one call of the encoder from [compile_if_frames]. *)
Definition attempted {A : Type} (self : Worker.t A) (output_video : string)
    (job : FfmpegJob) (outcome : ffmpeg_outcome) (s : State A) : State A :=
  let s1 := set_output_folder (output_after output_video job outcome)
                              (record_ffmpeg_call job s) in
  match outcome with
  | FfmpegError stderr _ =>
      emit (error (msg_compile_failed self)) (logging_error (compile_log self stderr) s1)
  | _ => s1
  end.

(** The state after the first two statements of the [except] handler, and
    the other steps of [run]: the reset of the counter, the clean-up, the
    closing signal. *)
Definition handled {A : Type} (self : Worker.t A) (e : exn) (s : State A) : State A :=
  emit (error (msg_processing_error self))
       (logging_error ("Frame generation failed for " +:+ Worker.audio_file self
                       +:+ ": " +:+ exn_msg e) s).

Definition output_name {A : Type} (self : Worker.t A) : string :=
  splitext_root (Worker.audio_file self) +:+ "_gonio.mp4".

Definition present {A : Type} (self : Worker.t A) (s : State A) : Prop :=
  is_Some (input_folder s !! Worker.audio_file self).

Definition reset {A : Type} (s : State A) : State A :=
  set_num_frames_generated (fun _ => O) s.

Definition cleaned {A : Type} (audio_path : string) (s : State A) : State A :=
  let s1 := set_temp_folder (filter (fun file => endswith file ".png" = false)) s in
  if bool_decide (is_Some (input_folder s1 !! audio_path))
  then set_input_folder (delete audio_path) s1
  else s1.

Definition closing {A : Type} (self : Worker.t A) (s : State A) : State A :=
  if (0 <? num_frames_generated s)%nat
  then emit (finished (msg_processed self (num_frames_generated s))) s
  else emit (error (msg_no_frames self)) s.

(** The stream [compile_video] builds for [generated] frames, and the
    messages it leaves in the log. *)
Definition job_for {A : Type} (self : Worker.t A) (generated : nat) : FfmpegJob :=
  Worker.stream self (Worker.audio_file self) (output_name self)
    (inject_Z (Z.of_nat generated) / inject_Z (Worker.fps self))%Q.

Definition progress_signals (nframes : Z) (k : nat) : list signal :=
  map (fun i => progress (Worker.percent (Z.of_nat i + 1) nframes)) (seq 0 k).

Definition closing_signal {A : Type} (self : Worker.t A) (generated : nat) : signal :=
  if (0 <? generated)%nat then finished (msg_processed self generated)
  else error (msg_no_frames self).

Definition fault_signals {A : Type} (self : Worker.t A) (fault : option exn)
    : list signal :=
  match fault with
  | Some _ => [error (msg_processing_error self)]
  | None => []
  end.

Definition fault_log {A : Type} (self : Worker.t A) (fault : option exn)
    : list string :=
  match fault with
  | Some e => ["Frame generation failed for " +:+ Worker.audio_file self
               +:+ ": " +:+ exn_msg e]
  | None => []
  end.

Definition encoder_log {A : Type} (self : Worker.t A) (outcome : ffmpeg_outcome)
    : list string :=
  match outcome with
  | FfmpegError stderr _ => [compile_log self stderr]
  | _ => []
  end.

Definition encoder_signals {A : Type} (self : Worker.t A) (outcome : ffmpeg_outcome)
    : list signal :=
  if failed outcome then [error (msg_compile_failed self)] else [].

(** The calls of the encoder a job makes on [job] and [frames], the first
    after [earlier] calls: one call; a second one, from the [except] handler,
    when the first was made in the [try] block and raised. *)
Definition encoder_attempts {A : Type} (env : Env A) (earlier : nat) (job : FfmpegJob)
    (frames : gset string) (in_try : bool) : list ffmpeg_outcome :=
  let first := ffmpeg_run env earlier job frames in
  match raised first with
  | Some _ =>
      if in_try then [first; ffmpeg_run env (S earlier) job frames] else [first]
  | None => [first]
  end.

(** The calls of a job that generated [k] frames and whose loop ended with
    [loop_fault]: none without a frame. *)
Definition job_attempts {A : Type} (env : Env A) (self : Worker.t A) (s : State A)
    (k : nat) (loop_fault : option exn) : list ffmpeg_outcome :=
  if (0 <? k)%nat
  then encoder_attempts env (length (ffmpeg_calls s)) (job_for self k)
                        (frame_files k ∪ temp_folder s)
                        (match loop_fault with None => true | Some _ => false end)
  else [].

(** The exception that leaves the [try] block: that of the loop, or that of
    the encoder called after the loop. *)
Definition try_fault (loop_fault : option exn) (attempts : list ffmpeg_outcome)
    : option exn :=
  match loop_fault with
  | Some e => Some e
  | None => match attempts with first :: _ => raised first | [] => None end
  end.

(** The exception that leaves [run]: that of the last call of the encoder,
    made from the handler. *)
Definition escaped (attempts : list ffmpeg_outcome) : option exn :=
  match last attempts with
  | Some outcome => raised outcome
  | None => None
  end.

(** ffmpeg's reading of the options: an image sequence of [frames] files
    played at [framerate] lasts [frames / framerate] seconds; the output runs
    as long as its longest input stream and is cut at [-t]. *)
Definition video_length (job : FfmpegJob) (frames : nat) : Q :=
  (inject_Z (Z.of_nat frames) / inject_Z (framerate job))%Q.

Definition output_duration (job : FfmpegJob) (frames : nat) (audio_length : Q) : Q :=
  Qmin (ff_t job) (Qmax (video_length job frames) audio_length).



(** A small concrete job: seven stereo samples at 4 Hz. *)
Definition demo_self (fps : Z) : Worker.t R :=
  {| Worker.audio_file := "song.mp3"; Worker.fps := fps;
     Worker.resolution := (1280, 720); Worker.color := (0, 255, 0);
     Worker.amplitude_scale := 2%R; Worker.point_size := 10%R |}.

Definition demo_audio : ndarray R :=
  Arr2 [[1; -1; 1 / 2; 0; 1; 1; 0]; [0; 1; 1; 1 / 2; -1; 0; 0]]%R.

Definition demo_state : State R :=
  {| input_folder := {[ "song.mp3" := ok (demo_audio, 4) ]};
     output_folder := ∅; temp_folder := ∅; error_log := []; emitted := [];
     ffmpeg_calls := []; num_frames_generated := O |}.

Definition missing_state : State R :=
  {| input_folder := ∅;
     output_folder := ∅; temp_folder := ∅; error_log := []; emitted := [];
     ffmpeg_calls := []; num_frames_generated := O |}.

Definition render_fault : exn := Exn "RuntimeError" "rasterization fault".

(** [savefig] fails at frame [fault_at], if any; the encoder answers [encoder]. *)
Definition demo_env (fault_at : option nat) (encoder : ffmpeg_outcome) : Env R :=
  {| savefig := fun i _ _ =>
       match fault_at with
       | Some k => if Nat.eqb i k then Some render_fault else None
       | None => None
       end;
     ffmpeg_run := fun _ _ _ => encoder;
     script_dir := "/app" |}.

(** No ffmpeg executable: [ffmpeg.run] cannot start it. *)
Definition no_ffmpeg : ffmpeg_outcome :=
  FfmpegRaises (Exn "FileNotFoundError" (no_such_file "ffmpeg")) false.

(** A renderer that never fails and an encoder that cannot be started at
    the first call and works at the next. *)
Definition retry_env : Env R :=
  {| savefig := fun _ _ _ => None;
     ffmpeg_run := fun earlier _ _ => if (earlier =? 0)%nat then no_ffmpeg else FfmpegOk;
     script_dir := "/app" |}.

(** Reading a zero-padded number back. *)
Definition parse_nat (s : string) : option nat :=
  Nat.of_uint <$> NilEmpty.uint_of_string s.

(** Spec-side wording of the projection: the mean as sum over count, and the
    polar point of one sample pair. *)
Definition Rsum (xs : list R) : R := fold_right Rplus 0%R xs.

Definition Rmean (xs : list R) : R := (Rsum xs / INR (length xs))%R.

Definition polar_point (window_amplitude : R) (sample : R * R) : R * R :=
  let (l, r) := sample in
  (Ratan2 r l, (R_sqrt.sqrt (l * l + r * r) * (1 + window_amplitude))%R).

(* ===================================================================== *)
(** A channel after [channel / np.max(np.abs(channel))], when that returns. *)
Definition normalized {A : Type} `{NumOps A} (channel : list A) : list A :=
  match Np.max (Np.abs channel) with
  | inr peak => Np.div channel peak
  | inl _ => channel
  end.

(** What [savefig] answers at iteration [i] of the loop over two arrays. *)
Definition render_at {A : Type} `{NumOps A} `{Arctan2 A} (env : Env A)
    (self : Worker.t A) (left_channel right_channel : list A) (fstep : Z) (i : nat)
    : option exn :=
  let start := Worker.window_start fstep i in
  let stop := Worker.window_end fstep (Z.of_nat (length left_channel)) i in
  savefig env i
    (Worker.theta (slice left_channel start stop) (slice right_channel start stop))
    (Worker.r (slice left_channel start stop) (slice right_channel start stop)
              (Worker.amplitude_scale self)).

(** Spec-side wording of the segmenter: window [i] of a channel is the
    block of [fstep] samples that starts at sample [i * fstep]. *)
Definition block {A : Type} (fstep : Z) (channel : list A) (i : nat) : list A :=
  take (Z.to_nat fstep) (drop (i * Z.to_nat fstep) channel).

(** Iteration [i] of the loop when it is handed the two chunks: the
    projection, the rendering and, when the file is written, the counter and
    the progress signal. *)
Definition rendered {A : Type} `{NumOps A} `{Arctan2 A} (env : Env A)
    (self : Worker.t A) (nframes : Z) (i : nat) (left_chunk right_chunk : list A)
    : M A unit :=
  fun s =>
    match savefig env i (Worker.theta left_chunk right_chunk)
                  (Worker.r left_chunk right_chunk (Worker.amplitude_scale self)) with
    | Some e => (inl e, s)
    | None => (ok tt, frame_saved nframes i s)
    end.

(** The first index below [n] at which [render] faults, with the fault; [n]
    and no fault when there is none. *)
Fixpoint first_fault_from (render : nat -> option exn) (start n : nat)
    : nat * option exn :=
  match n with
  | O => (start, None)
  | S n' =>
      match render start with
      | Some e => (start, Some e)
      | None => first_fault_from render (S start) n'
      end
  end.

Definition first_fault (render : nat -> option exn) (n : nat) : nat * option exn :=
  first_fault_from render 0 n.

(** Inputs on which the [try] block raises before the loop: a missing or
    undecodable file, a mono file, fewer than two channels, an empty channel. *)
Definition unusable {A : Type} (entry : option (result (ndarray A * Z))) : bool :=
  match entry with
  | None => true
  | Some (inl _) => true
  | Some (inr (Arr1 _, _)) => true
  | Some (inr (Arr2 (left_channel :: right_channel :: _), _)) =>
      match left_channel, right_channel with
      | _ :: _, _ :: _ => false
      | _, _ => true
      end
  | Some (inr (Arr2 _, _)) => true
  end.

(** A sequence of jobs on the shared folders, one after the other; the
    exception that leaves a job ends the sequence. *)
Fixpoint run_jobs {A : Type} `{NumOps A} `{Arctan2 A}
    (jobs : list (Env A * Worker.t A)) : M A unit :=
  match jobs with
  | [] => ret tt
  | (env, self) :: rest => bind (Worker.run env self) (fun _ => run_jobs rest)
  end.

(** The same seven samples at 44100 Hz: less than one window at 30 fps. *)
Definition short_state : State R :=
  {| input_folder := {[ "song.mp3" := ok (demo_audio, 44100) ]};
     output_folder := ∅; temp_folder := ∅; error_log := []; emitted := [];
     ffmpeg_calls := []; num_frames_generated := O |}.

(** A mono file of three samples. *)
Definition mono_state : State R :=
  {| input_folder := {[ "song.mp3" := ok (Arr1 [1; -1; 0]%R, 4) ]};
     output_folder := ∅; temp_folder := ∅; error_log := []; emitted := [];
     ffmpeg_calls := []; num_frames_generated := O |}.

(* ===================================================================== *)
(** * The front end: [GonioVisualizer]                                    *)
(* ===================================================================== *)

(** The string functions [start_processing], [dropEvent] and [select_file]
    use, on ASCII strings. *)
Module PyStr.

(** [str.lower] *)
Definition lower_char (c : ascii) : ascii :=
  let n := nat_of_ascii c in
  if (65 <=? n)%nat && (n <=? 90)%nat then ascii_of_nat (n + 32) else c.

Fixpoint lower (s : string) : string :=
  match s with
  | EmptyString => EmptyString
  | String c s' => String (lower_char c) (lower s')
  end.

(** The characters [str.split()] and [int()] treat as white space. *)
Definition is_space (c : ascii) : bool :=
  let n := nat_of_ascii c in
  ((9 <=? n)%nat && (n <=? 13)%nat) || ((28 <=? n)%nat && (n <=? 32)%nat).

(** [s.split()]: the maximal runs of characters that are not white space. *)
Fixpoint split (s : string) : list string :=
  match s with
  | EmptyString => []
  | String c s' =>
      if is_space c then split s'
      else
        match s' with
        | EmptyString => [String c EmptyString]
        | String c' _ =>
            if is_space c' then String c EmptyString :: split s'
            else
              match split s' with
              | word :: words => String c word :: words
              | [] => [String c EmptyString]
              end
        end
  end.

(** [words[0]] *)
Definition first (words : list string) : result string :=
  match words with
  | word :: _ => ok word
  | [] => raise "IndexError" "list index out of range"
  end.

Fixpoint lstrip (s : string) : string :=
  match s with
  | EmptyString => EmptyString
  | String c s' => if is_space c then lstrip s' else s
  end.

Fixpoint rstrip (s : string) : string :=
  match s with
  | EmptyString => EmptyString
  | String c s' =>
      match rstrip s' with
      | EmptyString => if is_space c then EmptyString else String c EmptyString
      | rest => String c rest
      end
  end.

Definition digit_of (c : ascii) : option Z :=
  let n := nat_of_ascii c in
  if (48 <=? n)%nat && (n <=? 57)%nat then Some (Z.of_nat (n - 48)) else None.

(** Decimal digits, with single underscores allowed between two digits. *)
Fixpoint digits (s : string) (acc : Z) (after_digit : bool) : option Z :=
  match s with
  | EmptyString => if after_digit then Some acc else None
  | String c s' =>
      match digit_of c with
      | Some d => digits s' (10 * acc + d) true
      | None => if Ascii.eqb c "_" && after_digit then digits s' acc false else None
      end
  end.

(** [int(s)] in base 10. *)
Definition int (s : string) : result Z :=
  let body := rstrip (lstrip s) in
  let parsed :=
    match body with
    | String "+" rest => digits rest 0 false
    | String "-" rest => option_map Z.opp (digits rest 0 false)
    | _ => digits body 0 false
    end in
  match parsed with
  | Some z => ok z
  | None => raise "ValueError" ("invalid literal for int() with base 10: '" +:+ s +:+ "'")
  end.

(** [os.path.basename] with the separator [/]. *)
Fixpoint has_sep (p : string) : bool :=
  match p with
  | EmptyString => false
  | String c p' => Ascii.eqb c "/" || has_sep p'
  end.

Fixpoint basename (p : string) : string :=
  match p with
  | EmptyString => EmptyString
  | String c p' =>
      if has_sep p' then basename p'
      else if Ascii.eqb c "/" then p' else p
  end.

End PyStr.

Module GonioVisualizer.

(** The attributes of the window and the state of its widgets: the text
    of the label, the current index of the two combo boxes, the value of the
    two sliders, whether the Process button is enabled, the value of the
    progress bar ([None] until [setValue] is first called) and the last
    worker created. *)
Record t (A : Type) : Type := {
  audio_file : option string;
  color : Z * Z * Z;
  amplitude_scale : A;
  point_size : A;
  label : string;
  fps_combo : nat;
  res_combo : nat;
  amplitude_slider : nat;
  point_size_slider : nat;
  process_btn : bool;
  progress_bar : option Z;
  worker : option (Worker.t A)
}.
Arguments audio_file {A} _.
Arguments color {A} _.
Arguments amplitude_scale {A} _.
Arguments point_size {A} _.
Arguments label {A} _.
Arguments fps_combo {A} _.
Arguments res_combo {A} _.
Arguments amplitude_slider {A} _.
Arguments point_size_slider {A} _.
Arguments process_btn {A} _.
Arguments progress_bar {A} _.
Arguments worker {A} _.

(** The window together with the folders it shares with its workers. *)
Definition app (A : Type) : Type := t A * State A.

(** What the user or the desktop does to the window. A path comes with
    what [shutil.copy] does when it reads it: it raises, or it copies a file
    that [librosa.load] will decode, or fail to decode, as given. A click on
    Process comes with the renderer and the encoder the job will meet. *)
Inductive event (A : Type) : Type :=
  | DropUrls (urls : list (string * result (result (ndarray A * Z))))
  | SelectFile (file_path : string) (copied : result (result (ndarray A * Z)))
  | ChooseColor (chosen : option (Z * Z * Z))
  | MoveAmplitude (value : nat)
  | MovePointSize (value : nat)
  | PickFps (index : nat)
  | PickRes (index : nat)
  | ClickProcess (env : Env A).
Arguments DropUrls {A} _.
Arguments SelectFile {A} _ _.
Arguments ChooseColor {A} _.
Arguments MoveAmplitude {A} _.
Arguments MovePointSize {A} _.
Arguments PickFps {A} _.
Arguments PickRes {A} _.
Arguments ClickProcess {A} _.

Section Setters.
Context {A : Type}.

Definition set_audio_file (v : option string) (g : t A) : t A :=
  {| audio_file := v; color := color g; amplitude_scale := amplitude_scale g;
     point_size := point_size g; label := label g; fps_combo := fps_combo g;
     res_combo := res_combo g; amplitude_slider := amplitude_slider g;
     point_size_slider := point_size_slider g; process_btn := process_btn g;
     progress_bar := progress_bar g; worker := worker g |}.

Definition set_color (v : Z * Z * Z) (g : t A) : t A :=
  {| audio_file := audio_file g; color := v; amplitude_scale := amplitude_scale g;
     point_size := point_size g; label := label g; fps_combo := fps_combo g;
     res_combo := res_combo g; amplitude_slider := amplitude_slider g;
     point_size_slider := point_size_slider g; process_btn := process_btn g;
     progress_bar := progress_bar g; worker := worker g |}.

Definition set_amplitude_scale (v : A) (g : t A) : t A :=
  {| audio_file := audio_file g; color := color g; amplitude_scale := v;
     point_size := point_size g; label := label g; fps_combo := fps_combo g;
     res_combo := res_combo g; amplitude_slider := amplitude_slider g;
     point_size_slider := point_size_slider g; process_btn := process_btn g;
     progress_bar := progress_bar g; worker := worker g |}.

Definition set_point_size (v : A) (g : t A) : t A :=
  {| audio_file := audio_file g; color := color g; amplitude_scale := amplitude_scale g;
     point_size := v; label := label g; fps_combo := fps_combo g;
     res_combo := res_combo g; amplitude_slider := amplitude_slider g;
     point_size_slider := point_size_slider g; process_btn := process_btn g;
     progress_bar := progress_bar g; worker := worker g |}.

Definition setText (v : string) (g : t A) : t A :=
  {| audio_file := audio_file g; color := color g; amplitude_scale := amplitude_scale g;
     point_size := point_size g; label := v; fps_combo := fps_combo g;
     res_combo := res_combo g; amplitude_slider := amplitude_slider g;
     point_size_slider := point_size_slider g; process_btn := process_btn g;
     progress_bar := progress_bar g; worker := worker g |}.

Definition set_fps_combo (v : nat) (g : t A) : t A :=
  {| audio_file := audio_file g; color := color g; amplitude_scale := amplitude_scale g;
     point_size := point_size g; label := label g; fps_combo := v;
     res_combo := res_combo g; amplitude_slider := amplitude_slider g;
     point_size_slider := point_size_slider g; process_btn := process_btn g;
     progress_bar := progress_bar g; worker := worker g |}.

Definition set_res_combo (v : nat) (g : t A) : t A :=
  {| audio_file := audio_file g; color := color g; amplitude_scale := amplitude_scale g;
     point_size := point_size g; label := label g; fps_combo := fps_combo g;
     res_combo := v; amplitude_slider := amplitude_slider g;
     point_size_slider := point_size_slider g; process_btn := process_btn g;
     progress_bar := progress_bar g; worker := worker g |}.

Definition set_amplitude_slider (v : nat) (g : t A) : t A :=
  {| audio_file := audio_file g; color := color g; amplitude_scale := amplitude_scale g;
     point_size := point_size g; label := label g; fps_combo := fps_combo g;
     res_combo := res_combo g; amplitude_slider := v;
     point_size_slider := point_size_slider g; process_btn := process_btn g;
     progress_bar := progress_bar g; worker := worker g |}.

Definition set_point_size_slider (v : nat) (g : t A) : t A :=
  {| audio_file := audio_file g; color := color g; amplitude_scale := amplitude_scale g;
     point_size := point_size g; label := label g; fps_combo := fps_combo g;
     res_combo := res_combo g; amplitude_slider := amplitude_slider g;
     point_size_slider := v; process_btn := process_btn g;
     progress_bar := progress_bar g; worker := worker g |}.

Definition setEnabled (v : bool) (g : t A) : t A :=
  {| audio_file := audio_file g; color := color g; amplitude_scale := amplitude_scale g;
     point_size := point_size g; label := label g; fps_combo := fps_combo g;
     res_combo := res_combo g; amplitude_slider := amplitude_slider g;
     point_size_slider := point_size_slider g; process_btn := v;
     progress_bar := progress_bar g; worker := worker g |}.

(** [self.progress.setValue(v)]: a value outside the bar's range 0..100
    leaves the bar as it is. *)
Definition setValue (v : Z) (g : t A) : t A :=
  {| audio_file := audio_file g; color := color g; amplitude_scale := amplitude_scale g;
     point_size := point_size g; label := label g; fps_combo := fps_combo g;
     res_combo := res_combo g; amplitude_slider := amplitude_slider g;
     point_size_slider := point_size_slider g; process_btn := process_btn g;
     progress_bar := if (0 <=? v) && (v <=? 100) then Some v else progress_bar g;
     worker := worker g |}.

Definition set_worker (v : option (Worker.t A)) (g : t A) : t A :=
  {| audio_file := audio_file g; color := color g; amplitude_scale := amplitude_scale g;
     point_size := point_size g; label := label g; fps_combo := fps_combo g;
     res_combo := res_combo g; amplitude_slider := amplitude_slider g;
     point_size_slider := point_size_slider g; process_btn := process_btn g;
     progress_bar := progress_bar g; worker := v |}.

End Setters.

(** The items [initUI] gives the two combo boxes. *)
Definition fps_items : list string := ["30 FPS"; "60 FPS"; "120 FPS"].

Definition res_items : list string :=
  ["720p (1280x720)"; "1080p (1920x1080)"; "4K (3840x2160)"].

(** [combo.currentText()] *)
Definition currentText (items : list string) (index : nat) : string :=
  nth index items "".

(** The dictionary literal of [start_processing], indexed. *)
Definition resolutions (key : string) : result (Z * Z) :=
  if String.eqb key "720p" then ok (1280, 720)
  else if String.eqb key "1080p" then ok (1920, 1080)
  else if String.eqb key "4K" then ok (3840, 2160)
  else raise "KeyError" ("'" +:+ key +:+ "'").

(** A slider moved to [value]: the slider keeps the value inside its range
    and calls the connected slot when the value changed. *)
Definition bounded (minimum maximum value : nat) : nat :=
  Nat.max minimum (Nat.min maximum value).

Section Handlers.
Context {A : Type} `{NumOps A} `{Arctan2 A}.

(** [__init__]: the attributes, the start-up sweep, then [initUI]. *)
Definition init (s : State A) : app A :=
  ({| audio_file := None; color := (0, 255, 0);
      amplitude_scale := n_of_nat 2; point_size := n_of_nat 10;
      label := "Drop or Select an Audio File";
      fps_combo := 0; res_combo := 0;
      amplitude_slider := 2; point_size_slider := 10;
      process_btn := false; progress_bar := None; worker := None |},
   snd (clear_temp_frames s)).

(** The four statements [dropEvent] and [select_file] share: the base
    name is stored, the file is copied to the input folder, the label and
    the button are updated. *)
Definition selected (file_path : string) (copied : result (result (ndarray A * Z)))
    (a : app A) : result (app A) :=
  let name := PyStr.basename file_path in
  let g := set_audio_file (Some name) (fst a) in
  (content <- copied ;;
   ok (setEnabled true (setText ("Selected: " +:+ name) g),
       set_input_folder (fun files => <[name := content]> files) (snd a)))%result.

(** [dropEvent]: the loop over the URLs, left at the first MP3. *)
Fixpoint dropEvent (urls : list (string * result (result (ndarray A * Z))))
    (a : app A) : result (app A) :=
  match urls with
  | [] => ok a
  | (file_path, copied) :: rest =>
      if endswith (PyStr.lower file_path) ".mp3"
      then selected file_path copied a
      else dropEvent rest a
  end.

(** [select_file]: [file_path] is what the dialog returned, empty when it
    was cancelled. *)
Definition select_file (file_path : string)
    (copied : result (result (ndarray A * Z))) (a : app A) : result (app A) :=
  if String.eqb file_path "" then ok a else selected file_path copied a.

(** [choose_color]: [None] is the invalid colour of a cancelled dialog;
    the style sheet of the button is left out. *)
Definition choose_color (chosen : option (Z * Z * Z)) (g : t A) : t A :=
  match chosen with
  | Some c => set_color c g
  | None => g
  end.

Definition update_amplitude_scale (value : nat) (g : t A) : t A :=
  set_amplitude_scale (n_div (n_of_nat value) (n_of_nat 2)) g.

Definition update_point_size (value : nat) (g : t A) : t A :=
  set_point_size (n_of_nat value) g.

Definition move_amplitude (value : nat) (g : t A) : t A :=
  let v := bounded 1 10 value in
  if (v =? amplitude_slider g)%nat then g
  else update_amplitude_scale v (set_amplitude_slider v g).

Definition move_point_size (value : nat) (g : t A) : t A :=
  let v := bounded 1 50 value in
  if (v =? point_size_slider g)%nat then g
  else update_point_size v (set_point_size_slider v g).

(** A combo box only offers its items. *)
Definition pick_fps (index : nat) (g : t A) : t A :=
  if (index <? length fps_items)%nat then set_fps_combo index g else g.

Definition pick_res (index : nat) (g : t A) : t A :=
  if (index <? length res_items)%nat then set_res_combo index g else g.

(** [start_processing], up to [self.worker.start()]. A worker built on
    [audio_file = None] dies in [os.path.join] before its [try]. *)
Definition start_processing (g : t A) : result (t A * Worker.t A) :=
  (word <- PyStr.first (PyStr.split (currentText fps_items (fps_combo g))) ;;
   fps <- PyStr.int word ;;
   let res_text := currentText res_items (res_combo g) in
   key <- PyStr.first (PyStr.split res_text) ;;
   resolution <- resolutions key ;;
   let g := setValue 0 (setEnabled false g) in
   audio <- match audio_file g with
            | Some name => ok name
            | None => raise "TypeError"
                        "expected str, bytes or os.PathLike object, not NoneType"
            end ;;
   let w := {| Worker.audio_file := audio; Worker.fps := fps;
               Worker.resolution := resolution; Worker.color := color g;
               Worker.amplitude_scale := amplitude_scale g;
               Worker.point_size := point_size g |} in
   ok (set_worker (Some w) g, w))%result.

Definition on_finished (message : string) (g : t A) : t A :=
  setValue 100 (setEnabled true (setText message g)).

Definition on_error (message : string) (g : t A) : t A :=
  setValue 0 (setEnabled true (setText message g)).

(** The three connections made by [start_processing]. *)
Definition deliver (g : t A) (sig : signal) : t A :=
  match sig with
  | progress pct => setValue pct g
  | finished message => on_finished message g
  | error message => on_error message g
  end.

(** A click on Process: nothing when the button is disabled; otherwise
    [start_processing], then the worker's [run] and the delivery of its
    signals to the slots in the order of emission. The job is taken to
    complete before the next event. *)
Definition click_process (env : Env A) (a : app A) : result (app A) :=
  if process_btn (fst a) then
    (started <- start_processing (fst a) ;;
     let '(g, w) := started in
     match Worker.run env w (snd a) with
     | (inl e, _) => inl e
     | (inr _, s') =>
         ok (fold_left deliver (drop (length (emitted (snd a))) (emitted s')) g, s')
     end)%result
  else ok a.

(** [closeEvent] *)
Definition closeEvent (a : app A) : app A := (fst a, snd (clear_temp_frames (snd a))).

(** One event; an exception that leaves a slot ends the application. *)
Definition step (ev : event A) (a : app A) : result (app A) :=
  match ev with
  | DropUrls urls => dropEvent urls a
  | SelectFile file_path copied => select_file file_path copied a
  | ChooseColor chosen => ok (choose_color chosen (fst a), snd a)
  | MoveAmplitude value => ok (move_amplitude value (fst a), snd a)
  | MovePointSize value => ok (move_point_size value (fst a), snd a)
  | PickFps index => ok (pick_fps index (fst a), snd a)
  | PickRes index => ok (pick_res index (fst a), snd a)
  | ClickProcess env => click_process env a
  end.

Fixpoint run_events (evs : list (event A)) (a : app A) : result (app A) :=
  match evs with
  | [] => ok a
  | ev :: rest => (a' <- step ev a ;; run_events rest a')%result
  end.

End Handlers.

End GonioVisualizer.

(** The states of the window and the folders that a session can reach:
    [__init__], then any events that did not end the application. *)
Definition reachable {A : Type} `{NumOps A} `{Arctan2 A}
    (a : GonioVisualizer.app A) : Prop :=
  exists (s : State A) (evs : list (GonioVisualizer.event A)),
    GonioVisualizer.run_events evs (GonioVisualizer.init s) = ok a.

(** The frame rates and resolutions the items of the combo boxes stand for. *)
Definition fps_values : list Z := [30; 60; 120].

Definition res_values : list (Z * Z) := [(1280, 720); (1920, 1080); (3840, 2160)].

(** The worker [start_processing] builds from the window. *)
Definition worker_of {A : Type} (g : GonioVisualizer.t A) (name : string) : Worker.t A :=
  {| Worker.audio_file := name;
     Worker.fps := nth (GonioVisualizer.fps_combo g) fps_values 0;
     Worker.resolution := nth (GonioVisualizer.res_combo g) res_values (0, 0);
     Worker.color := GonioVisualizer.color g;
     Worker.amplitude_scale := GonioVisualizer.amplitude_scale g;
     Worker.point_size := GonioVisualizer.point_size g |}.

(** Events that select a file. *)
Definition is_selection {A : Type} (ev : GonioVisualizer.event A) : bool :=
  match ev with
  | GonioVisualizer.DropUrls _ | GonioVisualizer.SelectFile _ _ => true
  | _ => false
  end.

(** What holds in every reachable state. *)
Definition front_end_inv {A : Type} `{NumOps A} (a : GonioVisualizer.app A) : Prop :=
  let g := fst a in
  (GonioVisualizer.process_btn g = true -> is_Some (GonioVisualizer.audio_file g)) /\
  (GonioVisualizer.fps_combo g < 3)%nat /\ (GonioVisualizer.res_combo g < 3)%nat /\
  (1 <= GonioVisualizer.amplitude_slider g <= 10)%nat /\
  (1 <= GonioVisualizer.point_size_slider g <= 50)%nat /\
  GonioVisualizer.point_size g = n_of_nat (GonioVisualizer.point_size_slider g) /\
  (GonioVisualizer.amplitude_scale g
     = n_div (n_of_nat (GonioVisualizer.amplitude_slider g)) (n_of_nat 2) \/
   (GonioVisualizer.amplitude_scale g = n_of_nat 2 /\
    GonioVisualizer.amplitude_slider g = 2%nat)) /\
  temp_folder (snd a) = ∅ /\
  (forall w, GonioVisualizer.worker g = Some w ->
     Worker.fps w ∈ fps_values /\ Worker.resolution w ∈ res_values).

(** A short session: a file is chosen, the amplitude slider moved to 3. *)
Definition demo_events : list (GonioVisualizer.event R) :=
  [GonioVisualizer.SelectFile "/music/song.mp3" (ok (ok (demo_audio, 60)));
   GonioVisualizer.MoveAmplitude 3].

Definition demo_app : GonioVisualizer.app R :=
  match GonioVisualizer.run_events demo_events (GonioVisualizer.init missing_state) with
  | inr a => a
  | inl _ => GonioVisualizer.init missing_state
  end.

(* ===================================================================== *)
(** * The command-line variant: vizlab.py                                 *)
(* ===================================================================== *)

Module VizLab.

(** The three lines [run] prints:
    ["[v] Frame {i} saved to {frame_path}"], ["Error: {e}"] and
    ["Done: {num_frames_generated} frames saved."], with the frame named
    inside the temporary folder. *)
Inductive line : Type :=
  | FrameSaved (i : nat) (frame : string)
  | Error (message : string)
  | Done (generated : nat).

(** What this [run] acts on: the files [librosa.load] can be pointed at,
    the temporary folder, standard output and the local counter. *)
Record State (A : Type) : Type := {
  files : gmap string (result (ndarray A * Z));
  temp_folder : gset string;
  stdout : list line;
  num_frames_generated : nat
}.
Arguments files {A} _.
Arguments temp_folder {A} _.
Arguments stdout {A} _.
Arguments num_frames_generated {A} _.

(** The attributes set by [__init__]; the resolution is the tuple
    [__main__] makes of the argument, of any length. *)
Record t (A : Type) : Type := {
  audio_file : string;
  fps : Z;
  resolution : list Z;
  color : Z * Z * Z;
  amplitude_scale : A;
  point_size : A;
  video_format : string
}.
Arguments audio_file {A} _.
Arguments fps {A} _.
Arguments resolution {A} _.
Arguments color {A} _.
Arguments amplitude_scale {A} _.
Arguments point_size {A} _.
Arguments video_format {A} _.

Definition M (A X : Type) : Type := State A -> result X * State A.

Section Monad.
Context {A : Type}.

Definition ret {X : Type} (x : X) : M A X := fun s => (ok x, s).

Definition bind {X Y : Type} (c : M A X) (k : X -> M A Y) : M A Y :=
  fun s =>
    match c s with
    | (inl e, s') => (inl e, s')
    | (inr x, s') => k x s'
    end.

Definition lift {X : Type} (c : result X) : M A X := fun s => (c, s).

Definition gets {X : Type} (f : State A -> X) : M A X := fun s => (ok (f s), s).

Definition modify (f : State A -> State A) : M A unit := fun s => (ok tt, f s).

Definition try_except {X : Type} (body : M A X) (handler : exn -> M A X) : M A X :=
  fun s =>
    match body s with
    | (inl e, s') => handler e s'
    | (inr x, s') => (inr x, s')
    end.

Definition when (b : bool) (c : M A unit) : M A unit :=
  if b then c else ret tt.

Fixpoint for_each (idxs : list nat) (body : nat -> M A unit) : M A unit :=
  match idxs with
  | [] => ret tt
  | i :: rest => bind (body i) (fun _ => for_each rest body)
  end.

Definition set_temp_folder (f : gset string -> gset string) (s : State A) : State A :=
  {| files := files s; temp_folder := f (temp_folder s); stdout := stdout s;
     num_frames_generated := num_frames_generated s |}.

Definition print (l : line) (s : State A) : State A :=
  {| files := files s; temp_folder := temp_folder s; stdout := stdout s ++ [l];
     num_frames_generated := num_frames_generated s |}.

Definition set_num_frames_generated (f : nat -> nat) (s : State A) : State A :=
  {| files := files s; temp_folder := temp_folder s; stdout := stdout s;
     num_frames_generated := f (num_frames_generated s) |}.

End Monad.

Declare Scope V_scope.
Delimit Scope V_scope with V.
Notation "x <- c ;; k" := (bind c (fun x => k))
  (at level 100, c at next level, right associativity) : V_scope.
Notation "c ;; k" := (bind c (fun _ => k))
  (at level 100, right associativity) : V_scope.

(** [width, height = self.resolution] *)
Definition unpack (resolution : list Z) : result (Z * Z) :=
  match resolution with
  | [width; height] => ok (width, height)
  | [] | [_] =>
      raise "ValueError"
            ("not enough values to unpack (expected 2, got "
             +:+ str (length resolution) +:+ ")")
  | _ => raise "ValueError" "too many values to unpack (expected 2)"
  end.

Section Run.
Context {A : Type} `{NumOps A} `{Arctan2 A}.
Variable env : Env A.
Variable self : t A.

Local Open Scope V_scope.

(** [librosa.load(audio_path, mono=False)] *)
Definition librosa_load (audio_path : string) : M A (ndarray A * Z) :=
  fun s =>
    match files s !! audio_path with
    | Some decoded => (decoded, s)
    | None => (raise "FileNotFoundError" (no_such_file audio_path), s)
    end.

(** One iteration of [for i in range(num_frames)]. *)
Definition frame (left_channel right_channel : ndvalue A) (fstep : Z) (i : nat)
    : M A unit :=
  let start := Worker.window_start fstep i in
  n <- lift (len left_channel) ;;
  let stop := Z.min (start + fstep) n in
  left_chunk <- lift (getslice left_channel start stop) ;;
  right_chunk <- lift (getslice right_channel start stop) ;;
  let theta_ := Worker.theta left_chunk right_chunk in
  let r_ := Worker.r left_chunk right_chunk (amplitude_scale self) in
  match savefig env i theta_ r_ with
  | Some e => lift (inl e)
  | None =>
      modify (set_temp_folder (fun frames => {[ Worker.frame_name i ]} ∪ frames)) ;;
      modify (print (FrameSaved i (Worker.frame_name i))) ;;
      modify (set_num_frames_generated S)
  end.

(** The body of the [try] block. *)
Definition try_body : M A unit :=
  loaded <- librosa_load (audio_file self) ;;
  let y := fst loaded in
  let sr := snd loaded in
  left_channel <- lift (getitem y 0) ;;
  right_channel <- lift (getitem y 1) ;;
  left_channel <- lift (Worker.normalize left_channel) ;;
  right_channel <- lift (Worker.normalize right_channel) ;;
  fstep <- lift (Worker.frame_step sr (fps self)) ;;
  n <- lift (len left_channel) ;;
  nframes <- lift (Worker.num_frames n fstep) ;;
  size <- lift (unpack (resolution self)) ;;
  for_each (range nframes) (frame left_channel right_channel fstep).

Definition run : M A unit :=
  modify (set_num_frames_generated (fun _ => O)) ;;
  try_except try_body (fun e => modify (print (Error (exn_msg e)))) ;;
  generated <- gets num_frames_generated ;;
  when (0 <? generated)%nat (modify (print (Done generated))).

End Run.

End VizLab.








(** * Properties                                                          *)
(* ===================================================================== *)

(** ** Slicing and windowing *)

Section SliceFacts.
Context {X : Type}.
Implicit Types xs : list X.

Lemma slice_index_inside (n i : Z) : 0 <= i <= n -> slice_index n i = i.
Proof.
  intros [Hlo Hhi]. unfold slice_index.
  destruct (Z.ltb_spec i 0); lia.
Qed.

Lemma slice_inside xs (a m : Z) :
  0 <= a -> 0 <= m -> a + m <= Z.of_nat (length xs) ->
  slice xs a (a + m) = take (Z.to_nat m) (drop (Z.to_nat a) xs).
Proof.
  intros Ha Hm Hle. unfold slice.
  rewrite !slice_index_inside by lia.
  f_equal. lia.
Qed.

Lemma length_slice_inside xs (a m : Z) :
  0 <= a -> 0 <= m -> a + m <= Z.of_nat (length xs) ->
  length (slice xs a (a + m)) = Z.to_nat m.
Proof.
  intros Ha Hm Hle. rewrite slice_inside by assumption.
  rewrite length_take, length_drop. lia.
Qed.

(** Consecutive blocks of [m] elements, glued back, give a prefix. *)
Lemma concat_blocks xs (m k : nat) :
  (k * m <= length xs)%nat ->
  concat (map (fun i => take m (drop (i * m) xs)) (seq 0 k)) = take (k * m) xs.
Proof.
  induction k as [|k IH]; intros Hle.
  - reflexivity.
  - rewrite seq_S, map_app, concat_app. simpl.
    rewrite IH by lia. rewrite app_nil_r.
    rewrite take_take_drop. f_equal. lia.
Qed.

End SliceFacts.

Lemma frame_step_floor (sr fps : Z) :
  1 <= sr / fps -> Worker.frame_step sr fps = ok (sr / fps).
Proof.
  intros Hq. unfold Worker.frame_step.
  destruct (Z.eqb_spec fps 0) as [->|Hne].
  - rewrite Z.div_0_r in Hq. lia.
  - f_equal.
    destruct (Z_lt_le_dec 0 fps) as [Hpos|Hneg].
    + assert (0 <= sr).
      { destruct (Z_lt_le_dec sr 0) as [Hs|Hs]; [|exact Hs].
        pose proof (Z.div_lt_upper_bound sr fps 0 Hpos ltac:(lia)). lia. }
      apply Z.quot_div_nonneg; lia.
    + assert (fps < 0) by lia.
      assert (sr <= 0).
      { destruct (Z_lt_le_dec 0 sr) as [Hs|Hs]; [|exact Hs].
        rewrite <- Z.div_opp_opp in Hq by lia.
        pose proof (Z.div_lt_upper_bound (- sr) (- fps) 0 ltac:(lia) ltac:(lia)). lia. }
      rewrite <- Z.quot_opp_opp by lia.
      rewrite Z.quot_div_nonneg by lia.
      apply Z.div_opp_opp. lia.
Qed.

Section WindowFacts.
Context {A : Type} `{NumOps A}.
Implicit Types left_channel right_channel : list A.

Lemma window_bounds (n fstep : Z) (i : nat) :
  1 <= fstep -> 0 <= n -> (i < Z.to_nat (n / fstep))%nat ->
  0 <= Worker.window_start fstep i /\
  Worker.window_end fstep n i = Worker.window_start fstep i + fstep /\
  Worker.window_start fstep i + fstep <= n.
Proof.
  intros Hf Hn Hi. unfold Worker.window_end, Worker.window_start.
  pose proof (Z.mul_div_le n fstep ltac:(lia)) as Hmul.
  assert (Z.of_nat i + 1 <= n / fstep) as Hi' by lia.
  assert ((Z.of_nat i + 1) * fstep <= n) by nia.
  split; [nia|]. split; lia.
Qed.

End WindowFacts.

(** ** Peak normalisation *)

Section NormalizeFacts.
Context {A : Type} `{NumOps A}.

(** A non-empty channel is never rejected: whatever its peak is, every
    sample is divided by it. *)
Lemma peak_normalize_nonempty (channel : list A) :
  channel <> [] ->
  exists peak, Np.max (Np.abs channel) = ok peak /\
               Worker.peak_normalize channel = ok (map (fun x => n_div x peak) channel).
Proof.
  intros Hne. destruct channel as [|x rest]; [congruence|].
  unfold Worker.peak_normalize. simpl.
  eexists. split; reflexivity.
Qed.

Lemma peak_normalize_empty :
  exists e, Worker.peak_normalize (@nil A) = inl e /\ exn_class e = "ValueError".
Proof. eexists. split; reflexivity. Qed.

End NormalizeFacts.

Section RealFacts.
Local Open Scope R_scope.
Implicit Types xs ys : list R.

Lemma fold_left_Rplus xs (a : R) : fold_left Rplus xs a = a + Rsum xs.
Proof.
  revert a. induction xs as [|x xs IH]; intros a; simpl.
  - lra.
  - rewrite IH. lra.
Qed.

Lemma np_sum_real xs : Np.sum xs = Rsum xs.
Proof. unfold Np.sum. simpl. rewrite fold_left_Rplus. lra. Qed.

Lemma np_mean_real xs : Np.mean xs = Rmean xs.
Proof. unfold Np.mean, Rmean. now rewrite np_sum_real. Qed.

Lemma Rsum_nonneg xs : Forall (fun x => 0 <= x) xs -> 0 <= Rsum xs.
Proof.
  induction 1 as [|x xs Hx _ IH]; simpl; lra.
Qed.

Lemma Rmean_nonneg xs : Forall (fun x => 0 <= x) xs -> 0 <= Rmean xs.
Proof.
  intros Hxs. unfold Rmean. destruct xs as [|x xs'].
  - simpl. unfold Rdiv. rewrite Rinv_0. lra.
  - apply Rsum_nonneg in Hxs.
    apply Rmult_le_pos; [exact Hxs|].
    left. apply Rinv_0_lt_compat. apply lt_0_INR. simpl. lia.
Qed.

Lemma Rsum_repeat (c : R) (n : nat) : Rsum (repeat c n) = INR n * c.
Proof.
  induction n as [|n IH].
  - simpl. lra.
  - change (repeat c (S n)) with (c :: repeat c n).
    simpl Rsum. rewrite IH, S_INR. lra.
Qed.

Lemma Rmean_repeat (c : R) (n : nat) : (0 < n)%nat -> Rmean (repeat c n) = c.
Proof.
  intros Hn. unfold Rmean. rewrite Rsum_repeat, repeat_length.
  field. apply not_0_INR. lia.
Qed.

(** The pointwise sum of absolute values, sample pair by sample pair. *)
Lemma abs_sum_pairs xs ys :
  Np.add (Np.abs xs) (Np.abs ys)
  = map (fun s => Rabs (fst s) + Rabs (snd s)) (zip xs ys).
Proof.
  unfold Np.add, Np.abs.
  revert ys. induction xs as [|x xs IH]; intros [|y ys]; simpl; try reflexivity.
  now rewrite <- IH.
Qed.

Lemma abs_sum_nonneg xs ys :
  Forall (fun x => 0 <= x) (Np.add (Np.abs xs) (Np.abs ys)).
Proof.
  rewrite abs_sum_pairs. apply Forall_forall. intros v Hv.
  apply list_elem_of_fmap in Hv as (s & -> & _).
  pose proof (Rabs_pos (fst s)). pose proof (Rabs_pos (snd s)). lra.
Qed.

Lemma amplitude_nonneg xs ys (amplitude_scale : R) :
  0 <= amplitude_scale -> 0 <= Worker.amplitude xs ys amplitude_scale.
Proof.
  intros Hs. unfold Worker.amplitude. rewrite np_mean_real.
  apply Rmult_le_pos; [|exact Hs].
  apply Rmean_nonneg, abs_sum_nonneg.
Qed.

(** The array formulation of [theta] and [r] against the per-sample one. *)
Lemma polar_pairs xs ys (c : R) :
  zip (Np.arctan2 ys xs)
      (Np.scale (Np.sqrt (Np.add (Np.square xs) (Np.square ys))) (n_add n_one c))
  = map (polar_point c) (zip xs ys).
Proof.
  unfold Np.arctan2, Np.scale, Np.sqrt, Np.add, Np.square.
  revert ys. induction xs as [|x xs IH]; intros [|y ys]; simpl; try reflexivity.
  f_equal. apply IH.
Qed.

Lemma length_theta xs ys :
  length xs = length ys -> length (Worker.theta xs ys) = length xs.
Proof.
  intros Hlen. unfold Worker.theta, Np.arctan2.
  rewrite length_zip_with. lia.
Qed.

Lemma length_r xs ys (amplitude_scale : R) :
  length xs = length ys -> length (Worker.r xs ys amplitude_scale) = length xs.
Proof.
  intros Hlen. unfold Worker.r, Np.scale, Np.sqrt, Np.add, Np.square.
  rewrite !length_map, length_zip_with, !length_map. lia.
Qed.

(** Every radius is a square root times [1 + amplitude]. *)
Lemma r_lookup xs ys (amplitude_scale : R) (i : nat) (l r : R) :
  xs !! i = Some l -> ys !! i = Some r ->
  Worker.r xs ys amplitude_scale !! i
  = Some (R_sqrt.sqrt (l * l + r * r) * (1 + Worker.amplitude xs ys amplitude_scale)).
Proof.
  intros Hl Hr. unfold Worker.r, Np.scale, Np.sqrt, Np.add, Np.square.
  rewrite !list_lookup_fmap, lookup_zip_with, !list_lookup_fmap, Hl, Hr.
  reflexivity.
Qed.

Lemma r_elements xs ys (amplitude_scale : R) (v : R) :
  v ∈ Worker.r xs ys amplitude_scale ->
  exists l r, l ∈ xs /\ r ∈ ys /\
    v = R_sqrt.sqrt (l * l + r * r) * (1 + Worker.amplitude xs ys amplitude_scale).
Proof.
  intros Hv. apply list_elem_of_lookup in Hv as (i & Hi).
  unfold Worker.r, Np.scale, Np.sqrt, Np.add, Np.square in Hi.
  rewrite !list_lookup_fmap, lookup_zip_with, !list_lookup_fmap in Hi.
  destruct (xs !! i) as [l|] eqn:Hl; [|discriminate].
  destruct (ys !! i) as [r|] eqn:Hr; [|discriminate].
  simpl in Hi. injection Hi as <-.
  exists l, r. split; [eapply list_elem_of_lookup_2; eauto|].
  split; [eapply list_elem_of_lookup_2; eauto|reflexivity].
Qed.

End RealFacts.

(** ** Samples with signed zeros *)

Section XrealFacts.
Local Open Scope R_scope.




Lemma xnonneg_finite (a : xreal) : xnonneg a -> xfinite a.
Proof. destruct a as [|n|n|x]; simpl; try tauto. lra. Qed.



















End XrealFacts.

Section ProjectionLookups.
Context {A : Type} `{NumOps A} `{Arctan2 A}.


End ProjectionLookups.

Section ProjectionTheorems.
Local Open Scope R_scope.

(** C1. For a window of paired samples the projection computes
    [window_amplitude = mean(|left_chunk| + |right_chunk|) * amplitude_scale]
    and, for every pair [(l, r)], [theta = atan2(r, l)] and
    [radius = sqrt(l*l + r*r) * (1 + window_amplitude)], one point per
    sample; with [amplitude_scale = 1] and both chunks constant [1/2] the
    amplitude is 1 and every radius is [sqrt(1/2) * 2]. *)
Theorem polar_projection (left_chunk right_chunk : list R) (amplitude_scale : R) :
  length left_chunk = length right_chunk ->
  let samples := zip left_chunk right_chunk in
  let window_amplitude := Worker.amplitude left_chunk right_chunk amplitude_scale in
  window_amplitude
    = Rmean (map (fun s => Rabs (fst s) + Rabs (snd s)) samples) * amplitude_scale /\
  zip (Worker.theta left_chunk right_chunk)
      (Worker.r left_chunk right_chunk amplitude_scale)
    = map (polar_point window_amplitude) samples /\
  length (Worker.theta left_chunk right_chunk) = length left_chunk /\
  length (Worker.r left_chunk right_chunk amplitude_scale) = length left_chunk /\
  (forall n : nat, (0 < n)%nat ->
     left_chunk = repeat (1 / 2) n -> right_chunk = repeat (1 / 2) n ->
     amplitude_scale = 1 ->
     window_amplitude = 1 /\
     Forall (fun radius => radius = R_sqrt.sqrt (1 / 2) * 2)
            (Worker.r left_chunk right_chunk amplitude_scale)).
Proof.
  intros Hlen samples window_amplitude.
  assert (Hamp : window_amplitude
                 = Rmean (map (fun s => Rabs (fst s) + Rabs (snd s)) samples)
                   * amplitude_scale).
  { unfold window_amplitude, Worker.amplitude.
    rewrite np_mean_real, abs_sum_pairs. reflexivity. }
  split; [exact Hamp|].
  split; [apply polar_pairs|].
  split; [apply length_theta; exact Hlen|].
  split; [apply length_r; exact Hlen|].
  intros n Hn Hl Hr Hs.
  assert (Hone : window_amplitude = 1).
  { rewrite Hamp. unfold samples. rewrite Hl, Hr, Hs.
    replace (map (fun s => Rabs (fst s) + Rabs (snd s))
                 (zip (repeat (1 / 2) n) (repeat (1 / 2) n)))
      with (repeat 1 n).
    - rewrite Rmean_repeat by exact Hn. lra.
    - clear. induction n as [|n IH]; simpl; [reflexivity|].
      rewrite <- IH. f_equal.
      rewrite Rabs_pos_eq by lra. lra. }
  split; [exact Hone|].
  apply Forall_forall. intros v Hv.
  apply r_elements in Hv as (l & r & Hlin & Hrin & ->).
  fold window_amplitude. rewrite Hone.
  rewrite Hl in Hlin. rewrite Hr in Hrin.
  apply list_elem_of_In, repeat_spec in Hlin.
  apply list_elem_of_In, repeat_spec in Hrin.
  subst l r.
  replace (1 / 2 * (1 / 2) + 1 / 2 * (1 / 2)) with (1 / 2) by lra. lra.
Qed.

Lemma polar_projection_witness :
  length [1 / 2; 1 / 2] = length [1 / 2; 1 / 2] /\
  Worker.amplitude [1 / 2; 1 / 2] [1 / 2; 1 / 2] 1 = 1 /\
  Forall (fun radius => radius = R_sqrt.sqrt (1 / 2) * 2)
         (Worker.r [1 / 2; 1 / 2] [1 / 2; 1 / 2] 1).
Proof.
  split; [reflexivity|].
  destruct (polar_projection [1 / 2; 1 / 2] [1 / 2; 1 / 2] 1 eq_refl)
    as (_ & _ & _ & _ & Hex).
  exact (Hex 2%nat ltac:(lia) eq_refl eq_refl eq_refl).
Defined.






End ProjectionTheorems.

Section NormalizeTheorems.
Local Open Scope R_scope.

Lemma Rmax_div (a b p : R) : 0 < p -> Rmax (a / p) (b / p) = Rmax a b / p.
Proof.
  intros Hp. pose proof (Rinv_0_lt_compat p Hp) as Hip.
  unfold Rmax.
  destruct (Rle_dec a b) as [Hab|Hab], (Rle_dec (a / p) (b / p)) as [Hq|Hq];
    try reflexivity; exfalso.
  - apply Hq. unfold Rdiv. nra.
  - apply Hab. apply (Rmult_le_reg_r (/ p)); [exact Hip|exact Hq].
Qed.

Lemma fold_left_Rmax_div (xs : list R) (a p : R) :
  0 < p ->
  fold_left Rmax (map (fun x => x / p) xs) (a / p) = fold_left Rmax xs a / p.
Proof.
  intros Hp. revert a. induction xs as [|x xs IH]; intros a; simpl.
  - reflexivity.
  - rewrite Rmax_div by exact Hp. apply IH.
Qed.

Lemma fold_left_Rmax_init (xs : list R) (a : R) : a <= fold_left Rmax xs a.
Proof.
  revert a. induction xs as [|x xs IH]; intros a; simpl.
  - lra.
  - etransitivity; [apply (Rmax_l a x)|apply IH].
Qed.

Lemma fold_left_Rmax_ge (xs : list R) (a v : R) :
  v ∈ a :: xs -> v <= fold_left Rmax xs a.
Proof.
  intros Hv. apply elem_of_cons in Hv as [->|Hv]; [apply fold_left_Rmax_init|].
  revert a. induction xs as [|x xs IH]; intros a.
  - inversion Hv.
  - simpl. apply elem_of_cons in Hv as [->|Hv].
    + etransitivity; [apply (Rmax_r a x)|apply fold_left_Rmax_init].
    + apply IH. exact Hv.
Qed.

Lemma fold_left_Rmax_zero (xs : list R) :
  Forall (fun x => x = 0) xs -> fold_left Rmax (map Rabs xs) 0 = 0.
Proof.
  induction 1 as [|x xs -> _ IH]; simpl.
  - reflexivity.
  - rewrite Rabs_R0, Rmax_left by lra. exact IH.
Qed.

(** C3, as the code has it. Every non-empty channel is divided, sample by
    sample, by its maximum absolute value, and no zero-peak check exists:
    with one non-zero sample the normalised peak is exactly 1, and a
    silent channel is divided by a zero peak without any error. *)
Theorem peak_normalize_real (channel : list R) :
  channel <> [] ->
  exists peak : R,
    Np.max (Np.abs channel) = ok peak /\
    Worker.peak_normalize channel = ok (map (fun x => x / peak) channel) /\
    (Exists (fun x => x <> 0) channel ->
       Np.max (Np.abs (map (fun x => x / peak) channel)) = ok 1) /\
    (Forall (fun x => x = 0) channel -> peak = 0).
Proof.
  intros Hne. destruct channel as [|x rest]; [congruence|].
  exists (fold_left Rmax (map Rabs rest) (Rabs x)).
  split; [reflexivity|]. split; [reflexivity|]. split.
  - intros Hex.
    set (peak := fold_left Rmax (map Rabs rest) (Rabs x)).
    assert (Hpos : 0 < peak).
    { apply Exists_exists in Hex as (v & Hv & Hnz).
      apply Rlt_le_trans with (Rabs v); [apply Rabs_pos_lt; exact Hnz|].
      apply fold_left_Rmax_ge.
      change (Rabs x :: map Rabs rest) with (map Rabs (x :: rest)).
      apply list_elem_of_fmap. exists v. split; [reflexivity|exact Hv]. }
    unfold Np.max, Np.abs. simpl. f_equal.
    replace (map Rabs (map (fun y => y / peak) rest))
      with (map (fun y => y / peak) (map Rabs rest)).
    + replace (Rabs (x / peak)) with (Rabs x / peak).
      * rewrite fold_left_Rmax_div by exact Hpos. fold peak. field. lra.
      * unfold Rdiv. rewrite Rabs_mult, (Rabs_pos_eq (/ peak)); [reflexivity|].
        left. apply Rinv_0_lt_compat. exact Hpos.
    + rewrite !map_map. apply map_ext. intros y.
      unfold Rdiv. rewrite Rabs_mult, (Rabs_pos_eq (/ peak)); [reflexivity|].
      left. apply Rinv_0_lt_compat. exact Hpos.
  - intros Hz. inversion Hz as [|? ? Hx Hrest]; subst.
    rewrite Rabs_R0. apply fold_left_Rmax_zero. exact Hrest.
Qed.

Lemma peak_normalize_real_witness :
  [1 / 2; -2; 1] <> [] /\
  exists peak : R,
    Worker.peak_normalize [1 / 2; -2; 1] = ok (map (fun x => x / peak) [1 / 2; -2; 1]) /\
    Np.max (Np.abs (map (fun x => x / peak) [1 / 2; -2; 1])) = ok 1.
Proof.
  split; [discriminate|].
  destruct (peak_normalize_real [1 / 2; -2; 1] ltac:(discriminate))
    as (peak & _ & Hn & Hone & _).
  exists peak. split; [exact Hn|].
  apply Hone. apply Exists_cons_hd. lra.
Defined.

End NormalizeTheorems.

(** C3 refuted as stated: in IEEE arithmetic a silent channel has peak 0,
    is not rejected, and every sample becomes NaN. *)
Lemma silent_channel_not_rejected :
  Np.max (Np.abs [0%float; 0%float]) = ok 0%float /\
  Worker.peak_normalize [0%float; 0%float] = ok [PrimFloat.nan; PrimFloat.nan] /\
  ~ (exists e, Worker.peak_normalize [0%float; 0%float] = inl e
               /\ exn_class e = "SilentChannelError").
Proof.
  split; [vm_compute; reflexivity|].
  split; [vm_compute; reflexivity|].
  intros (e & He & _). vm_compute in He. discriminate He.
Qed.

(** ** Frame file names *)

Section StringFacts.
Implicit Types a b c : string.

Lemma length_append a b :
  String.length (a +:+ b) = (String.length a + String.length b)%nat.
Proof. induction a as [|ch a IH]; simpl; [reflexivity|now rewrite IH]. Qed.

Lemma substring_all b : substring 0 (String.length b) b = b.
Proof. induction b as [|ch b IH]; simpl; [reflexivity|now rewrite IH]. Qed.

Lemma substring_append_tail a b :
  substring (String.length a) (String.length b) (a +:+ b) = b.
Proof. induction a as [|ch a IH]; simpl; [apply substring_all|exact IH]. Qed.

Lemma endswith_append a b : endswith (a +:+ b) b = true.
Proof.
  unfold endswith. rewrite length_append.
  apply andb_true_intro. split.
  - apply Nat.leb_le. lia.
  - replace (String.length a + String.length b - String.length b)%nat
      with (String.length a) by lia.
    rewrite substring_append_tail. apply String.eqb_refl.
Qed.

Lemma append_inj_tail a b c : a +:+ c = b +:+ c -> a = b.
Proof.
  intros Heq.
  assert (Hlen : String.length a = String.length b).
  { apply (f_equal String.length) in Heq. rewrite !length_append in Heq. lia. }
  revert b Heq Hlen. induction a as [|x a IH]; intros [|y b] Heq Hlen;
    simpl in Hlen; try discriminate.
  - reflexivity.
  - simpl in Heq. injection Heq as -> Heq. f_equal. apply IH; [exact Heq|lia].
Qed.

Lemma parse_nat_zeros (k : nat) (s : string) :
  parse_nat (zeros k +:+ s) = parse_nat s.
Proof.
  unfold parse_nat. induction k as [|k IH]; simpl; [reflexivity|].
  destruct (NilEmpty.uint_of_string (zeros k +:+ s)) as [d|];
    destruct (NilEmpty.uint_of_string s) as [d'|]; simpl in *;
    try discriminate; try reflexivity.
  injection IH as IH. f_equal. exact IH.
Qed.

Lemma parse_nat_format (n : nat) : parse_nat (format_05d n) = Some n.
Proof.
  unfold format_05d, zfill. rewrite parse_nat_zeros.
  unfold parse_nat, str. rewrite NilEmpty.usu. simpl.
  now rewrite Unsigned.of_to.
Qed.

Lemma format_05d_inj (m n : nat) : format_05d m = format_05d n -> m = n.
Proof.
  intros Heq. apply (f_equal parse_nat) in Heq.
  rewrite !parse_nat_format in Heq. now injection Heq.
Qed.

Lemma frame_name_inj (m n : nat) : Worker.frame_name m = Worker.frame_name n -> m = n.
Proof.
  unfold Worker.frame_name. intros Heq.
  apply String.app_inj in Heq. apply append_inj_tail in Heq.
  apply format_05d_inj. exact Heq.
Qed.

Lemma frame_name_png (i : nat) : endswith (Worker.frame_name i) ".png" = true.
Proof.
  unfold Worker.frame_name.
  change ("frame_" +:+ format_05d i +:+ ".png")
    with (("frame_" +:+ format_05d i) +:+ ".png").
  apply endswith_append.
Qed.

(** The encoder's pattern names exactly the files the loop writes. *)
Lemma sequence_file_frame (i : nat) :
  Worker.sequence_file "frame_%05d.png" i = Worker.frame_name i.
Proof. reflexivity. Qed.

End StringFacts.

(** ** The orchestration of [Worker.run] *)

#[local] Set Warnings "-clear-no-such-hyp".
Section LoopFacts.
Context {A : Type} {num_ops : NumOps A} {arctan2_op : Arctan2 A}.
Variable env : Env A.
Variable self : Worker.t A.

Lemma for_each_app (xs ys : list nat) (body : nat -> M A unit) (s : State A) :
  for_each (xs ++ ys) body s
  = match for_each xs body s with
    | (inl e, s') => (inl e, s')
    | (inr _, s') => for_each ys body s'
    end.
Proof.
  revert s. induction xs as [|x xs IH]; intros s; simpl.
  - reflexivity.
  - unfold bind. destruct (body x s) as [[e|[]] s']; [reflexivity|apply IH].
Qed.

Lemma frame_cases (left_channel right_channel : ndvalue A) (fstep nframes : Z)
    (i : nat) (s : State A) :
  (exists e, Worker.frame env self left_channel right_channel fstep nframes i s
             = (inl e, s)) \/
  Worker.frame env self left_channel right_channel fstep nframes i s
  = (ok tt, frame_saved nframes i s).
Proof.
  unfold Worker.frame, bind, lift.
  destruct (len left_channel) as [e|n]; [left; eauto|].
  destruct (getslice left_channel _ _) as [e|left_chunk]; [left; eauto|].
  destruct (getslice right_channel _ _) as [e|right_chunk]; [left; eauto|].
  destruct (savefig env i _ _) as [e|]; [left; eauto|].
  right. reflexivity.
Qed.

Lemma loop_outcome (left_channel right_channel : ndvalue A) (fstep nframes : Z)
    (a k : nat) (s : State A) :
  exists j : nat,
    (j <= k)%nat /\
    snd (for_each (seq a k) (Worker.frame env self left_channel right_channel fstep nframes) s)
    = frames_saved nframes (seq a j) s /\
    ((fst (for_each (seq a k) (Worker.frame env self left_channel right_channel fstep nframes) s)
      = ok tt /\ j = k) \/
     (exists e, fst (for_each (seq a k)
                      (Worker.frame env self left_channel right_channel fstep nframes) s)
                = inl e /\ (j < k)%nat)).
Proof.
  revert a s. induction k as [|k IH]; intros a s.
  - exists O. simpl. split; [lia|]. split; [reflexivity|]. left. split; reflexivity.
  - simpl. unfold bind.
    destruct (frame_cases left_channel right_channel fstep nframes a s)
      as [(e & He)|Hok].
    + rewrite He. exists O. simpl. split; [lia|]. split; [reflexivity|].
      right. exists e. split; [reflexivity|lia].
    + rewrite Hok. unfold ok.
      destruct (IH (S a) (frame_saved nframes a s)) as (j & Hj & Hst & Hres).
      exists (S j). split; [lia|]. split; [exact Hst|].
      destruct Hres as [[Hr ->]|(e & Hr & Hlt)].
      * left. split; [exact Hr|reflexivity].
      * right. exists e. split; [exact Hr|lia].
Qed.

Lemma frames_saved_cons (nframes : Z) (i : nat) (idxs : list nat) (s : State A) :
  frames_saved nframes (i :: idxs) s = frames_saved nframes idxs (frame_saved nframes i s).
Proof. reflexivity. Qed.

(** The fields of the state after a run of saved frames. *)
Lemma frames_saved_temp (nframes : Z) (idxs : list nat) (s : State A) :
  temp_folder (frames_saved nframes idxs s)
  = list_to_set (Worker.frame_name <$> idxs) ∪ temp_folder s.
Proof.
  revert s. induction idxs as [|i idxs IH]; intros s.
  - simpl. set_solver.
  - rewrite frames_saved_cons, IH. simpl. set_solver.
Qed.

Lemma frames_saved_generated (nframes : Z) (idxs : list nat) (s : State A) :
  num_frames_generated (frames_saved nframes idxs s)
  = (length idxs + num_frames_generated s)%nat.
Proof.
  revert s. induction idxs as [|i idxs IH]; intros s.
  - reflexivity.
  - rewrite frames_saved_cons, IH. simpl. lia.
Qed.

Lemma frames_saved_emitted (nframes : Z) (idxs : list nat) (s : State A) :
  emitted (frames_saved nframes idxs s)
  = (emitted s ++ map (fun i => progress (Worker.percent (Z.of_nat i + 1) nframes)) idxs)%list.
Proof.
  revert s. induction idxs as [|i idxs IH]; intros s.
  - simpl. now rewrite app_nil_r.
  - rewrite frames_saved_cons, IH. simpl. now rewrite <- app_assoc.
Qed.

Lemma frames_saved_rest (nframes : Z) (idxs : list nat) (s : State A) :
  input_folder (frames_saved nframes idxs s) = input_folder s /\
  output_folder (frames_saved nframes idxs s) = output_folder s /\
  error_log (frames_saved nframes idxs s) = error_log s /\
  ffmpeg_calls (frames_saved nframes idxs s) = ffmpeg_calls s.
Proof.
  revert s. induction idxs as [|i idxs IH]; intros s.
  - repeat split.
  - rewrite frames_saved_cons.
    destruct (IH (frame_saved nframes i s)) as (H1 & H2 & H3 & H4).
    rewrite H1, H2, H3, H4. repeat split.
Qed.

Lemma bind_lift {X Y : Type} (c : result X) (k : X -> M A Y) (s : State A) :
  bind (lift c) k s = match c with inl e => (inl e, s) | inr x => k x s end.
Proof. destruct c; reflexivity. Qed.

Lemma compile_if_frames_spec (audio_path output_video : string) (s : State A) :
  Worker.compile_if_frames env self audio_path output_video s
  = if (0 <? num_frames_generated s)%nat
       && bool_decide (is_Some (input_folder s !! audio_path))
    then match Worker.duration (num_frames_generated s) (Worker.fps self) with
         | inl e => (inl e, s)
         | inr t_ =>
             let job := Worker.stream self audio_path output_video t_ in
             let outcome :=
               ffmpeg_run env (length (ffmpeg_calls s)) job (temp_folder s) in
             (match raised outcome with Some e => inl e | None => ok tt end,
              attempted self output_video job outcome s)
         end
    else (ok tt, s).
Proof.
  unfold Worker.compile_if_frames, Worker.path_exists, Worker.compile_video.
  unfold bind, gets, lift, modify, ret, when. simpl.
  destruct ((0 <? num_frames_generated s)%nat
            && bool_decide (is_Some (input_folder s !! audio_path))); [|reflexivity].
  destruct (Worker.duration (num_frames_generated s) (Worker.fps self)) as [e|t_];
    [reflexivity|].
  simpl.
  destruct (ffmpeg_run env _ _ (temp_folder s)) as [|stderr [|]|e [|]]; reflexivity.
Qed.

Lemma duration_ok (generated : nat) (fps : Z) :
  fps <> 0 ->
  Worker.duration generated fps = ok (inject_Z (Z.of_nat generated) / inject_Z fps)%Q.
Proof.
  intros Hne. unfold Worker.duration.
  destruct (Z.eqb_spec fps 0); [contradiction|reflexivity].
Qed.

(** The [try] body either raises before the loop, leaving the state
    untouched, or reaches the loop with a readable input and a non-zero
    frame rate. *)
Lemma try_body_cases (audio_path output_video : string) (s : State A) :
  (exists e, Worker.try_body env self audio_path output_video s = (inl e, s)) \/
  (exists (left_channel right_channel : ndvalue A) (fstep nframes : Z),
     Worker.fps self <> 0 /\
     is_Some (input_folder s !! audio_path) /\
     Worker.try_body env self audio_path output_video s
     = match for_each (range nframes)
               (Worker.frame env self left_channel right_channel fstep nframes) s with
       | (inl e, s') => (inl e, s')
       | (inr _, s') => Worker.compile_if_frames env self audio_path output_video s'
       end).
Proof.
  remember (Worker.try_body env self audio_path output_video s) as res eqn:Hres.
  unfold Worker.try_body in Hres.
  unfold bind at 1 in Hres. unfold Worker.librosa_load in Hres.
  destruct (input_folder s !! audio_path) as [decoded|] eqn:Hin; [|left; eexists; exact Hres].
  destruct decoded as [e|[y sr]]; [left; eexists; exact Hres|].
  cbv beta iota in Hres. simpl fst in Hres. simpl snd in Hres.
  rewrite bind_lift in Hres. destruct (getitem y 0) as [e|l0]; [left; eexists; exact Hres|].
  rewrite bind_lift in Hres. destruct (getitem y 1) as [e|r0]; [left; eexists; exact Hres|].
  rewrite bind_lift in Hres.
  destruct (Worker.normalize l0) as [e|left_channel]; [left; eexists; exact Hres|].
  rewrite bind_lift in Hres.
  destruct (Worker.normalize r0) as [e|right_channel]; [left; eexists; exact Hres|].
  rewrite bind_lift in Hres.
  destruct (Worker.frame_step sr (Worker.fps self)) as [e|fstep] eqn:Hfs; [left; eexists; exact Hres|].
  rewrite bind_lift in Hres. destruct (len left_channel) as [e|n]; [left; eexists; exact Hres|].
  rewrite bind_lift in Hres.
  destruct (Worker.num_frames n fstep) as [e|nframes]; [left; eexists; exact Hres|].
  right. exists left_channel, right_channel, fstep, nframes.
  split.
  { unfold Worker.frame_step in Hfs.
    destruct (Z.eqb_spec (Worker.fps self) 0); [discriminate|assumption]. }
  split; [eauto|].
  rewrite Hres. unfold bind.
  destruct (for_each _ _ s) as [[e|[]] s']; reflexivity.
Qed.

(** Without a frame the compile step does nothing. *)
Lemma compile_if_frames_idle (audio_path output_video : string) (s : State A) :
  num_frames_generated s = O ->
  Worker.compile_if_frames env self audio_path output_video s = (ok tt, s).
Proof. intros Hz. rewrite compile_if_frames_spec, Hz. reflexivity. Qed.

(** With frames and the input in place it calls the encoder once; what the
    encoder raises, other than [ffmpeg.Error], leaves it. *)
Lemma compile_if_frames_attempt (s : State A) :
  (0 < num_frames_generated s)%nat -> Worker.fps self <> 0 ->
  is_Some (input_folder s !! Worker.audio_file self) ->
  let job := job_for self (num_frames_generated s) in
  let outcome := ffmpeg_run env (length (ffmpeg_calls s)) job (temp_folder s) in
  Worker.compile_if_frames env self (Worker.audio_file self) (output_name self) s
  = (match raised outcome with Some e => inl e | None => ok tt end,
     attempted self (output_name self) job outcome s).
Proof.
  intros Hk Hfps Hin. cbv zeta. rewrite compile_if_frames_spec.
  apply Nat.ltb_lt in Hk. rewrite Hk, bool_decide_eq_true_2 by exact Hin.
  rewrite duration_ok by exact Hfps. reflexivity.
Qed.

Lemma run_unfold (s : State A) :
  Worker.run env self s
  = match try_except
            (Worker.try_body env self (Worker.audio_file self) (output_name self))
            (Worker.handler env self (Worker.audio_file self) (output_name self))
            (reset s) with
    | (inl e, s') => (inl e, s')
    | (inr _, s') => (ok tt, closing self (cleaned (Worker.audio_file self) s'))
    end.
Proof.
  unfold Worker.run. unfold bind at 1. unfold modify at 1. fold (reset s).
  unfold bind at 1. fold (output_name self).
  destruct (try_except _ _ (reset s)) as [[e|[]] s']; [reflexivity|].
  unfold Worker.cleanup, Worker.path_exists, bind, modify, gets, when, ret,
    closing, cleaned.
  simpl.
  destruct (bool_decide _); simpl;
    destruct (0 <? num_frames_generated s')%nat; reflexivity.
Qed.

Lemma handler_unfold (audio_path output_video : string) (e : exn) (s : State A) :
  Worker.handler env self audio_path output_video e s
  = Worker.compile_if_frames env self audio_path output_video (handled self e s).
Proof. reflexivity. Qed.

Lemma attempted_fields (output_video : string) (job : FfmpegJob)
    (outcome : ffmpeg_outcome) (s : State A) :
  let s' := attempted self output_video job outcome s in
  num_frames_generated s' = num_frames_generated s /\
  temp_folder s' = temp_folder s /\
  input_folder s' = input_folder s /\
  ffmpeg_calls s' = (ffmpeg_calls s ++ [(job, temp_folder s)])%list /\
  emitted s' = (emitted s ++ encoder_signals self outcome)%list /\
  error_log s' = (error_log s ++ encoder_log self outcome)%list /\
  output_folder s' = output_after output_video job outcome (output_folder s).
Proof. destruct outcome; simpl; rewrite ?app_nil_r; repeat split. Qed.

Lemma handled_fields (e : exn) (s : State A) :
  let s' := handled self e s in
  num_frames_generated s' = num_frames_generated s /\
  temp_folder s' = temp_folder s /\
  input_folder s' = input_folder s /\
  ffmpeg_calls s' = ffmpeg_calls s /\
  emitted s' = (emitted s ++ fault_signals self (Some e))%list /\
  error_log s' = (error_log s ++ fault_log self (Some e))%list /\
  output_folder s' = output_folder s.
Proof. repeat split. Qed.

Lemma closing_cleaned_fields (s : State A) :
  let fin := closing self (cleaned (Worker.audio_file self) s) in
  num_frames_generated fin = num_frames_generated s /\
  temp_folder fin = filter (fun file => endswith file ".png" = false) (temp_folder s) /\
  ffmpeg_calls fin = ffmpeg_calls s /\
  emitted fin = (emitted s ++ [closing_signal self (num_frames_generated s)])%list /\
  output_folder fin = output_folder s /\
  error_log fin = error_log s /\
  input_folder fin = delete (Worker.audio_file self) (input_folder s).
Proof.
  unfold closing, cleaned, closing_signal. simpl.
  destruct (bool_decide (is_Some (input_folder s !! Worker.audio_file self))) eqn:Hp;
    simpl; destruct (0 <? num_frames_generated s)%nat; simpl;
    repeat split;
    apply bool_decide_eq_false in Hp; symmetry; apply delete_id;
    now apply eq_None_not_Some.
Qed.

(** What follows the loop: the compile step of the [try] block when the
    loop returned, then the handler when something was raised. [st] is the
    state the loop left. *)
Lemma after_loop_fields (st : State A) (loop_fault : option exn)
    (tried : result unit * State A) :
  let k := num_frames_generated st in
  ((0 < k)%nat ->
   Worker.fps self <> 0 /\ is_Some (input_folder st !! Worker.audio_file self)) ->
  tried = match loop_fault with
          | Some e0 => (inl e0, st)
          | None => Worker.compile_if_frames env self (Worker.audio_file self)
                                             (output_name self) st
          end ->
  let job := job_for self k in
  let frames := temp_folder st in
  let attempts :=
    if (0 <? k)%nat
    then encoder_attempts env (length (ffmpeg_calls st)) job frames
           (match loop_fault with None => true | Some _ => false end)
    else [] in
  let fault := try_fault loop_fault attempts in
  let left :=
    match tried with
    | (inl e, st') =>
        Worker.handler env self (Worker.audio_file self) (output_name self) e st'
    | (inr x, st') => (inr x, st')
    end in
  fst tried = match fault with Some e => inl e | None => ok tt end /\
  num_frames_generated (snd tried) = k /\
  ffmpeg_calls (snd tried)
  = (ffmpeg_calls st
     ++ match loop_fault with
        | None => take 1 (map (fun _ => (job, frames)) attempts)
        | Some _ => []
        end)%list /\
  output_folder (snd tried)
  = fold_left (fun out outcome => output_after (output_name self) job outcome out)
              (match loop_fault with None => take 1 attempts | Some _ => [] end)
              (output_folder st) /\
  fst left = match escaped attempts with Some e => inl e | None => ok tt end /\
  num_frames_generated (snd left) = k /\
  temp_folder (snd left) = frames /\
  input_folder (snd left) = input_folder st /\
  ffmpeg_calls (snd left)
  = (ffmpeg_calls st ++ map (fun _ => (job, frames)) attempts)%list /\
  emitted (snd left)
  = (emitted st ++ fault_signals self fault
     ++ flat_map (encoder_signals self) attempts)%list /\
  error_log (snd left)
  = (error_log st ++ fault_log self fault ++ flat_map (encoder_log self) attempts)%list /\
  output_folder (snd left)
  = fold_left (fun out outcome => output_after (output_name self) job outcome out)
              attempts (output_folder st).
Proof.
  intros k Hcond -> job frames.
  destruct (Nat.ltb_spec 0 k) as [Hk|Hk].
  2:{ assert (Hz : num_frames_generated st = O) by (unfold k in Hk; lia).
      cbv zeta. destruct loop_fault as [e0|].
      - rewrite handler_unfold, compile_if_frames_idle by exact Hz. simpl.
        rewrite !app_nil_r. repeat split.
      - rewrite compile_if_frames_idle by exact Hz. simpl.
        rewrite !app_nil_r. repeat split. }
  destruct (Hcond Hk) as [Hfps Hin].
  cbv zeta. unfold encoder_attempts.
  destruct loop_fault as [e0|].
  - (* the loop raised: one call, from the handler *)
    rewrite handler_unfold.
    pose proof (compile_if_frames_attempt (handled self e0 st) Hk Hfps Hin) as Hc.
    cbv zeta in Hc. simpl num_frames_generated in Hc. simpl ffmpeg_calls in Hc.
    simpl temp_folder in Hc. fold k job frames in Hc. rewrite Hc.
    set (a1 := ffmpeg_run env (length (ffmpeg_calls st)) job frames).
    destruct (attempted_fields (output_name self) job a1 (handled self e0 st))
      as (F1 & F2 & F3 & F4 & F5 & F6 & F7).
    simpl fst. simpl snd. rewrite F1, F2, F3, F4, F5, F6, F7.
    rewrite app_nil_r.
    destruct (raised a1) as [e1|] eqn:Hr; unfold escaped; simpl; rewrite ?Hr;
      rewrite ?app_nil_r, <- ?app_assoc; repeat split.
  - (* the loop returned: the call of the [try] block, then the handler's *)
    pose proof (compile_if_frames_attempt st Hk Hfps Hin) as Hc.
    cbv zeta in Hc. fold k job frames in Hc. rewrite Hc.
    set (a1 := ffmpeg_run env (length (ffmpeg_calls st)) job frames).
    destruct (attempted_fields (output_name self) job a1 st)
      as (F1 & F2 & F3 & F4 & F5 & F6 & F7).
    destruct (raised a1) as [e1|] eqn:Hr.
    + simpl fst. simpl snd. rewrite handler_unfold.
      set (s3 := attempted self (output_name self) job a1 st) in *.
      assert (Hk3 : (0 < num_frames_generated (handled self e1 s3))%nat)
        by (simpl; rewrite F1; exact Hk).
      assert (Hin3 : is_Some (input_folder (handled self e1 s3) !! Worker.audio_file self))
        by (simpl; rewrite F3; exact Hin).
      pose proof (compile_if_frames_attempt (handled self e1 s3) Hk3 Hfps Hin3) as Hc2.
      cbv zeta in Hc2. simpl num_frames_generated in Hc2. simpl ffmpeg_calls in Hc2.
      simpl temp_folder in Hc2. rewrite F1, F2, F4 in Hc2.
      rewrite length_app in Hc2. simpl length in Hc2. rewrite Nat.add_1_r in Hc2.
      fold k job frames in Hc2. rewrite Hc2.
      set (a2 := ffmpeg_run env (S (length (ffmpeg_calls st))) job frames).
      destruct (attempted_fields (output_name self) job a2 (handled self e1 s3))
        as (G1 & G2 & G3 & G4 & G5 & G6 & G7).
      simpl fst. simpl snd. rewrite G1, G2, G3, G4, G5, G6, G7.
      simpl num_frames_generated. simpl temp_folder. simpl input_folder.
      simpl ffmpeg_calls. simpl emitted. simpl error_log. simpl output_folder.
      rewrite F1, F2, F3, F4, F5, F6, F7.
      assert (Hs1 : encoder_signals self a1 = []) by (destruct a1; try discriminate; reflexivity).
      assert (Hl1 : encoder_log self a1 = []) by (destruct a1; try discriminate; reflexivity).
      unfold escaped. simpl. rewrite Hs1, Hl1, ?Hr. simpl.
      rewrite ?app_nil_r, <- ?app_assoc. repeat split.
    + simpl fst. simpl snd. rewrite F1, F2, F3, F4, F5, F6, F7.
      unfold escaped. simpl. rewrite ?Hr, ?app_nil_r. repeat split.
Qed.

(** The outcome of a job whose loop saved [k] frames and ended with
    [loop_fault], in terms of the answers of the encoder. *)
Lemma run_fields_of (s : State A) (nframes : Z) (k : nat) (loop_fault : option exn) :
  ((0 < k)%nat -> Worker.fps self <> 0 /\ present self s) ->
  Worker.try_body env self (Worker.audio_file self) (output_name self) (reset s)
  = match loop_fault with
    | Some e0 => (inl e0, frames_saved nframes (seq 0 k) (reset s))
    | None => Worker.compile_if_frames env self (Worker.audio_file self)
                (output_name self) (frames_saved nframes (seq 0 k) (reset s))
    end ->
  let job := job_for self k in
  let frames := frame_files k ∪ temp_folder s in
  let attempts := job_attempts env self s k loop_fault in
  let fault := try_fault loop_fault attempts in
  let tried := Worker.try_body env self (Worker.audio_file self) (output_name self)
                               (reset s) in
  let fin := snd (Worker.run env self s) in
  fst tried = match fault with Some e => inl e | None => ok tt end /\
  num_frames_generated (snd tried) = k /\
  ffmpeg_calls (snd tried)
  = (ffmpeg_calls s
     ++ match loop_fault with
        | None => take 1 (map (fun _ => (job, frames)) attempts)
        | Some _ => []
        end)%list /\
  output_folder (snd tried)
  = fold_left (fun out outcome => output_after (output_name self) job outcome out)
              (match loop_fault with None => take 1 attempts | Some _ => [] end)
              (output_folder s) /\
  fst (Worker.run env self s)
  = match escaped attempts with Some e => inl e | None => ok tt end /\
  num_frames_generated fin = k /\
  temp_folder fin
  = match escaped attempts with
    | Some _ => frames
    | None => filter (fun file => endswith file ".png" = false) frames
    end /\
  ffmpeg_calls fin = (ffmpeg_calls s ++ map (fun _ => (job, frames)) attempts)%list /\
  emitted fin
  = (emitted s ++ progress_signals nframes k ++ fault_signals self fault
     ++ flat_map (encoder_signals self) attempts
     ++ match escaped attempts with
        | Some _ => []
        | None => [closing_signal self k]
        end)%list /\
  output_folder fin
  = fold_left (fun out outcome => output_after (output_name self) job outcome out)
              attempts (output_folder s) /\
  error_log fin
  = (error_log s ++ fault_log self fault
     ++ flat_map (encoder_log self) attempts)%list /\
  input_folder fin
  = match escaped attempts with
    | Some _ => input_folder s
    | None => delete (Worker.audio_file self) (input_folder s)
    end.
Proof.
  intros Hpos Hbody.
  set (s1 := frames_saved nframes (seq 0 k) (reset s)) in *.
  assert (Hgen1 : num_frames_generated s1 = k).
  { unfold s1. rewrite frames_saved_generated, length_seq. simpl. lia. }
  assert (Htemp1 : temp_folder s1 = frame_files k ∪ temp_folder s).
  { unfold s1. rewrite frames_saved_temp. reflexivity. }
  assert (Hemit1 : emitted s1 = (emitted s ++ progress_signals nframes k)%list).
  { unfold s1. rewrite frames_saved_emitted. reflexivity. }
  destruct (frames_saved_rest nframes (seq 0 k) (reset s))
    as (Hin1 & Hout1 & Hlog1 & Hcalls1).
  fold s1 in Hin1, Hout1, Hlog1, Hcalls1. simpl in Hin1, Hout1, Hlog1, Hcalls1.
  assert (Hcond : (0 < num_frames_generated s1)%nat ->
                  Worker.fps self <> 0
                  /\ is_Some (input_folder s1 !! Worker.audio_file self)).
  { rewrite Hgen1, Hin1. exact Hpos. }
  pose proof (after_loop_fields s1 loop_fault _ Hcond Hbody) as Hafter.
  cbv zeta in Hafter. rewrite Hgen1, Htemp1, Hin1, Hout1, Hlog1, Hcalls1, Hemit1 in Hafter.
  fold (job_attempts env self s k loop_fault) in Hafter.
  destruct Hafter as (T1 & T2 & T3 & T4 & L1 & L2 & L3 & L4 & L5 & L6 & L7 & L8).
  cbv zeta. split; [exact T1|]. split; [exact T2|]. split; [exact T3|].
  split; [exact T4|].
  rewrite run_unfold. unfold try_except.
  set (tried := Worker.try_body env self (Worker.audio_file self) (output_name self)
                  (reset s)) in *.
  set (left := match tried with
               | (inl e, st') =>
                   Worker.handler env self (Worker.audio_file self) (output_name self) e st'
               | (inr x, st') => (inr x, st')
               end) in *.
  destruct left as [[e|[]] s3] eqn:Hleft; simpl in L1, L2, L3, L4, L5, L6, L7, L8.
  - (* the handler's call raised: [run] is left at once *)
    destruct (escaped (job_attempts env self s k loop_fault)) as [e'|]; [|discriminate].
    injection L1 as ->. simpl fst. simpl snd.
    rewrite L2, L3, L4, L5, L6, L7, L8, !app_nil_r, <- !app_assoc. repeat split.
  - destruct (escaped (job_attempts env self s k loop_fault)) as [e'|]; [discriminate|].
    simpl fst. simpl snd.
    destruct (closing_cleaned_fields s3)
      as (Fgen & Ftemp & Fcalls & Femit & Fout & Flog & Fin).
    rewrite Fgen, Ftemp, Fcalls, Femit, Fout, Flog, Fin.
    rewrite L2, L3, L4, L5, L6, L7, L8, <- !app_assoc. repeat split.
Qed.


(** The complete outcome of a job, in terms of the number [k] of saved
    frames, the exception [loop_fault] raised before or in the loop, if any,
    and the answers of the encoder. *)
Lemma run_fields (s : State A) :
  exists (nframes : Z) (k : nat) (loop_fault : option exn),
    (k <= Z.to_nat nframes)%nat /\
    ((0 < k)%nat -> Worker.fps self <> 0 /\ present self s) /\
    (loop_fault = None -> k = Z.to_nat nframes) /\
    let job := job_for self k in
    let frames := frame_files k ∪ temp_folder s in
    let attempts := job_attempts env self s k loop_fault in
    let fault := try_fault loop_fault attempts in
    let tried := Worker.try_body env self (Worker.audio_file self) (output_name self)
                                 (reset s) in
    let fin := snd (Worker.run env self s) in
    fst tried = match fault with Some e => inl e | None => ok tt end /\
    num_frames_generated (snd tried) = k /\
    ffmpeg_calls (snd tried)
    = (ffmpeg_calls s
       ++ match loop_fault with
          | None => take 1 (map (fun _ => (job, frames)) attempts)
          | Some _ => []
          end)%list /\
    output_folder (snd tried)
    = fold_left (fun out outcome => output_after (output_name self) job outcome out)
                (match loop_fault with None => take 1 attempts | Some _ => [] end)
                (output_folder s) /\
    fst (Worker.run env self s)
    = match escaped attempts with Some e => inl e | None => ok tt end /\
    num_frames_generated fin = k /\
    temp_folder fin
    = match escaped attempts with
      | Some _ => frames
      | None => filter (fun file => endswith file ".png" = false) frames
      end /\
    ffmpeg_calls fin = (ffmpeg_calls s ++ map (fun _ => (job, frames)) attempts)%list /\
    emitted fin
    = (emitted s ++ progress_signals nframes k ++ fault_signals self fault
       ++ flat_map (encoder_signals self) attempts
       ++ match escaped attempts with
          | Some _ => []
          | None => [closing_signal self k]
          end)%list /\
    output_folder fin
    = fold_left (fun out outcome => output_after (output_name self) job outcome out)
                attempts (output_folder s) /\
    error_log fin
    = (error_log s ++ fault_log self fault
       ++ flat_map (encoder_log self) attempts)%list /\
    input_folder fin
    = match escaped attempts with
      | Some _ => input_folder s
      | None => delete (Worker.audio_file self) (input_folder s)
      end.
Proof.
  assert (Hloop : exists (nframes : Z) (k : nat) (loop_fault : option exn),
            (k <= Z.to_nat nframes)%nat /\
            ((0 < k)%nat -> Worker.fps self <> 0 /\ present self s) /\
            (loop_fault = None -> k = Z.to_nat nframes) /\
            Worker.try_body env self (Worker.audio_file self) (output_name self) (reset s)
            = match loop_fault with
              | Some e0 => (inl e0, frames_saved nframes (seq 0 k) (reset s))
              | None => Worker.compile_if_frames env self (Worker.audio_file self)
                          (output_name self) (frames_saved nframes (seq 0 k) (reset s))
              end).
  { destruct (try_body_cases (Worker.audio_file self) (output_name self) (reset s))
      as [(e & Hearly)|(lc & rc & fstep & nframes & Hfps & Hin & Hbody)].
    - exists 0, O, (Some e). simpl.
      split; [lia|]. split; [lia|]. split; [discriminate|exact Hearly].
    - destruct (loop_outcome lc rc fstep nframes 0 (Z.to_nat nframes) (reset s))
        as (j & Hj & Hst & Hres).
      unfold range in Hbody.
      destruct (for_each _ _ (reset s)) as [res s1] eqn:Hl.
      simpl in Hst, Hres. subst s1.
      destruct Hres as [[-> ->]|(e & -> & Hlt)].
      + exists nframes, (Z.to_nat nframes), None.
        split; [lia|]. split; [intros _; split; assumption|].
        split; [reflexivity|exact Hbody].
      + exists nframes, j, (Some e).
        split; [lia|]. split; [intros _; split; assumption|].
        split; [discriminate|exact Hbody]. }
  destruct Hloop as (nframes & k & loop_fault & Hk & Hpos & Hnone & Hbody).
  exists nframes, k, loop_fault.
  split; [exact Hk|]. split; [exact Hpos|]. split; [exact Hnone|].
  exact (run_fields_of s nframes k loop_fault Hpos Hbody).
Qed.

End LoopFacts.

Section StoreFacts.

#[local] Instance frame_name_Inj : Inj (=) (=) Worker.frame_name.
Proof. intros m n. apply frame_name_inj. Qed.

Lemma elem_of_frame_files (k : nat) (file : string) :
  file ∈ frame_files k <-> exists i, (i < k)%nat /\ file = Worker.frame_name i.
Proof.
  unfold frame_files. rewrite elem_of_list_to_set, list_elem_of_fmap.
  split.
  - intros (i & -> & Hi). apply elem_of_seq in Hi. exists i. split; [lia|reflexivity].
  - intros (i & Hi & ->). exists i. split; [reflexivity|]. apply elem_of_seq. lia.
Qed.

Lemma size_frame_files (k : nat) : size (frame_files k) = k.
Proof.
  unfold frame_files. rewrite size_list_to_set.
  - now rewrite length_fmap, length_seq.
  - apply NoDup_fmap_2; [apply frame_name_Inj|apply NoDup_seq].
Qed.

Lemma png_files_frames (k : nat) (files : gset string) :
  png_files files = ∅ -> png_files (frame_files k ∪ files) = frame_files k.
Proof.
  intros Hnone. apply set_eq. intros file. unfold png_files in *.
  rewrite elem_of_filter, elem_of_union. split.
  - intros (Hpng & [Hin|Hin]); [exact Hin|].
    exfalso. apply (not_elem_of_empty (C := gset string) file).
    rewrite <- Hnone. apply elem_of_filter. split; assumption.
  - intros Hin. split; [|left; exact Hin].
    apply elem_of_frame_files in Hin as (i & _ & ->). apply frame_name_png.
Qed.

Lemma png_files_cleaned (files : gset string) :
  png_files (filter (fun file => endswith file ".png" = false) files) = ∅.
Proof.
  apply set_eq. intros file. unfold png_files.
  rewrite !elem_of_filter. split.
  - intros (Hpng & Hnot & _). congruence.
  - intros Hin. exfalso. exact (not_elem_of_empty (C := gset string) file Hin).
Qed.

Lemma frame_not_in_png_free (files : gset string) (i : nat) :
  png_files files = ∅ -> Worker.frame_name i ∉ files.
Proof.
  intros Hnone Hin. apply (not_elem_of_empty (C := gset string) (Worker.frame_name i)).
  rewrite <- Hnone. apply elem_of_filter. split; [apply frame_name_png|exact Hin].
Qed.

End StoreFacts.

Section OrchestratorTheorems.
Context {A : Type} {num_ops : NumOps A} {arctan2_op : Arctan2 A}.
Variable env : Env A.
Variable self : Worker.t A.

Lemma job_for_fields (k : nat) :
  video_input (job_for self k) = "frame_%05d.png" /\
  framerate (job_for self k) = Worker.fps self /\
  ff_r (job_for self k) = Worker.fps self /\
  ff_t (job_for self k) = (inject_Z (Z.of_nat k) / inject_Z (Worker.fps self))%Q /\
  output_file (job_for self k) = output_name self /\
  audio_input (job_for self k) = Worker.audio_file self.
Proof. repeat split. Qed.

(** The calls of a job with frames: one, or two when the first was made in
    the [try] block and raised. *)
Lemma job_attempts_cases (s : State A) (k : nat) (loop_fault : option exn) :
  (0 < k)%nat ->
  let job := job_for self k in
  let frames := frame_files k ∪ temp_folder s in
  let first := ffmpeg_run env (length (ffmpeg_calls s)) job frames in
  let second := ffmpeg_run env (S (length (ffmpeg_calls s))) job frames in
  (job_attempts env self s k loop_fault = [first] /\
   (loop_fault = None -> raised first = None)) \/
  (job_attempts env self s k loop_fault = [first; second] /\
   loop_fault = None /\ is_Some (raised first)).
Proof.
  intros Hk job frames first second. unfold job_attempts, encoder_attempts.
  apply Nat.ltb_lt in Hk. rewrite Hk. fold job frames first second.
  destruct (raised first) as [e|] eqn:Hr.
  - destruct loop_fault as [e0|].
    + left. split; [reflexivity|discriminate].
    + right. split; [reflexivity|]. split; [reflexivity|eauto].
  - left. split; [reflexivity|reflexivity].
Qed.

(** What the calls of a job leave under the name of its output file: what
    was there, or a file written from the stream of the job. *)
Lemma output_after_job (job : FfmpegJob) (attempts : list ffmpeg_outcome)
    (out : gmap string Video) :
  let out' := fold_left (fun o a => output_after (output_name self) job a o) attempts out in
  out' !! output_name self = out !! output_name self \/
  exists completed, out' !! output_name self = Some (Build_Video job completed).
Proof.
  cbv zeta. revert out. induction attempts as [|a l IH]; intros out; simpl.
  - left. reflexivity.
  - destruct (IH (output_after (output_name self) job a out)) as [Hsame|Hnew];
      [|right; exact Hnew].
    rewrite Hsame. unfold output_after. destruct (leaves_output a).
    + right. eexists. apply lookup_insert_eq.
    + left. reflexivity.
Qed.

(** C5. A job that ends with [N > 0] generated frames called the encoder
    once - or twice, when the first call, made in the [try] block, raised
    something else than [ffmpeg.Error] and the handler called it again. Every
    call was made on the same stream, whose frames are read at [fps], written
    at [fps], and whose duration limit is [t = N / fps]: the [N] frames fill
    exactly that time, so no frame is interpolated, and whatever the length
    of the audio the output lasts [N / fps] seconds. The output file of the
    job is what it was before, or was written from that stream. *)
Theorem encoding_duration (s : State A) :
  let fin := snd (Worker.run env self s) in
  let N := num_frames_generated fin in
  (0 < N)%nat ->
  exists frames : gset string,
    let job := job_for self N in
    (ffmpeg_calls fin = (ffmpeg_calls s ++ [(job, frames)])%list \/
     (ffmpeg_calls fin = (ffmpeg_calls s ++ [(job, frames); (job, frames)])%list /\
      is_Some (raised (ffmpeg_run env (length (ffmpeg_calls s)) job frames)))) /\
    (output_folder fin !! output_name self = output_folder s !! output_name self \/
     exists completed,
       output_folder fin !! output_name self = Some (Build_Video job completed)) /\
    Worker.fps self <> 0 /\
    ff_t job = (inject_Z (Z.of_nat N) / inject_Z (Worker.fps self))%Q /\
    framerate job = Worker.fps self /\
    ff_r job = Worker.fps self /\
    (video_length job N == ff_t job)%Q /\
    (forall audio_length : Q,
       output_duration job N audio_length
       == inject_Z (Z.of_nat N) / inject_Z (Worker.fps self))%Q.
Proof.
  intros fin N HN.
  destruct (run_fields env self s)
    as (nframes & k & loop_fault & _ & Hpos & _ & Hf).
  cbv zeta in Hf. destruct Hf as (_ & _ & _ & _ & _ & Hgen & _ & Hcalls & _ & Hout & _).
  fold fin in Hgen, Hcalls, Hout. fold N in Hgen. subst k.
  exists (frame_files N ∪ temp_folder s). cbv zeta.
  destruct (Hpos HN) as [Hfps _].
  split.
  { rewrite Hcalls.
    destruct (job_attempts_cases s N loop_fault HN) as [[-> _]|(-> & _ & Hr)].
    - left. reflexivity.
    - right. split; [reflexivity|exact Hr]. }
  split; [rewrite Hout; apply output_after_job|].
  split; [exact Hfps|].
  split; [reflexivity|]. split; [reflexivity|]. split; [reflexivity|].
  split; [reflexivity|].
  intros audio_length. unfold output_duration.
  rewrite Q.min_l; [reflexivity|]. apply Q.le_max_l.
Qed.

(** C7. A job that ends with no generated frame never ran the encoder and
    left the output folder as it was; its last signal is the error
    "No frames generated", preceded at most by the processing error, and
    no success summary is emitted. *)
Theorem zero_frames_failed (s : State A) :
  let fin := snd (Worker.run env self s) in
  num_frames_generated fin = O ->
  fst (Worker.run env self s) = ok tt /\
  (exists earlier,
     emitted fin = (emitted s ++ earlier ++ [error (msg_no_frames self)])%list /\
     (earlier = [] \/ earlier = [error (msg_processing_error self)])) /\
  ffmpeg_calls fin = ffmpeg_calls s /\
  output_folder fin = output_folder s.
Proof.
  intros fin Hzero.
  destruct (run_fields env self s)
    as (nframes & k & loop_fault & _ & _ & _ & Hf).
  cbv zeta in Hf.
  destruct Hf as (_ & _ & _ & _ & Hret & Hgen & _ & Hcalls & Hemit & Hout & _).
  fold fin in Hgen, Hcalls, Hemit, Hout.
  rewrite Hzero in Hgen. subst k. simpl in Hret, Hcalls, Hemit, Hout.
  split; [exact Hret|]. split.
  - exists (fault_signals self loop_fault). split.
    + rewrite Hemit. unfold try_fault. destruct loop_fault; reflexivity.
    + destruct loop_fault; [right|left]; reflexivity.
  - split; [now rewrite Hcalls, app_nil_r|exact Hout].
Qed.



Lemma raised_not_failed (outcome : ffmpeg_outcome) (e : exn) :
  raised outcome = Some e ->
  encoder_signals self outcome = [] /\ encoder_log self outcome = [].
Proof. destruct outcome; try discriminate. split; reflexivity. Qed.




(** C9, as the code has it. When the frame rate exceeds the sample rate,
    [frame_step] is 0 and the computation of [num_frames] raises
    [ZeroDivisionError]; the generic handler logs it and emits the generic
    processing error, and the job ends with no frame and no encoder run. *)
Theorem degenerate_frame_rate (s : State A) (left_channel right_channel : list A)
    (more : list (list A)) (sr : Z) :
  input_folder s !! Worker.audio_file self
    = Some (ok (Arr2 (left_channel :: right_channel :: more), sr)) ->
  left_channel <> [] -> right_channel <> [] ->
  0 <= sr < Worker.fps self ->
  let e := Exn "ZeroDivisionError" "integer division or modulo by zero" in
  let fin := snd (Worker.run env self s) in
  Worker.frame_step sr (Worker.fps self) = ok 0 /\
  Worker.num_frames (Z.of_nat (length left_channel)) 0 = inl e /\
  fst (Worker.try_body env self (Worker.audio_file self) (output_name self) (reset s))
    = inl e /\
  fst (Worker.run env self s) = ok tt /\
  num_frames_generated fin = O /\
  emitted fin
    = (emitted s ++ [error (msg_processing_error self); error (msg_no_frames self)])%list /\
  error_log fin
    = (error_log s ++ ["Frame generation failed for " +:+ Worker.audio_file self
                       +:+ ": integer division or modulo by zero"])%list /\
  ffmpeg_calls fin = ffmpeg_calls s.
Proof.
  intros Hin Hl Hr Hsr e fin.
  assert (Hfs : Worker.frame_step sr (Worker.fps self) = ok 0).
  { unfold Worker.frame_step. destruct (Z.eqb_spec (Worker.fps self) 0); [lia|].
    f_equal. apply Z.quot_small. exact Hsr. }
  assert (Htry : Worker.try_body env self (Worker.audio_file self) (output_name self)
                                 (reset s) = (inl e, reset s)).
  { destruct (peak_normalize_nonempty left_channel Hl) as (pl & _ & Hnl).
    destruct (peak_normalize_nonempty right_channel Hr) as (pr & _ & Hnr).
    unfold Worker.try_body. unfold bind at 1. unfold Worker.librosa_load.
    change (input_folder (reset s)) with (input_folder s). rewrite Hin.
    unfold ok at 1. cbv beta iota. simpl fst. simpl snd.
    unfold bind at 1, lift at 1. simpl getitem. unfold ok at 1. cbv beta iota.
    unfold bind at 1, lift at 1. simpl getitem. unfold ok at 1. cbv beta iota.
    unfold bind at 1, lift at 1. unfold Worker.normalize at 1. rewrite Hnl.
    simpl rbind. unfold ok at 1. cbv beta iota.
    unfold bind at 1, lift at 1. unfold Worker.normalize at 1. rewrite Hnr.
    simpl rbind. unfold ok at 1. cbv beta iota.
    unfold bind at 1, lift at 1. rewrite Hfs. unfold ok at 1. cbv beta iota.
    unfold bind at 1, lift at 1. simpl len. unfold ok at 1. cbv beta iota.
    unfold bind at 1, lift at 1. reflexivity. }
  destruct (run_fields env self s)
    as (nframes & k & loop_fault & _ & _ & _ & Hf).
  cbv zeta in Hf. fold fin in Hf.
  destruct Hf as (T1 & T2 & _ & _ & Hret & Hgen & _ & Hcalls & Hemit & _ & Hlog & _).
  rewrite Htry in T1, T2. simpl in T2. subst k.
  simpl in T1, Hret, Hcalls, Hemit, Hlog.
  assert (Hfault : loop_fault = Some e)
    by (destruct loop_fault; [now injection T1 as ->|discriminate]).
  subst loop_fault. simpl in Hemit, Hlog. rewrite app_nil_r in Hcalls.
  split; [exact Hfs|]. split; [reflexivity|]. split; [now rewrite Htry|].
  split; [exact Hret|]. split; [exact Hgen|]. split; [exact Hemit|].
  split; [exact Hlog|exact Hcalls].
Qed.

(** C10. Started from a temporary folder without image files, after any
    number [j] of loop iterations, interrupted or not, the counter [k] is
    at most [j] and at most [num_frames], the image files of the folder are
    exactly the [k] distinct frame files with indices below [k], which are
    the files the encoder's pattern names at those indices; and whenever
    the job runs the encoder, for its [N] generated frames, the store it
    reads holds exactly those files. *)
Theorem frame_store_invariant (s : State A) (left_channel right_channel : ndvalue A)
    (fstep nframes : Z) (j : nat) :
  png_files (temp_folder s) = ∅ ->
  (j <= Z.to_nat nframes)%nat ->
  let after :=
    snd (for_each (seq 0 j)
           (Worker.frame env self left_channel right_channel fstep nframes) (reset s)) in
  let k := num_frames_generated after in
  (k <= j)%nat /\ (k <= Z.to_nat nframes)%nat /\
  png_files (temp_folder after) = frame_files k /\
  size (frame_files k) = k /\
  (forall i, (i < k)%nat -> Worker.sequence_file "frame_%05d.png" i ∈ temp_folder after) /\
  (forall i, (k <= i)%nat -> Worker.frame_name i ∉ temp_folder after) /\
  let fin := snd (Worker.run env self s) in
  let N := num_frames_generated fin in
  forall job frames,
    (job, frames) ∈ drop (length (ffmpeg_calls s)) (ffmpeg_calls fin) ->
    job = job_for self N /\
    png_files frames = frame_files N /\
    (forall i, (i < N)%nat -> Worker.sequence_file (video_input job) i ∈ frames).
Proof.
  intros Hclean Hj after k.
  destruct (loop_outcome env self left_channel right_channel fstep nframes 0 j (reset s))
    as (j' & Hj' & Hst & _).
  fold after in Hst.
  assert (Hk : k = j').
  { unfold k. rewrite Hst, frames_saved_generated, length_seq. simpl. lia. }
  assert (Htemp : temp_folder after = frame_files k ∪ temp_folder s).
  { rewrite Hst, frames_saved_temp, Hk. reflexivity. }
  split; [lia|]. split; [lia|].
  split; [rewrite Htemp; apply png_files_frames, Hclean|].
  split; [apply size_frame_files|].
  split.
  { intros i Hi. change (Worker.sequence_file "frame_%05d.png" i)
      with (Worker.frame_name i).
    rewrite Htemp. apply elem_of_union_l, elem_of_frame_files.
    exists i. split; [exact Hi|reflexivity]. }
  split.
  { intros i Hi. rewrite Htemp. intros [Hin|Hin]%elem_of_union.
    - apply elem_of_frame_files in Hin as (i' & Hlt & Heq).
      apply frame_name_inj in Heq. lia.
    - exact (frame_not_in_png_free _ i Hclean Hin). }
  intros fin N job frames Hcall.
  destruct (run_fields env self s)
    as (nf & k' & loop_fault & _ & _ & _ & Hf).
  cbv zeta in Hf. fold fin in Hf.
  destruct Hf as (_ & _ & _ & _ & _ & Hgen & _ & Hcalls & _).
  fold N in Hgen. subst k'.
  rewrite Hcalls, drop_app_length in Hcall. clear Hcalls.
  assert (Heq : (job, frames) = (job_for self N, frame_files N ∪ temp_folder s)).
  { induction (job_attempts env self s N loop_fault) as [|a l IH]; simpl in Hcall.
    - inversion Hcall.
    - apply elem_of_cons in Hcall as [Heq|Hin]; [exact Heq|exact (IH Hin)]. }
  injection Heq as -> ->.
  split; [reflexivity|]. split; [apply png_files_frames, Hclean|].
  intros i Hi. change (Worker.sequence_file _ i) with (Worker.frame_name i).
  apply elem_of_union_l, elem_of_frame_files. exists i. split; [exact Hi|reflexivity].
Qed.

End OrchestratorTheorems.

(** ** The loop body and the temporary folder between jobs *)

Section JobFacts.
Context {A : Type} {num_ops : NumOps A} {arctan2_op : Arctan2 A}.
Variable env : Env A.
Variable self : Worker.t A.

(** The front-end's start-up sweep leaves no file at all. *)
Lemma clear_temp_frames_no_images (s : State A) :
  fst (clear_temp_frames s) = ok tt /\
  png_files (temp_folder (snd (clear_temp_frames s))) = ∅.
Proof.
  split; [reflexivity|]. simpl. apply set_eq. intros file. unfold png_files.
  rewrite elem_of_filter. split; [intros [_ Hin]; exact Hin|].
  intros Hin. exfalso. exact (not_elem_of_empty (C := gset string) file Hin).
Qed.

(** A job that returns has cleaned the temporary folder and consumed the
    input copy. *)
Lemma run_returned (s : State A) :
  fst (Worker.run env self s) = ok tt ->
  let fin := snd (Worker.run env self s) in
  temp_folder fin = filter (fun file => endswith file ".png" = false) (temp_folder s) /\
  png_files (temp_folder fin) = ∅ /\
  input_folder fin = delete (Worker.audio_file self) (input_folder s).
Proof.
  intros Hok fin.
  destruct (run_fields env self s) as (nframes & k & loop_fault & _ & _ & _ & Hf).
  cbv zeta in Hf. fold fin in Hf.
  destruct Hf as (_ & _ & _ & _ & Hret & _ & Htemp & _ & _ & _ & _ & Hin).
  rewrite Hok in Hret.
  destruct (escaped (job_attempts env self s k loop_fault)); [discriminate|].
  assert (Hclean : filter (fun file => endswith file ".png" = false)
                          (frame_files k ∪ temp_folder s)
                   = filter (fun file => endswith file ".png" = false) (temp_folder s)).
  { apply set_eq. intros file. rewrite !elem_of_filter, elem_of_union. split.
    - intros (Hnot & [Hfr|Hin']); [|split; assumption].
      apply elem_of_frame_files in Hfr as (i & _ & ->).
      rewrite frame_name_png in Hnot. discriminate.
    - intros (Hnot & Hin'). split; [exact Hnot|right; exact Hin']. }
  split; [rewrite Htemp; exact Hclean|].
  split; [rewrite Htemp; apply png_files_cleaned|exact Hin].
Qed.

(** The input copy is consumed by every job that returns. *)
Lemma run_consumes_input (s : State A) :
  fst (Worker.run env self s) = ok tt ->
  input_folder (snd (Worker.run env self s)) !! Worker.audio_file self = None.
Proof.
  intros Hok. destruct (run_returned s Hok) as (_ & _ & Hin).
  rewrite Hin. apply lookup_delete_eq.
Qed.

(** A job that does not return generated frames and left them, and the input
    copy, where they were: nothing was cleaned. *)
Lemma run_escaped (s : State A) (e : exn) :
  fst (Worker.run env self s) = inl e ->
  let fin := snd (Worker.run env self s) in
  (0 < num_frames_generated fin)%nat /\
  temp_folder fin = frame_files (num_frames_generated fin) ∪ temp_folder s /\
  input_folder fin = input_folder s /\
  is_Some (input_folder s !! Worker.audio_file self).
Proof.
  intros He fin.
  destruct (run_fields env self s) as (nframes & k & loop_fault & _ & Hpos & _ & Hf).
  cbv zeta in Hf. fold fin in Hf.
  destruct Hf as (_ & _ & _ & _ & Hret & Hgen & Htemp & _ & _ & _ & _ & Hin).
  rewrite He in Hret. rewrite Hgen.
  destruct (escaped (job_attempts env self s k loop_fault)) eqn:Hesc; [|discriminate].
  assert (Hk : (0 < k)%nat).
  { destruct (Nat.ltb_spec 0 k) as [Hk|Hk]; [exact Hk|].
    unfold job_attempts in Hesc. replace (0 <? k)%nat with false in Hesc
      by (symmetry; apply Nat.ltb_ge; lia). discriminate. }
  split; [exact Hk|]. split; [exact Htemp|]. split; [exact Hin|].
  exact (proj2 (Hpos Hk)).
Qed.

End JobFacts.

(** ** Concrete jobs *)

Lemma encoding_duration_witness :
  (0 < num_frames_generated
         (snd (Worker.run (demo_env None FfmpegOk) (demo_self 2) demo_state)))%nat /\
  exists frames : gset string,
    ffmpeg_calls (snd (Worker.run (demo_env None FfmpegOk) (demo_self 2) demo_state))
    = [(job_for (demo_self 2) 3, frames)] /\
    (ff_t (job_for (demo_self 2) 3) == 3 # 2)%Q.
Proof.
  split; [vm_compute; lia|].
  destruct (encoding_duration (demo_env None FfmpegOk) (demo_self 2) demo_state
              ltac:(vm_compute; lia))
    as (frames & [Hcalls|[_ [e He]]] & _ & _ & Ht & _).
  - exists frames. split.
    + exact Hcalls.
    + vm_compute. reflexivity.
  - discriminate He.
Defined.


Lemma zero_frames_failed_witness :
  num_frames_generated
    (snd (Worker.run (demo_env (Some 0%nat) FfmpegOk) (demo_self 2) demo_state)) = O /\
  ffmpeg_calls (snd (Worker.run (demo_env (Some 0%nat) FfmpegOk) (demo_self 2) demo_state))
  = [] /\
  output_folder (snd (Worker.run (demo_env (Some 0%nat) FfmpegOk) (demo_self 2) demo_state))
  = ∅.
Proof.
  split; [vm_compute; reflexivity|].
  destruct (zero_frames_failed (demo_env (Some 0%nat) FfmpegOk) (demo_self 2) demo_state
              ltac:(vm_compute; reflexivity))
    as (_ & _ & Hcalls & Hout).
  split; [exact Hcalls|exact Hout].
Defined.


Lemma degenerate_frame_rate_witness :
  input_folder demo_state !! Worker.audio_file (demo_self 50000)
  = Some (ok (Arr2 [[1; -1; 1 / 2; 0; 1; 1; 0]; [0; 1; 1; 1 / 2; -1; 0; 0]]%R, 4)) /\
  0 <= 4 < Worker.fps (demo_self 50000) /\
  emitted (snd (Worker.run (demo_env None FfmpegOk) (demo_self 50000) demo_state))
  = [error "Error processing song.mp3. Check log.";
     error "No frames generated for song.mp3."].
Proof.
  split; [vm_compute; reflexivity|]. split; [simpl; lia|].
  destruct (degenerate_frame_rate (demo_env None FfmpegOk) (demo_self 50000) demo_state
              [1; -1; 1 / 2; 0; 1; 1; 0]%R [0; 1; 1; 1 / 2; -1; 0; 0]%R [] 4
              ltac:(vm_compute; reflexivity) ltac:(discriminate) ltac:(discriminate)
              ltac:(simpl; lia))
    as (_ & _ & _ & _ & _ & Hemit & _).
  exact Hemit.
Defined.

Lemma frame_store_invariant_witness :
  png_files (temp_folder demo_state) = ∅ /\
  (3 <= Z.to_nat 3)%nat /\
  png_files
    (temp_folder
       (snd (for_each (seq 0 3)
               (Worker.frame (demo_env (Some 1%nat) FfmpegOk) (demo_self 2)
                  (Array [1; -1; 1 / 2; 0; 1; 1; 0]%R)
                  (Array [0; 1; 1; 1 / 2; -1; 0; 0]%R) 2 3)
               (reset demo_state))))
  = frame_files
      (num_frames_generated
         (snd (for_each (seq 0 3)
                 (Worker.frame (demo_env (Some 1%nat) FfmpegOk) (demo_self 2)
                    (Array [1; -1; 1 / 2; 0; 1; 1; 0]%R)
                    (Array [0; 1; 1; 1 / 2; -1; 0; 0]%R) 2 3)
                 (reset demo_state)))).
Proof.
  split; [vm_compute; reflexivity|]. split; [vm_compute; lia|].
  destruct (frame_store_invariant (demo_env (Some 1%nat) FfmpegOk) (demo_self 2)
              demo_state (Array [1; -1; 1 / 2; 0; 1; 1; 0]%R)
              (Array [0; 1; 1; 1 / 2; -1; 0; 0]%R) 2 3 3
              ltac:(vm_compute; reflexivity) ltac:(vm_compute; lia))
    as (_ & _ & Hpng & _).
  exact Hpng.
Defined.



(** C9 refuted as stated: with [fps] above the sample rate the fault is a
    [ZeroDivisionError], and what the job reports is what it reports for a
    missing input file. *)
Lemma frame_rate_fault_not_distinct :
  Worker.frame_step 44100 50000 = ok 0 /\
  Worker.num_frames 441000 0
  = inl (Exn "ZeroDivisionError" "integer division or modulo by zero") /\
  fst (Worker.try_body (demo_env None FfmpegOk) (demo_self 50000) "song.mp3"
         "song_gonio.mp4" (reset demo_state))
  = inl (Exn "ZeroDivisionError" "integer division or modulo by zero") /\
  "ZeroDivisionError" <> "InvalidFrameRate" /\
  emitted (snd (Worker.run (demo_env None FfmpegOk) (demo_self 50000) demo_state))
  = emitted (snd (Worker.run (demo_env None FfmpegOk) (demo_self 2) missing_state)).
Proof.
  split; [reflexivity|]. split; [reflexivity|].
  split; [vm_compute; reflexivity|]. split; [discriminate|].
  vm_compute. reflexivity.
Qed.

(** ** Evaluations *)

Example frame_name_7 : Worker.frame_name 7 = "frame_00007.png".
Proof. reflexivity. Qed.

Example frame_name_wide :
  Worker.frame_name (Z.to_nat 123456) = "frame_123456.png".
Proof. vm_compute. reflexivity. Qed.

Example sequence_file_42 : Worker.sequence_file "frame_%05d.png" 42 = "frame_00042.png".
Proof. reflexivity. Qed.

Example splitext_examples :
  splitext_root "song.mp3" = "song" /\ splitext_root "a.b.mp3" = "a.b" /\
  splitext_root ".hidden" = ".hidden" /\ splitext_root "noext" = "noext".
Proof. repeat split. Qed.

Example slice_examples :
  slice [1; 2; 3; 4; 5] 1 3 = [2; 3] /\ slice [1; 2; 3; 4; 5] 4 9 = [5] /\
  slice [1; 2; 3; 4; 5] (-2) 5 = [4; 5] /\ slice [1; 2; 3; 4; 5] 4 2 = [].
Proof. repeat split. Qed.

(** The progress percentage is truncated from the binary64 product:
    29/100*100 is 28.999999999999996. *)
Example percent_examples :
  Worker.percent 1 3 = 33 /\ Worker.percent 29 100 = 28 /\ Worker.percent 300 300 = 100.
Proof. vm_compute. repeat split. Qed.

Example ten_seconds_at_30_fps :
  Worker.frame_step 44100 30 = ok 1470 /\ Worker.num_frames 441000 1470 = ok 300 /\
  Worker.duration 300 30 = ok (inject_Z 300 / inject_Z 30)%Q /\
  (inject_Z 300 / inject_Z 30 == inject_Z 10)%Q.
Proof. repeat split. Qed.

Example negative_fps_gives_no_window :
  Worker.frame_step 44100 (-30) = ok (-1470) /\
  Worker.num_frames 441000 (-1470) = ok (-300) /\ range (-300) = [].
Proof. repeat split. Qed.

(** The window of constant 0.5 samples, in binary64: amplitude 1 and
    radius 1.4142135623730951. *)
Example half_window_binary64 :
  Worker.amplitude [0.5; 0.5; 0.5]%float [0.5; 0.5; 0.5]%float 1%float = 1%float /\
  Worker.r [0.5; 0.5]%float [0.5; 0.5]%float 1%float
  = [0x1.6a09e667f3bcdp+0; 0x1.6a09e667f3bcdp+0]%float.
Proof. vm_compute. split; reflexivity. Qed.

Example peak_normalize_binary64 :
  Worker.peak_normalize [0.5; -2; 1]%float = ok [0.25; -1; 0.5]%float.
Proof. vm_compute. reflexivity. Qed.

Example mono_file_is_a_type_error :
  exists e, Worker.try_body (demo_env None FfmpegOk) (demo_self 2) "song.mp3"
              "song_gonio.mp4"
              {| input_folder := {[ "song.mp3" := ok (Arr1 [1; -1; 0]%R, 4) ]};
                 output_folder := ∅; temp_folder := ∅; error_log := [];
                 emitted := []; ffmpeg_calls := []; num_frames_generated := O |}
            = (inl e, {| input_folder := {[ "song.mp3" := ok (Arr1 [1; -1; 0]%R, 4) ]};
                         output_folder := ∅; temp_folder := ∅; error_log := [];
                         emitted := []; ffmpeg_calls := []; num_frames_generated := O |})
            /\ exn_class e = "TypeError".
Proof. eexists. split; [vm_compute; reflexivity|reflexivity]. Qed.

Example complete_job :
  emitted (snd (Worker.run (demo_env None FfmpegOk) (demo_self 2) demo_state))
  = [progress 33; progress 66; progress 100;
     finished "Processed song.mp3 with 3 frames."] /\
  elements (temp_folder (snd (Worker.run (demo_env None FfmpegOk) (demo_self 2) demo_state)))
  = [] /\
  map snd
      (ffmpeg_calls (snd (Worker.run (demo_env None FfmpegOk) (demo_self 2) demo_state)))
  = [{[ "frame_00000.png"; "frame_00001.png"; "frame_00002.png" ]}].
Proof. repeat split; vm_compute; reflexivity. Qed.

Example encoder_failure_after_fault :
  emitted (snd (Worker.run (demo_env (Some 2%nat) (FfmpegError "" false)) (demo_self 2)
                  demo_state))
  = [progress 33; progress 66; error "Error processing song.mp3. Check log.";
     error "Video compilation failed for song.mp3. Check log.";
     finished "Processed song.mp3 with 2 frames."] /\
  error_log (snd (Worker.run (demo_env (Some 2%nat) (FfmpegError "" false)) (demo_self 2)
                    demo_state))
  = ["Frame generation failed for song.mp3: rasterization fault";
     "Video compilation failed for song.mp3: No stderr output available"].
Proof. split; vm_compute; reflexivity. Qed.

(** The encoder called twice by one job: the call of the [try] block
    raises, the handler reports a processing error and calls again. *)
Example encoder_called_twice :
  fst (Worker.run retry_env (demo_self 2) demo_state) = ok tt /\
  map fst (ffmpeg_calls (snd (Worker.run retry_env (demo_self 2) demo_state)))
  = [job_for (demo_self 2) 3; job_for (demo_self 2) 3] /\
  emitted (snd (Worker.run retry_env (demo_self 2) demo_state))
  = [progress 33; progress 66; progress 100;
     error "Error processing song.mp3. Check log.";
     finished "Processed song.mp3 with 3 frames."] /\
  error_log (snd (Worker.run retry_env (demo_self 2) demo_state))
  = ["Frame generation failed for song.mp3: "
     +:+ "[Errno 2] No such file or directory: 'ffmpeg'"] /\
  output_folder (snd (Worker.run retry_env (demo_self 2) demo_state))
  = {[ "song_gonio.mp4" := Build_Video (job_for (demo_self 2) 3) true ]}.
Proof. repeat split; vm_compute; reflexivity. Qed.

(** ** More on the numerical stages *)

Section NumericExtras.
Local Open Scope R_scope.
Implicit Types channel xs : list R.

Lemma fold_left_Rmax_scale (xs : list R) (a c : R) :
  0 <= c ->
  fold_left Rmax (map (fun x => c * x) xs) (c * a) = c * fold_left Rmax xs a.
Proof.
  intros Hc. revert a. induction xs as [|x xs IH]; intros a; simpl.
  - reflexivity.
  - rewrite RmaxRmult by exact Hc. apply IH.
Qed.

Lemma peak_positive (x : R) (rest : list R) :
  Exists (fun v => v <> 0) (x :: rest) ->
  0 < fold_left Rmax (map Rabs rest) (Rabs x).
Proof.
  intros Hex. apply Exists_exists in Hex as (v & Hv & Hnz).
  apply Rlt_le_trans with (Rabs v); [apply Rabs_pos_lt; exact Hnz|].
  apply fold_left_Rmax_ge.
  change (Rabs x :: map Rabs rest) with (map Rabs (x :: rest)).
  apply list_elem_of_fmap. exists v. split; [reflexivity|exact Hv].
Qed.

Lemma peak_normalize_cons (x : R) (rest : list R) :
  Worker.peak_normalize (x :: rest)
  = ok (x / fold_left Rmax (map Rabs rest) (Rabs x)
        :: map (fun v => v / fold_left Rmax (map Rabs rest) (Rabs x)) rest).
Proof. reflexivity. Qed.

Lemma peak_normalize_range (channel : list R) :
  Exists (fun x => x <> 0) channel ->
  exists normalized,
    Worker.peak_normalize channel = ok normalized /\
    length normalized = length channel /\
    Forall (fun x => -1 <= x <= 1) normalized.
Proof.
  intros Hex. destruct channel as [|x rest]; [inversion Hex|].
  pose proof (peak_positive x rest Hex) as Hpos.
  set (peak := fold_left Rmax (map Rabs rest) (Rabs x)) in *.
  exists (map (fun v => v / peak) (x :: rest)).
  split; [reflexivity|]. split; [now rewrite length_map|].
  apply Forall_forall. intros y Hy.
  apply list_elem_of_fmap in Hy as (v & -> & Hv).
  assert (Hle : Rabs v <= peak).
  { apply fold_left_Rmax_ge.
    change (Rabs x :: map Rabs rest) with (map Rabs (x :: rest)).
    apply list_elem_of_fmap. exists v. split; [reflexivity|exact Hv]. }
  pose proof (Rle_abs v) as Hup. pose proof (Rle_abs (- v)) as Hdown.
  rewrite Rabs_Ropp in Hdown.
  pose proof (Rinv_0_lt_compat peak Hpos) as Hip.
  pose proof (Rinv_r peak ltac:(lra)) as Hinv.
  unfold Rdiv. split; nra.
Qed.

(** Normalised samples lie in [-1, 1] and keep their count. *)
Theorem peak_normalize_bounds (channel : list R) :
  Exists (fun x => x <> 0) channel ->
  exists normalized,
    Worker.peak_normalize channel = ok normalized /\
    length normalized = length channel /\
    Forall (fun x => -1 <= x <= 1) normalized.
Proof. apply peak_normalize_range. Qed.

Lemma peak_normalize_bounds_witness :
  Exists (fun x => x <> 0) [1 / 2; -2; 1] /\
  exists normalized,
    Worker.peak_normalize [1 / 2; -2; 1] = ok normalized /\
    Forall (fun x => -1 <= x <= 1) normalized.
Proof.
  assert (Hex : Exists (fun x : R => x <> 0) [1 / 2; -2; 1])
    by (apply Exists_cons_hd; lra).
  split; [exact Hex|].
  destruct (peak_normalize_bounds [1 / 2; -2; 1] Hex) as (n & Hn & _ & Hb).
  exists n. split; assumption.
Defined.

(** Normalising a normalised channel changes nothing. *)
Theorem peak_normalize_idempotent (channel normalized : list R) :
  Exists (fun x => x <> 0) channel ->
  Worker.peak_normalize channel = ok normalized ->
  Worker.peak_normalize normalized = ok normalized.
Proof.
  intros Hex Hn. destruct channel as [|x rest]; [inversion Hex|].
  pose proof (peak_positive x rest Hex) as Hpos.
  rewrite peak_normalize_cons in Hn. injection Hn as <-.
  set (peak := fold_left Rmax (map Rabs rest) (Rabs x)) in *.
  assert (Hipos : 0 <= / peak) by (left; apply Rinv_0_lt_compat, Hpos).
  rewrite peak_normalize_cons.
  assert (Hone : fold_left Rmax (map Rabs (map (fun v => v / peak) rest))
                           (Rabs (x / peak)) = 1).
  { replace (map Rabs (map (fun v => v / peak) rest))
      with (map (fun v => / peak * v) (map Rabs rest)).
    - replace (Rabs (x / peak)) with (/ peak * Rabs x).
      + rewrite fold_left_Rmax_scale by exact Hipos. fold peak. field. lra.
      + unfold Rdiv. rewrite Rabs_mult, (Rabs_pos_eq (/ peak)) by exact Hipos. lra.
    - rewrite !map_map. apply map_ext. intros v.
      unfold Rdiv. rewrite Rabs_mult, (Rabs_pos_eq (/ peak)) by exact Hipos. lra. }
  rewrite Hone. unfold ok. f_equal. f_equal; [field; lra|].
  rewrite map_map. apply map_ext. intros v. field. lra.
Qed.

Lemma peak_normalize_idempotent_witness :
  Exists (fun x => x <> 0) [2; -4] /\
  Worker.peak_normalize [2; -4] = ok (map (fun x => x / Rmax (Rabs 2) (Rabs (-4))) [2; -4]) /\
  Worker.peak_normalize (map (fun x => x / Rmax (Rabs 2) (Rabs (-4))) [2; -4])
  = ok (map (fun x => x / Rmax (Rabs 2) (Rabs (-4))) [2; -4]).
Proof.
  assert (Hex : Exists (fun x : R => x <> 0) [2; -4]) by (apply Exists_cons_hd; lra).
  split; [exact Hex|]. split; [reflexivity|].
  exact (peak_normalize_idempotent [2; -4] _ Hex eq_refl).
Defined.

End NumericExtras.

Section ProjectionExtras.
Local Open Scope R_scope.

Lemma Rsum_le_const (xs : list R) (c : R) :
  Forall (fun x => x <= c) xs -> Rsum xs <= INR (length xs) * c.
Proof.
  induction 1 as [|x xs Hx _ IH].
  - simpl. lra.
  - change (length (x :: xs)) with (S (length xs)). rewrite S_INR. simpl Rsum. lra.
Qed.

Lemma Rmean_le_const (xs : list R) (c : R) :
  0 <= c -> Forall (fun x => x <= c) xs -> Rmean xs <= c.
Proof.
  intros Hc Hxs. unfold Rmean. destruct xs as [|x xs'].
  - simpl. unfold Rdiv. rewrite Rinv_0. lra.
  - pose proof (Rsum_le_const _ _ Hxs) as Hs.
    assert (Hn : 0 < INR (length (x :: xs'))) by (apply lt_0_INR; simpl; lia).
    apply (Rmult_le_reg_r (INR (length (x :: xs')))); [exact Hn|].
    unfold Rdiv. rewrite Rmult_assoc, Rinv_l by lra. lra.
Qed.

Lemma projection_range (left_chunk right_chunk : list R) (amplitude_scale : R) :
  0 <= amplitude_scale ->
  Forall (fun x => -1 <= x <= 1) left_chunk ->
  Forall (fun x => -1 <= x <= 1) right_chunk ->
  0 <= Worker.amplitude left_chunk right_chunk amplitude_scale <= 2 * amplitude_scale /\
  Forall (fun radius => 0 <= radius <= R_sqrt.sqrt 2 * (1 + 2 * amplitude_scale))
         (Worker.r left_chunk right_chunk amplitude_scale).
Proof.
  intros Hs Hl Hr.
  assert (Hamp : 0 <= Worker.amplitude left_chunk right_chunk amplitude_scale
                 <= 2 * amplitude_scale).
  { split; [apply amplitude_nonneg, Hs|].
    unfold Worker.amplitude. rewrite np_mean_real.
    apply Rmult_le_compat_r; [exact Hs|].
    apply Rmean_le_const; [lra|].
    rewrite abs_sum_pairs. apply Forall_forall. intros v Hv.
    apply list_elem_of_fmap in Hv as ([l r] & -> & Hin). simpl.
    apply elem_of_zip_l in Hin as Hlin. apply elem_of_zip_r in Hin as Hrin.
    rewrite Forall_forall in Hl, Hr.
    pose proof (Hl _ Hlin). pose proof (Hr _ Hrin).
    assert (Rabs l <= 1) by (apply Rabs_le; lra).
    assert (Rabs r <= 1) by (apply Rabs_le; lra). lra. }
  split; [exact Hamp|].
  apply Forall_forall. intros v Hv.
  apply r_elements in Hv as (l & r & Hlin & Hrin & ->).
  rewrite Forall_forall in Hl, Hr.
  pose proof (Hl _ Hlin) as Hlb. pose proof (Hr _ Hrin) as Hrb.
  pose proof (sqrt_pos (l * l + r * r)) as Hsq.
  assert (Hle : R_sqrt.sqrt (l * l + r * r) <= R_sqrt.sqrt 2).
  { apply sqrt_le_1; nra. }
  pose proof (sqrt_pos 2). split; nra.
Qed.

Lemma Forall_slice {X : Type} (P : X -> Prop) (xs : list X) (start stop : Z) :
  Forall P xs -> Forall P (slice xs start stop).
Proof. intros Hxs. unfold slice. apply Forall_take, Forall_drop, Hxs. Qed.

Lemma normalized_range (channel : list R) :
  Exists (fun x => x <> 0) channel ->
  Forall (fun x => -1 <= x <= 1) (normalized channel).
Proof.
  intros Hex. destruct (peak_normalize_range channel Hex) as (xs & Hn & _ & Hb).
  unfold normalized. unfold Worker.peak_normalize, rbind in Hn.
  destruct (Np.max (Np.abs channel)) as [e|peak]; [discriminate|].
  injection Hn as <-. exact Hb.
Qed.

(** For samples in [-1, 1] the window amplitude is at most twice the scale
    and every radius at most [sqrt 2 * (1 + 2 * amplitude_scale)]; the
    window of one full-scale pair reaches both bounds. *)
Theorem projection_bounds (left_chunk right_chunk : list R) (amplitude_scale : R) :
  0 <= amplitude_scale ->
  Forall (fun x => -1 <= x <= 1) left_chunk ->
  Forall (fun x => -1 <= x <= 1) right_chunk ->
  (0 <= Worker.amplitude left_chunk right_chunk amplitude_scale <= 2 * amplitude_scale /\
   Forall (fun radius => 0 <= radius <= R_sqrt.sqrt 2 * (1 + 2 * amplitude_scale))
          (Worker.r left_chunk right_chunk amplitude_scale)) /\
  Worker.amplitude [1] [1] amplitude_scale = 2 * amplitude_scale /\
  Worker.r [1] [1] amplitude_scale = [R_sqrt.sqrt 2 * (1 + 2 * amplitude_scale)].
Proof.
  intros Hs Hl Hr. split; [apply projection_range; assumption|].
  assert (Ha : Worker.amplitude [1] [1] amplitude_scale = 2 * amplitude_scale).
  { unfold Worker.amplitude. rewrite np_mean_real. unfold Rmean. simpl.
    change (n_abs 1) with (Rabs 1). change (n_add (Rabs 1) (Rabs 1)) with (Rabs 1 + Rabs 1).
    rewrite Rabs_R1. field. }
  split; [exact Ha|].
  unfold Worker.r. rewrite Ha. simpl.
  change (n_mul ?a ?b) with (a * b). change (n_add ?a ?b) with (a + b).
  change (n_sqrt ?a) with (R_sqrt.sqrt a). change n_one with 1.
  f_equal. f_equal. f_equal. lra.
Qed.

(** In a job on two channels that are not silent, every point handed to
    the renderer has a radius between 0 and [sqrt 2 * (1 + 2 * amplitude_scale)],
    whatever the frame step and the frame count. *)
Theorem window_radius_bound (left_channel right_channel : list R) (fstep nframes : Z)
    (amplitude_scale : R) :
  0 <= amplitude_scale ->
  Exists (fun x => x <> 0) left_channel ->
  Exists (fun x => x <> 0) right_channel ->
  Forall (fun window =>
            Forall (fun radius => 0 <= radius <= R_sqrt.sqrt 2 * (1 + 2 * amplitude_scale))
                   (Worker.r (fst window) (snd window) amplitude_scale))
         (Worker.windows (normalized left_channel) (normalized right_channel)
                         fstep nframes).
Proof.
  intros Hs Hl Hr. unfold Worker.windows. apply Forall_forall. intros window Hw.
  apply list_elem_of_fmap in Hw as (i & -> & _). simpl.
  apply projection_range; [exact Hs| |]; apply Forall_slice, normalized_range; assumption.
Qed.

Lemma window_radius_bound_witness :
  0 <= 2 /\ Exists (fun x => x <> 0) [1; -2; 1 / 2; 0] /\
  Exists (fun x => x <> 0) [0; 1; 1; 1 / 2] /\
  Forall (fun window =>
            Forall (fun radius => 0 <= radius <= R_sqrt.sqrt 2 * (1 + 2 * 2))
                   (Worker.r (fst window) (snd window) 2))
         (Worker.windows (normalized [1; -2; 1 / 2; 0]) (normalized [0; 1; 1; 1 / 2]) 2 2).
Proof.
  assert (H1 : Exists (fun x : R => x <> 0) [1; -2; 1 / 2; 0])
    by (apply Exists_cons_hd; lra).
  assert (H2 : Exists (fun x : R => x <> 0) [0; 1; 1; 1 / 2])
    by (apply Exists_cons_tl, Exists_cons_hd; lra).
  split; [lra|]. split; [exact H1|]. split; [exact H2|].
  exact (window_radius_bound _ _ 2 2 2 ltac:(lra) H1 H2).
Defined.

Lemma projection_bounds_witness :
  0 <= 2 /\
  Forall (fun x => -1 <= x <= 1) [1; -1 / 2] /\
  Forall (fun x => -1 <= x <= 1) [0; 1] /\
  0 <= Worker.amplitude [1; -1 / 2] [0; 1] 2 <= 2 * 2.
Proof.
  assert (H1 : Forall (fun x => -1 <= x <= 1) [1; -1 / 2])
    by (repeat constructor; lra).
  assert (H2 : Forall (fun x => -1 <= x <= 1) [0; 1])
    by (repeat constructor; lra).
  split; [lra|]. split; [exact H1|]. split; [exact H2|].
  exact (proj1 (proj1 (projection_bounds [1; -1 / 2] [0; 1] 2 ltac:(lra) H1 H2))).
Defined.

End ProjectionExtras.

(** ** Jobs on given inputs *)

Section InputFacts.
Context {A : Type} {num_ops : NumOps A} {arctan2_op : Arctan2 A}.
Variable env : Env A.
Variable self : Worker.t A.

Lemma length_normalized (channel : list A) : length (normalized channel) = length channel.
Proof.
  unfold normalized. destruct (Np.max (Np.abs channel)); [reflexivity|].
  unfold Np.div. apply length_map.
Qed.

Lemma normalize_array (channel : list A) :
  channel <> [] -> Worker.normalize (Array channel) = ok (Array (normalized channel)).
Proof.
  intros Hne. destruct channel as [|x rest]; [congruence|]. reflexivity.
Qed.

(** On two arrays, an iteration is decided by [savefig] alone. *)
Lemma frame_arrays (left_channel right_channel : list A) (fstep nframes : Z)
    (i : nat) (s : State A) :
  Worker.frame env self (Array left_channel) (Array right_channel) fstep nframes i s
  = match render_at env self left_channel right_channel fstep i with
    | Some e => (inl e, s)
    | None => (ok tt, frame_saved nframes i s)
    end.
Proof.
  unfold Worker.frame, render_at, bind, lift, Worker.window_end. simpl.
  destruct (savefig env i _ _); reflexivity.
Qed.

Lemma loop_arrays (left_channel right_channel : list A) (fstep nframes : Z)
    (start n : nat) (s : State A) :
  for_each (seq start n)
           (Worker.frame env self (Array left_channel) (Array right_channel) fstep nframes) s
  = let found := first_fault_from (render_at env self left_channel right_channel fstep)
                                  start n in
    (match snd found with Some e => inl e | None => ok tt end,
     frames_saved nframes (seq start (fst found - start)) s).
Proof.
  revert start s. induction n as [|n IH]; intros start s.
  - simpl. rewrite Nat.sub_diag. reflexivity.
  - simpl seq. simpl for_each. unfold bind. rewrite frame_arrays. simpl first_fault_from.
    destruct (render_at env self left_channel right_channel fstep start) as [e|].
    + simpl. rewrite Nat.sub_diag. reflexivity.
    + rewrite IH. cbv zeta.
      assert (Hge : (S start <= fst (first_fault_from
                       (render_at env self left_channel right_channel fstep) (S start) n))%nat).
      { clear. generalize (S start) as a. induction n as [|n IH]; intros a; simpl; [lia|].
        destruct (render_at env self left_channel right_channel fstep a); simpl; [lia|].
        specialize (IH (S a)). lia. }
      set (j := fst (first_fault_from _ (S start) n)) in *.
      replace (j - start)%nat with (S (j - S start)) by lia.
      reflexivity.
Qed.

Lemma first_fault_bound (render : nat -> option exn) (start n : nat) :
  (start <= fst (first_fault_from render start n) <= start + n)%nat.
Proof.
  revert start. induction n as [|n IH]; intros start; simpl; [lia|].
  destruct (render start); simpl; [lia|]. specialize (IH (S start)). lia.
Qed.

Lemma first_fault_none (render : nat -> option exn) (start n : nat) :
  snd (first_fault_from render start n) = None ->
  fst (first_fault_from render start n) = (start + n)%nat.
Proof.
  revert start. induction n as [|n IH]; intros start; simpl; [intros _; lia|].
  destruct (render start); simpl; [discriminate|].
  intros Hn. rewrite (IH (S start) Hn). lia.
Qed.

(** The [try] body on a stereo input with non-empty channels and a
    non-degenerate frame step. *)
Lemma try_body_stereo (s : State A) (left_channel right_channel : list A)
    (more : list (list A)) (sr : Z) (audio_path output_video : string) :
  input_folder s !! audio_path
    = Some (ok (Arr2 (left_channel :: right_channel :: more), sr)) ->
  left_channel <> [] -> right_channel <> [] ->
  Worker.fps self <> 0 -> Z.quot sr (Worker.fps self) <> 0 ->
  let fstep := Z.quot sr (Worker.fps self) in
  let nframes := Z.of_nat (length left_channel) / fstep in
  Worker.try_body env self audio_path output_video s
  = match for_each (range nframes)
            (Worker.frame env self (Array (normalized left_channel))
                          (Array (normalized right_channel)) fstep nframes) s with
    | (inl e, s') => (inl e, s')
    | (inr _, s') => Worker.compile_if_frames env self audio_path output_video s'
    end.
Proof.
  intros Hin Hl Hr Hfps Hfs fstep nframes.
  unfold Worker.try_body. unfold bind at 1. unfold Worker.librosa_load.
  rewrite Hin. unfold ok at 1. cbv beta iota. simpl fst. simpl snd.
  unfold bind at 1, lift at 1. simpl getitem. unfold ok at 1. cbv beta iota.
  unfold bind at 1, lift at 1. simpl getitem. unfold ok at 1. cbv beta iota.
  unfold bind at 1, lift at 1. rewrite (normalize_array left_channel Hl).
  unfold ok at 1. cbv beta iota.
  unfold bind at 1, lift at 1. rewrite (normalize_array right_channel Hr).
  unfold ok at 1. cbv beta iota.
  unfold bind at 1, lift at 1. unfold Worker.frame_step.
  destruct (Z.eqb_spec (Worker.fps self) 0) as [|_]; [contradiction|].
  unfold ok at 1. cbv beta iota. fold fstep.
  unfold bind at 1, lift at 1. simpl len. unfold ok at 1. cbv beta iota.
  rewrite length_normalized.
  unfold bind at 1, lift at 1. unfold Worker.num_frames.
  destruct (Z.eqb_spec fstep 0) as [|_]; [contradiction|].
  unfold ok at 1. cbv beta iota. fold nframes.
  unfold bind. destruct (for_each _ _ s) as [[e|[]] s']; reflexivity.
Qed.

(** The [try] body on an input that cannot be used. *)
Lemma try_body_unusable (s : State A) (audio_path output_video : string) :
  unusable (input_folder s !! audio_path) = true ->
  exists e, Worker.try_body env self audio_path output_video s = (inl e, s).
Proof.
  intros Hun.
  remember (Worker.try_body env self audio_path output_video s) as res eqn:Hres.
  unfold Worker.try_body in Hres. unfold bind at 1 in Hres.
  unfold Worker.librosa_load in Hres.
  destruct (input_folder s !! audio_path) as [[e|[y sr]]|];
    [eexists; exact Hres| |eexists; exact Hres].
  cbv beta iota in Hres. simpl fst in Hres. simpl snd in Hres.
  destruct y as [[|a0 [|a1 samples]]|[|[|x l] [|[|z r] rows]]];
    simpl in Hun; try discriminate Hun;
    rewrite bind_lift in Hres; simpl getitem in Hres; unfold raise, ok in Hres;
    cbv beta iota in Hres;
    try (eexists; exact Hres);
    rewrite bind_lift in Hres; simpl getitem in Hres; unfold raise, ok in Hres;
    cbv beta iota in Hres;
    try (eexists; exact Hres);
    rewrite bind_lift in Hres; simpl Worker.normalize in Hres; unfold raise, ok in Hres;
    cbv beta iota in Hres;
    try (eexists; exact Hres);
    rewrite bind_lift in Hres; simpl Worker.normalize in Hres; unfold raise, ok in Hres;
    cbv beta iota in Hres;
    try (eexists; exact Hres).
  (* mono, two samples or more: the frame step, then [len] of a scalar *)
  rewrite bind_lift in Hres.
  destruct (Worker.frame_step sr (Worker.fps self)); [eexists; exact Hres|].
  rewrite bind_lift in Hres. simpl len in Hres. eexists; exact Hres.
Qed.

End InputFacts.

(** ** The segmenter *)

Section Segmenter.
Context {A : Type} {num_ops : NumOps A} {arctan2_op : Arctan2 A}.
Variable env : Env A.
Variable self : Worker.t A.

Lemma for_each_ext (idxs : list nat) (body body' : nat -> M A unit) (s : State A) :
  (forall i st, i ∈ idxs -> body i st = body' i st) ->
  for_each idxs body s = for_each idxs body' s.
Proof.
  revert s. induction idxs as [|i idxs IH]; intros s Hext; simpl; [reflexivity|].
  unfold bind. rewrite (Hext i s) by (left).
  destruct (body' i s) as [[e|[]] s']; [reflexivity|].
  apply IH. intros j st Hj. apply Hext. now right.
Qed.

(** Inside the frame count the slice of iteration [i] is block [i]. *)
Lemma frame_on_block (left_channel right_channel : list A) (fstep : Z) (i : nat)
    (s : State A) :
  length left_channel = length right_channel -> 1 <= fstep ->
  let nframes := Z.of_nat (length left_channel) / fstep in
  (i < Z.to_nat nframes)%nat ->
  Worker.frame env self (Array left_channel) (Array right_channel) fstep nframes i s
  = rendered env self nframes i (block fstep left_channel i) (block fstep right_channel i) s.
Proof.
  intros Hlen Hf nframes Hi. rewrite frame_arrays. unfold rendered, render_at.
  destruct (window_bounds (Z.of_nat (length left_channel)) fstep i Hf ltac:(lia) Hi)
    as (Hs & He & Hle).
  rewrite He. rewrite !slice_inside by lia. unfold block.
  replace (Z.to_nat (Worker.window_start fstep i)) with (i * Z.to_nat fstep)%nat
    by (unfold Worker.window_start; lia).
  reflexivity.
Qed.

(** C2. For a stereo file with two equal-length channels of
    [total_samples] samples and [floor(sr/fps) >= 1], the job uses
    [frame_step = floor(sr/fps)] and [num_frames = floor(total_samples/frame_step)],
    and its loop renders, in increasing index order, window after window of
    the normalised channels, window [i] being the block of exactly
    [frame_step] samples that starts at [i * frame_step]: the windows are
    consecutive and do not overlap, glued in order they are the first
    [num_frames * frame_step] samples, and the fewer than [frame_step]
    samples that remain are dropped. 441000 samples at 44100 Hz and 30 fps
    give 300 windows. *)
Theorem segmenter_partition (s : State A) (left_samples right_samples : list A)
    (more : list (list A)) (sr : Z) :
  input_folder s !! Worker.audio_file self
    = Some (ok (Arr2 (left_samples :: right_samples :: more), sr)) ->
  left_samples <> [] ->
  length left_samples = length right_samples ->
  1 <= sr / Worker.fps self ->
  let left_channel := normalized left_samples in
  let right_channel := normalized right_samples in
  let total := Z.of_nat (length left_samples) in
  let fstep := sr / Worker.fps self in
  let nframes := total / fstep in
  Worker.frame_step sr (Worker.fps self) = ok fstep /\
  Worker.num_frames total fstep = ok nframes /\
  length left_channel = length left_samples /\
  length right_channel = length left_samples /\
  Worker.try_body env self (Worker.audio_file self) (output_name self) s
  = match for_each (seq 0 (Z.to_nat nframes))
            (fun i => rendered env self nframes i (block fstep left_channel i)
                               (block fstep right_channel i)) s with
    | (inl e, s') => (inl e, s')
    | (inr _, s') =>
        Worker.compile_if_frames env self (Worker.audio_file self) (output_name self) s'
    end /\
  (forall i, (i < Z.to_nat nframes)%nat ->
     length (block fstep left_channel i) = Z.to_nat fstep /\
     length (block fstep right_channel i) = Z.to_nat fstep) /\
  concat (map (block fstep left_channel) (seq 0 (Z.to_nat nframes)))
  = take (Z.to_nat (nframes * fstep)) left_channel /\
  concat (map (block fstep right_channel) (seq 0 (Z.to_nat nframes)))
  = take (Z.to_nat (nframes * fstep)) right_channel /\
  0 <= total - nframes * fstep < fstep /\
  (total = 441000 -> sr = 44100 -> Worker.fps self = 30 -> Z.to_nat nframes = 300%nat).
Proof.
  intros Hin Hne Hlen Hq left_channel right_channel total fstep nframes.
  assert (Hfs : Worker.frame_step sr (Worker.fps self) = ok fstep)
    by (apply frame_step_floor; exact Hq).
  assert (Hfps : Worker.fps self <> 0).
  { intros Hz. unfold fstep in *. rewrite Hz, Z.div_0_r in Hq. lia. }
  assert (Hquot : Z.quot sr (Worker.fps self) = fstep).
  { unfold Worker.frame_step in Hfs.
    destruct (Z.eqb_spec (Worker.fps self) 0); [contradiction|].
    now injection Hfs. }
  assert (Hmul : fstep * nframes <= total)
    by (apply Z.mul_div_le; unfold fstep; lia).
  assert (Hmod : total < fstep * nframes + fstep).
  { pose proof (Z.mod_pos_bound total fstep ltac:(unfold fstep; lia)) as Hb.
    pose proof (Z.div_mod total fstep ltac:(unfold fstep; lia)) as Hd.
    fold nframes in Hd. lia. }
  assert (Hnf : 0 <= nframes) by (apply Z.div_pos; unfold total, fstep; lia).
  assert (Hll : length left_channel = length left_samples)
    by apply length_normalized.
  assert (Hlr : length right_channel = length left_samples)
    by (unfold right_channel; rewrite length_normalized; symmetry; exact Hlen).
  assert (Hblock : forall (channel : list A) i,
            length channel = length left_samples -> (i < Z.to_nat nframes)%nat ->
            length (block fstep channel i) = Z.to_nat fstep).
  { intros channel i Hc Hi. unfold block. rewrite length_take, length_drop, Hc.
    fold total. assert ((Z.of_nat i + 1) * fstep <= total) by nia. nia. }
  split; [exact Hfs|].
  split.
  { unfold Worker.num_frames.
    destruct (Z.eqb_spec fstep 0); [unfold fstep in *; lia|reflexivity]. }
  split; [exact Hll|]. split; [exact Hlr|].
  split.
  { assert (Hrne : right_samples <> [])
      by (destruct right_samples; [destruct left_samples; [congruence|discriminate]
                                  |discriminate]).
    rewrite (try_body_stereo env self s left_samples right_samples more sr _ _
               Hin Hne Hrne Hfps ltac:(rewrite Hquot; unfold fstep in *; lia)).
    rewrite Hquot. fold total nframes left_channel right_channel. unfold range.
    rewrite (for_each_ext _ _
               (fun i => rendered env self nframes i (block fstep left_channel i)
                                  (block fstep right_channel i))).
    - reflexivity.
    - intros i st Hi. apply elem_of_seq in Hi.
      assert (Heq : nframes = Z.of_nat (length left_channel) / fstep)
        by (rewrite Hll; reflexivity).
      rewrite Heq. apply frame_on_block; [rewrite Hll, Hlr; reflexivity|exact Hq|].
      rewrite <- Heq. lia. }
  split.
  { intros i Hi. split; apply Hblock; assumption. }
  split.
  { unfold block. rewrite (concat_blocks left_channel (Z.to_nat fstep))
      by (rewrite Hll; fold total; nia).
    f_equal. nia. }
  split.
  { unfold block. rewrite (concat_blocks right_channel (Z.to_nat fstep))
      by (rewrite Hlr; fold total; nia).
    f_equal. nia. }
  split; [lia|].
  intros Ht Hsr Hf. unfold nframes, fstep. rewrite Ht, Hsr, Hf. reflexivity.
Qed.

End Segmenter.

Lemma segmenter_partition_witness :
  input_folder demo_state !! Worker.audio_file (demo_self 2)
  = Some (ok (Arr2 [[1; -1; 1 / 2; 0; 1; 1; 0]; [0; 1; 1; 1 / 2; -1; 0; 0]]%R, 4)) /\
  1 <= 4 / Worker.fps (demo_self 2) /\
  Worker.frame_step 4 (Worker.fps (demo_self 2)) = ok 2 /\
  Worker.num_frames 7 2 = ok 3 /\
  Worker.try_body (demo_env None FfmpegOk) (demo_self 2) "song.mp3"
    (output_name (demo_self 2)) demo_state
  = match for_each (seq 0 3)
            (fun i => rendered (demo_env None FfmpegOk) (demo_self 2) 3 i
                        (block 2 (normalized [1; -1; 1 / 2; 0; 1; 1; 0]%R) i)
                        (block 2 (normalized [0; 1; 1; 1 / 2; -1; 0; 0]%R) i))
            demo_state with
    | (inl e, s') => (inl e, s')
    | (inr _, s') =>
        Worker.compile_if_frames (demo_env None FfmpegOk) (demo_self 2) "song.mp3"
          (output_name (demo_self 2)) s'
    end /\
  concat (map (block 2 (normalized [1; -1; 1 / 2; 0; 1; 1; 0]%R)) (seq 0 3))
  = take 6 (normalized [1; -1; 1 / 2; 0; 1; 1; 0]%R).
Proof.
  split; [vm_compute; reflexivity|]. split; [vm_compute; discriminate|].
  destruct (segmenter_partition (demo_env None FfmpegOk) (demo_self 2) demo_state
              [1; -1; 1 / 2; 0; 1; 1; 0]%R [0; 1; 1; 1 / 2; -1; 0; 0]%R [] 4
              ltac:(vm_compute; reflexivity) ltac:(discriminate) eq_refl
              ltac:(vm_compute; discriminate))
    as (Hfs & Hnf & _ & _ & Htry & _ & Hc & _).
  split; [exact Hfs|]. split; [exact Hnf|]. split; [exact Htry|exact Hc].
Defined.


Section JobOutcomes.
Context {A : Type} {num_ops : NumOps A} {arctan2_op : Arctan2 A}.
Variable env : Env A.
Variable self : Worker.t A.

(** The [try] block of a job on a usable stereo input, in terms of the
    first fault of [savefig]. *)
Lemma try_body_first_fault (s : State A) (left_channel right_channel : list A)
    (more : list (list A)) (sr : Z) :
  input_folder s !! Worker.audio_file self
    = Some (ok (Arr2 (left_channel :: right_channel :: more), sr)) ->
  left_channel <> [] -> right_channel <> [] ->
  Worker.fps self <> 0 -> Z.quot sr (Worker.fps self) <> 0 ->
  let fstep := Z.quot sr (Worker.fps self) in
  let nframes := Z.of_nat (length left_channel) / fstep in
  let found := first_fault (render_at env self (normalized left_channel)
                                      (normalized right_channel) fstep)
                           (Z.to_nat nframes) in
  Worker.try_body env self (Worker.audio_file self) (output_name self) (reset s)
  = match snd found with
    | Some e => (inl e, frames_saved nframes (seq 0 (fst found)) (reset s))
    | None => Worker.compile_if_frames env self (Worker.audio_file self)
                (output_name self) (frames_saved nframes (seq 0 (fst found)) (reset s))
    end.
Proof.
  intros Hin Hl Hr Hfps Hfs fstep nframes found.
  rewrite (try_body_stereo env self (reset s) left_channel right_channel more sr
             _ _ Hin Hl Hr Hfps Hfs).
  fold fstep nframes. unfold range. rewrite loop_arrays. cbv zeta.
  fold (first_fault (render_at env self (normalized left_channel)
                               (normalized right_channel) fstep) (Z.to_nat nframes)).
  fold found. rewrite Nat.sub_0_r.
  destruct (snd found) as [e|]; reflexivity.
Qed.

(** A job whose [try] block raises before the first frame. *)
Lemma run_without_frame (s : State A) (e : exn) :
  Worker.try_body env self (Worker.audio_file self) (output_name self) (reset s)
  = (inl e, reset s) ->
  let fin := snd (Worker.run env self s) in
  fst (Worker.run env self s) = ok tt /\
  num_frames_generated fin = O /\
  emitted fin
    = (emitted s ++ [error (msg_processing_error self); error (msg_no_frames self)])%list /\
  error_log fin = (error_log s ++ fault_log self (Some e))%list /\
  ffmpeg_calls fin = ffmpeg_calls s /\
  output_folder fin = output_folder s.
Proof.
  intros Htry fin.
  pose proof (run_fields_of env self s 0 O (Some e) ltac:(lia) Htry) as Hf.
  cbv zeta in Hf. fold fin in Hf.
  destruct Hf as (_ & _ & _ & _ & Hret & Hgen & _ & Hcalls & Hemit & Hout & Hlog & _).
  simpl in Hret, Hcalls, Hemit, Hout, Hlog. rewrite app_nil_r in Hcalls.
  repeat split; assumption.
Qed.

(** A job whose input file is not in the input folder. *)
Lemma run_on_missing_input (s : State A) :
  input_folder s !! Worker.audio_file self = None ->
  let fin := snd (Worker.run env self s) in
  fst (Worker.run env self s) = ok tt /\
  num_frames_generated fin = O /\
  emitted fin
    = (emitted s ++ [error (msg_processing_error self); error (msg_no_frames self)])%list /\
  error_log fin
    = (error_log s
       ++ ["Frame generation failed for " +:+ Worker.audio_file self +:+ ": "
           +:+ no_such_file (join (Worker.input_dir env) (Worker.audio_file self))])%list /\
  ffmpeg_calls fin = ffmpeg_calls s /\
  output_folder fin = output_folder s.
Proof.
  intros Hgone.
  apply (run_without_frame s
           (Exn "FileNotFoundError"
                (no_such_file (join (Worker.input_dir env) (Worker.audio_file self))))).
  unfold Worker.try_body. unfold bind at 1. unfold Worker.librosa_load.
  change (input_folder (reset s)) with (input_folder s).
  rewrite Hgone. reflexivity.
Qed.

(** The lines a job adds to the log: at most the fault of the [try] block
    and one compilation failure. *)
Lemma job_log_bound (s : State A) (k : nat) (loop_fault : option exn) :
  let attempts := job_attempts env self s k loop_fault in
  (length (fault_log self (try_fault loop_fault attempts)
           ++ flat_map (encoder_log self) attempts) <= 2)%nat.
Proof.
  cbv zeta. destruct (Nat.ltb_spec 0 k) as [Hk|Hk].
  - destruct (job_attempts_cases env self s k loop_fault Hk)
      as [[-> _]|(-> & -> & [e1 Hr])].
    + simpl flat_map. rewrite length_app.
      destruct (try_fault _ _); destruct (ffmpeg_run env _ _ _); simpl; lia.
    + destruct (raised_not_failed self _ _ Hr) as [_ Hl1].
      unfold try_fault. rewrite Hr. simpl flat_map. rewrite Hl1.
      destruct (ffmpeg_run env (S _) _ _); simpl; lia.
  - unfold job_attempts. replace (0 <? k)%nat with false
      by (symmetry; apply Nat.ltb_ge; lia).
    destruct (try_fault _ _); simpl; lia.
Qed.

(** The encoder writes to the output file of the job only. *)
Lemma output_after_others (job : FfmpegJob) (output_video name : string)
    (attempts : list ffmpeg_outcome) (out : gmap string Video) :
  name <> output_video ->
  fold_left (fun o outcome => output_after output_video job outcome o) attempts out !! name
  = out !! name.
Proof.
  intros Hne. revert out. induction attempts as [|a l IH]; intros out; simpl.
  - reflexivity.
  - rewrite IH. unfold output_after. destruct (leaves_output a); [|reflexivity].
    apply lookup_insert_ne. congruence.
Qed.

End JobOutcomes.

Section JobTheorems.
Context {A : Type} {num_ops : NumOps A} {arctan2_op : Arctan2 A}.
Variable env : Env A.
Variable self : Worker.t A.

(** A job on a stereo input with non-empty channels and a non-degenerate
    frame step generates the frames below the first index at which
    [savefig] faults (all [num_frames] of them when it never does) and emits
    one progress signal per frame. With a frame it calls the encoder: once,
    or twice when the loop was complete and the first call raised something
    else than [ffmpeg.Error]. The processing error is emitted exactly when
    the [try] block raised, a compilation failure for each call that raised
    [ffmpeg.Error]; the job returns, cleans up and closes unless its last
    call of the encoder raised something else. *)
Theorem stereo_job_outcome (s : State A) (left_channel right_channel : list A)
    (more : list (list A)) (sr : Z) :
  input_folder s !! Worker.audio_file self
    = Some (ok (Arr2 (left_channel :: right_channel :: more), sr)) ->
  left_channel <> [] -> right_channel <> [] ->
  Worker.fps self <> 0 -> Z.quot sr (Worker.fps self) <> 0 ->
  let fstep := Z.quot sr (Worker.fps self) in
  let nframes := Z.of_nat (length left_channel) / fstep in
  let found := first_fault (render_at env self (normalized left_channel)
                                      (normalized right_channel) fstep)
                           (Z.to_nat nframes) in
  let k := fst found in
  let job := job_for self k in
  let frames := frame_files k ∪ temp_folder s in
  let attempts := job_attempts env self s k (snd found) in
  let fault := try_fault (snd found) attempts in
  let fin := snd (Worker.run env self s) in
  (k <= Z.to_nat nframes)%nat /\
  (snd found = None -> k = Z.to_nat nframes) /\
  (length attempts <= 2)%nat /\
  ((0 < k)%nat <-> attempts <> []) /\
  fst (Worker.run env self s)
    = match escaped attempts with Some e => inl e | None => ok tt end /\
  num_frames_generated fin = k /\
  ffmpeg_calls fin = (ffmpeg_calls s ++ map (fun _ => (job, frames)) attempts)%list /\
  emitted fin
    = (emitted s ++ progress_signals nframes k ++ fault_signals self fault
       ++ flat_map (encoder_signals self) attempts
       ++ match escaped attempts with
          | Some _ => []
          | None => [closing_signal self k]
          end)%list /\
  output_folder fin
    = fold_left (fun out outcome => output_after (output_name self) job outcome out)
                attempts (output_folder s) /\
  error_log fin
    = (error_log s ++ fault_log self fault
       ++ flat_map (encoder_log self) attempts)%list /\
  temp_folder fin
    = match escaped attempts with
      | Some _ => frames
      | None => filter (fun file => endswith file ".png" = false) frames
      end.
Proof.
  intros Hin Hl Hr Hfps Hfs fstep nframes found k job frames attempts fault fin.
  pose proof (try_body_first_fault env self s left_channel right_channel more sr
                Hin Hl Hr Hfps Hfs) as Htry.
  cbv zeta in Htry. fold fstep nframes found k in Htry.
  assert (Hpos : (0 < k)%nat -> Worker.fps self <> 0 /\ present self s).
  { intros _. split; [exact Hfps|]. unfold present. rewrite Hin. eauto. }
  pose proof (run_fields_of env self s nframes k (snd found) Hpos Htry) as Hf.
  cbv zeta in Hf. fold job frames attempts fault fin in Hf.
  destruct Hf as (_ & _ & _ & _ & Hret & Hgen & Htemp & Hcalls & Hemit & Hout & Hlog & _).
  pose proof (first_fault_bound
                (render_at env self (normalized left_channel)
                           (normalized right_channel) fstep) 0 (Z.to_nat nframes)) as Hb.
  split; [exact (proj2 Hb)|]. split.
  { intros Hnone. apply (first_fault_none _ 0 _ Hnone). }
  split.
  { unfold attempts, job_attempts, encoder_attempts.
    destruct (0 <? k)%nat; [|simpl; lia].
    destruct (raised _); [destruct (snd found)|]; simpl; lia. }
  split.
  { unfold attempts, job_attempts, encoder_attempts.
    destruct (Nat.ltb_spec 0 k) as [Hk|Hk].
    - split; [|intros _; exact Hk]. intros _.
      destruct (raised _); [destruct (snd found)|]; discriminate.
    - split; [lia|]. intros Hne. now contradiction Hne. }
  repeat split; assumption.
Qed.

(** A job on an input that cannot be used (missing or undecodable file,
    mono file, fewer than two channels, an empty channel) generates no
    frame, logs one line, emits the processing error and then the error
    "No frames generated", and runs no encoder. *)
Theorem unusable_input_fails (s : State A) :
  unusable (input_folder s !! Worker.audio_file self) = true ->
  let fin := snd (Worker.run env self s) in
  exists e,
    fst (Worker.try_body env self (Worker.audio_file self) (output_name self) (reset s))
      = inl e /\
    num_frames_generated fin = O /\
    emitted fin
      = (emitted s ++ [error (msg_processing_error self); error (msg_no_frames self)])%list /\
    error_log fin = (error_log s ++ fault_log self (Some e))%list /\
    ffmpeg_calls fin = ffmpeg_calls s /\
    output_folder fin = output_folder s.
Proof.
  intros Hun fin.
  destruct (try_body_unusable env self (reset s) (Worker.audio_file self)
              (output_name self) Hun) as (e & Htry).
  exists e. split; [now rewrite Htry|].
  exact (proj2 (run_without_frame env self s e Htry)).
Qed.


(** An audio shorter than one window fails silently: no exception, nothing
    in the log, no processing error, only "No frames generated". *)
Theorem short_audio_no_diagnostic (s : State A) (left_channel right_channel : list A)
    (more : list (list A)) (sr : Z) :
  input_folder s !! Worker.audio_file self
    = Some (ok (Arr2 (left_channel :: right_channel :: more), sr)) ->
  left_channel <> [] -> right_channel <> [] ->
  Worker.fps self <> 0 -> Z.quot sr (Worker.fps self) <> 0 ->
  Z.of_nat (length left_channel) / Z.quot sr (Worker.fps self) <= 0 ->
  let fin := snd (Worker.run env self s) in
  fst (Worker.try_body env self (Worker.audio_file self) (output_name self) (reset s))
    = ok tt /\
  num_frames_generated fin = O /\
  emitted fin = (emitted s ++ [error (msg_no_frames self)])%list /\
  error_log fin = error_log s /\
  ffmpeg_calls fin = ffmpeg_calls s.
Proof.
  intros Hin Hl Hr Hfps Hfs Hshort fin.
  pose proof (try_body_first_fault env self s left_channel right_channel more sr
                Hin Hl Hr Hfps Hfs) as Htry.
  cbv zeta in Htry.
  replace (Z.to_nat (Z.of_nat (length left_channel) / Z.quot sr (Worker.fps self)))
    with O in Htry by lia.
  simpl in Htry.
  pose proof (run_fields_of env self s 0 O None ltac:(lia) Htry) as Hf.
  cbv zeta in Hf. fold fin in Hf.
  destruct Hf as (T1 & _ & _ & _ & _ & Hgen & _ & Hcalls & Hemit & _ & Hlog & _).
  simpl in T1, Hcalls, Hemit, Hlog. rewrite app_nil_r in Hcalls, Hlog.
  repeat split; assumption.
Qed.

(** What a job leaves alone: files of the temporary folder that are not
    images, the other files of the input folder, the other files of the
    output folder, and everything already emitted or logged, to which it
    adds at most two log lines. *)
Theorem run_footprint (s : State A) :
  let fin := snd (Worker.run env self s) in
  (forall file, endswith file ".png" = false ->
     (file ∈ temp_folder fin <-> file ∈ temp_folder s)) /\
  (forall name, name <> Worker.audio_file self ->
     input_folder fin !! name = input_folder s !! name) /\
  (forall name, name <> output_name self ->
     output_folder fin !! name = output_folder s !! name) /\
  (exists signals, emitted fin = (emitted s ++ signals)%list) /\
  (exists lines, error_log fin = (error_log s ++ lines)%list /\ (length lines <= 2)%nat).
Proof.
  intros fin.
  destruct (run_fields env self s) as (nframes & k & loop_fault & _ & _ & _ & Hf).
  cbv zeta in Hf. fold fin in Hf.
  destruct Hf as (_ & _ & _ & _ & _ & _ & Htemp & _ & Hemit & Hout & Hlog & Hin).
  assert (Hframe : forall file, endswith file ".png" = false ->
                     (file ∈ frame_files k ∪ temp_folder s <-> file ∈ temp_folder s)).
  { intros file Hnot. rewrite elem_of_union. split; [|intros Hin'; right; exact Hin'].
    intros [Hfr|Hin']; [|exact Hin'].
    apply elem_of_frame_files in Hfr as (i & _ & ->).
    rewrite frame_name_png in Hnot. discriminate. }
  split.
  { intros file Hnot. rewrite Htemp.
    destruct (escaped _); [apply Hframe, Hnot|].
    rewrite elem_of_filter, (Hframe file Hnot). tauto. }
  split.
  { intros name Hne. rewrite Hin. destruct (escaped _); [reflexivity|].
    apply lookup_delete_ne. congruence. }
  split.
  { intros name Hne. rewrite Hout. apply output_after_others, Hne. }
  split; [eexists; exact Hemit|].
  eexists. split; [exact Hlog|]. apply (job_log_bound env self s k loop_fault).
Qed.

(** A job that returns leaves no image file in the temporary folder. A job
    that does not return - its last call of the encoder raised something
    else than [ffmpeg.Error] - leaves there every frame it generated, at
    least one, and the input copy in the input folder. *)
Theorem run_leaves_no_images (s : State A) :
  let fin := snd (Worker.run env self s) in
  (fst (Worker.run env self s) = ok tt -> png_files (temp_folder fin) = ∅) /\
  (forall e, fst (Worker.run env self s) = inl e ->
     (0 < num_frames_generated fin)%nat /\
     (forall i, (i < num_frames_generated fin)%nat ->
        Worker.frame_name i ∈ png_files (temp_folder fin)) /\
     input_folder fin = input_folder s /\
     is_Some (input_folder fin !! Worker.audio_file self)).
Proof.
  intros fin. split.
  - intros Hok. exact (proj1 (proj2 (run_returned env self s Hok))).
  - intros e He.
    destruct (run_escaped env self s e He) as (Hk & Htemp & Hin & Hsome).
    fold fin in Hk, Htemp, Hin.
    split; [exact Hk|]. split; [|split; [exact Hin|rewrite Hin; exact Hsome]].
    intros i Hi. apply elem_of_filter. split; [apply frame_name_png|].
    rewrite Htemp. apply elem_of_union_l, elem_of_frame_files.
    exists i. split; [exact Hi|reflexivity].
Qed.

End JobTheorems.

(** After the start-up sweep, as long as the jobs return the temporary
    folder is empty between them; the job that does not return ends the
    session and leaves its frames, and nothing else, in the folder. *)
Theorem session_temp_empty {A : Type} {num_ops : NumOps A} {arctan2_op : Arctan2 A}
    (jobs : list (Env A * Worker.t A)) (s : State A) :
  let session := run_jobs jobs (snd (clear_temp_frames s)) in
  (fst session = ok tt -> temp_folder (snd session) = ∅) /\
  (forall e, fst session = inl e ->
     exists k, (0 < k)%nat /\ temp_folder (snd session) = frame_files k).
Proof.
  assert (Hall : forall st, temp_folder st = ∅ ->
            (fst (run_jobs jobs st) = ok tt -> temp_folder (snd (run_jobs jobs st)) = ∅) /\
            (forall e, fst (run_jobs jobs st) = inl e ->
               exists k, (0 < k)%nat /\ temp_folder (snd (run_jobs jobs st)) = frame_files k)).
  { induction jobs as [|[env self] rest IH]; intros st Hempty.
    - simpl. split; [intros _; exact Hempty|discriminate].
    - simpl. unfold bind.
      destruct (Worker.run env self st) as [[e|[]] st'] eqn:Hrun.
      + simpl. split; [discriminate|]. intros e' _.
        destruct (run_escaped env self st e) as (Hk & Htemp & _);
          [rewrite Hrun; reflexivity|].
        rewrite Hrun in Hk, Htemp. simpl in Hk, Htemp.
        exists (num_frames_generated st'). split; [exact Hk|].
        rewrite Htemp, Hempty. apply union_empty_r_L.
      + apply IH.
        destruct (run_returned env self st) as (Htemp & _);
          [rewrite Hrun; reflexivity|].
        rewrite Hrun in Htemp. simpl in Htemp. rewrite Htemp, Hempty.
        apply set_eq. intros file. rewrite elem_of_filter. set_solver. }
  apply Hall. reflexivity.
Qed.

(** ** Jobs on given inputs: instances *)

Lemma stereo_job_outcome_witness :
  input_folder demo_state !! Worker.audio_file (demo_self 2)
  = Some (ok (Arr2 [[1; -1; 1 / 2; 0; 1; 1; 0]; [0; 1; 1; 1 / 2; -1; 0; 0]]%R, 4)) /\
  Worker.fps (demo_self 2) <> 0 /\ Z.quot 4 (Worker.fps (demo_self 2)) <> 0 /\
  num_frames_generated
    (snd (Worker.run (demo_env (Some 2%nat) FfmpegOk) (demo_self 2) demo_state)) = 2%nat /\
  emitted (snd (Worker.run (demo_env (Some 2%nat) FfmpegOk) (demo_self 2) demo_state))
  = [progress 33; progress 66; error "Error processing song.mp3. Check log.";
     finished "Processed song.mp3 with 2 frames."].
Proof.
  split; [vm_compute; reflexivity|]. split; [discriminate|]. split; [discriminate|].
  destruct (stereo_job_outcome (demo_env (Some 2%nat) FfmpegOk) (demo_self 2) demo_state
              [1; -1; 1 / 2; 0; 1; 1; 0]%R [0; 1; 1; 1 / 2; -1; 0; 0]%R [] 4
              ltac:(vm_compute; reflexivity) ltac:(discriminate) ltac:(discriminate)
              ltac:(discriminate) ltac:(discriminate))
    as (_ & _ & _ & _ & _ & Hgen & _ & Hemit & _).
  split.
  - rewrite Hgen. vm_compute. reflexivity.
  - rewrite Hemit. vm_compute. reflexivity.
Defined.

Lemma unusable_input_fails_witness :
  unusable (input_folder mono_state !! Worker.audio_file (demo_self 2)) = true /\
  exists e,
    fst (Worker.try_body (demo_env None FfmpegOk) (demo_self 2) "song.mp3"
           (output_name (demo_self 2)) (reset mono_state)) = inl e /\
    exn_class e = "TypeError" /\
    emitted (snd (Worker.run (demo_env None FfmpegOk) (demo_self 2) mono_state))
    = [error "Error processing song.mp3. Check log.";
       error "No frames generated for song.mp3."].
Proof.
  split; [vm_compute; reflexivity|].
  destruct (unusable_input_fails (demo_env None FfmpegOk) (demo_self 2) mono_state
              ltac:(vm_compute; reflexivity))
    as (e & Htry & _ & Hemit & _).
  exists e. split; [exact Htry|]. split; [|exact Hemit].
  vm_compute in Htry. injection Htry as <-. reflexivity.
Defined.


Lemma short_audio_no_diagnostic_witness :
  Z.of_nat (length [1; -1; 1 / 2; 0; 1; 1; 0]%R) / Z.quot 44100 (Worker.fps (demo_self 30))
  <= 0 /\
  emitted (snd (Worker.run (demo_env None FfmpegOk) (demo_self 30) short_state))
  = [error "No frames generated for song.mp3."] /\
  error_log (snd (Worker.run (demo_env None FfmpegOk) (demo_self 30) short_state)) = [].
Proof.
  split; [vm_compute; discriminate|].
  destruct (short_audio_no_diagnostic (demo_env None FfmpegOk) (demo_self 30) short_state
              [1; -1; 1 / 2; 0; 1; 1; 0]%R [0; 1; 1; 1 / 2; -1; 0; 0]%R [] 44100
              ltac:(vm_compute; reflexivity) ltac:(discriminate) ltac:(discriminate)
              ltac:(discriminate) ltac:(vm_compute; discriminate)
              ltac:(vm_compute; discriminate))
    as (_ & _ & Hemit & Hlog & _).
  split; [exact Hemit|exact Hlog].
Defined.

Lemma run_leaves_no_images_witness :
  fst (Worker.run (demo_env None FfmpegOk) (demo_self 2) demo_state) = ok tt /\
  png_files (temp_folder (snd (Worker.run (demo_env None FfmpegOk) (demo_self 2)
                                 demo_state))) = ∅ /\
  fst (Worker.run (demo_env (Some 2%nat) no_ffmpeg) (demo_self 2) demo_state)
  = inl (Exn "FileNotFoundError" (no_such_file "ffmpeg")) /\
  Worker.frame_name 1
  ∈ png_files (temp_folder (snd (Worker.run (demo_env (Some 2%nat) no_ffmpeg) (demo_self 2)
                                   demo_state))).
Proof.
  assert (Hok : fst (Worker.run (demo_env None FfmpegOk) (demo_self 2) demo_state) = ok tt)
    by (vm_compute; reflexivity).
  assert (He : fst (Worker.run (demo_env (Some 2%nat) no_ffmpeg) (demo_self 2) demo_state)
               = inl (Exn "FileNotFoundError" (no_such_file "ffmpeg")))
    by (vm_compute; reflexivity).
  split; [exact Hok|].
  split; [exact (proj1 (run_leaves_no_images (demo_env None FfmpegOk) (demo_self 2)
                          demo_state) Hok)|].
  split; [exact He|].
  destruct (proj2 (run_leaves_no_images (demo_env (Some 2%nat) no_ffmpeg) (demo_self 2)
                     demo_state) _ He) as (_ & Hframes & _).
  apply Hframes. vm_compute. lia.
Defined.

Lemma session_temp_empty_witness :
  fst (run_jobs [(demo_env None FfmpegOk, demo_self 2);
                 (demo_env None (FfmpegError "" true), demo_self 4)]
         (snd (clear_temp_frames demo_state))) = ok tt /\
  temp_folder
    (snd (run_jobs [(demo_env None FfmpegOk, demo_self 2);
                    (demo_env None (FfmpegError "" true), demo_self 4)]
            (snd (clear_temp_frames demo_state)))) = ∅.
Proof.
  assert (Hok : fst (run_jobs [(demo_env None FfmpegOk, demo_self 2);
                               (demo_env None (FfmpegError "" true), demo_self 4)]
                       (snd (clear_temp_frames demo_state))) = ok tt)
    by (vm_compute; reflexivity).
  split; [exact Hok|].
  exact (proj1 (session_temp_empty
                  [(demo_env None FfmpegOk, demo_self 2);
                   (demo_env None (FfmpegError "" true), demo_self 4)] demo_state) Hok).
Defined.

(** A frame file name is ["frame_"], at least five digits that read back
    as the index, and [".png"]; distinct indices give distinct names, and
    the encoder's pattern names the same file. *)
Theorem frame_name_roundtrip (i j : nat) :
  (exists digits,
     Worker.frame_name i = "frame_" +:+ digits +:+ ".png" /\
     parse_nat digits = Some i /\
     (5 <= String.length digits)%nat) /\
  Worker.sequence_file "frame_%05d.png" i = Worker.frame_name i /\
  (Worker.frame_name i = Worker.frame_name j -> i = j).
Proof.
  split; [|split; [reflexivity|apply frame_name_inj]].
  exists (format_05d i). split; [reflexivity|]. split; [apply parse_nat_format|].
  unfold format_05d, zfill. rewrite length_append.
  assert (Hz : forall k, String.length (zeros k) = k)
    by (induction k as [|k IH]; simpl; [reflexivity|now rewrite IH]).
  rewrite Hz. lia.
Qed.

(** ** Frame timing against the audio *)

Section TimingFacts.

Lemma frame_step_positive (sr fps : Z) :
  0 < fps -> fps <= sr ->
  Worker.frame_step sr fps = ok (Z.quot sr fps) /\
  0 < Z.quot sr fps /\
  Z.quot sr fps * fps <= sr < (Z.quot sr fps + 1) * fps /\
  (sr mod fps = 0 <-> Z.quot sr fps * fps = sr).
Proof.
  intros Hfps Hsr. unfold Worker.frame_step.
  destruct (Z.eqb_spec fps 0) as [->|_]; [lia|].
  rewrite Z.quot_div_nonneg by lia.
  pose proof (Z.div_mod sr fps ltac:(lia)) as Hdm.
  pose proof (Z.mod_pos_bound sr fps Hfps) as Hmod.
  assert (1 <= sr / fps) by (apply Z.div_le_lower_bound; lia).
  repeat split; try nia.
Qed.

Lemma Qdiv_le_cross (a b c d : Z) :
  0 < b -> 0 < d -> a * d <= c * b ->
  (inject_Z a / inject_Z b <= inject_Z c / inject_Z d)%Q.
Proof.
  intros Hb Hd Hle. destruct b as [|b|b]; try lia. destruct d as [|d|d]; try lia.
  unfold Qle, Qdiv, Qmult, Qinv, inject_Z. simpl. lia.
Qed.

Lemma Qdiv_lt_cross (a b c d : Z) :
  0 < b -> 0 < d -> a * d < c * b ->
  (inject_Z a / inject_Z b < inject_Z c / inject_Z d)%Q.
Proof.
  intros Hb Hd Hle. destruct b as [|b|b]; try lia. destruct d as [|d|d]; try lia.
  unfold Qlt, Qdiv, Qmult, Qinv, inject_Z. simpl. lia.
Qed.

Lemma Qdiv_eq_cross (a b c d : Z) :
  0 < b -> 0 < d -> a * d = c * b ->
  (inject_Z a / inject_Z b == inject_Z c / inject_Z d)%Q.
Proof.
  intros Hb Hd Hle. destruct b as [|b|b]; try lia. destruct d as [|d|d]; try lia.
  unfold Qeq, Qdiv, Qmult, Qinv, inject_Z. simpl. lia.
Qed.

(** With a positive frame rate not above the sample rate, the frame step,
    the frame count and the video duration are all defined. The video ends
    less than one frame period before the audio does; it is never longer
    than the audio when the frame rate divides the sample rate, and never
    longer than the audio played at [frame_step * fps] samples per second
    otherwise. *)
Theorem video_length_vs_audio (sr fps : Z) (n : nat) :
  0 < fps -> fps <= sr ->
  exists fstep nframes t,
    Worker.frame_step sr fps = ok fstep /\
    Worker.num_frames (Z.of_nat n) fstep = ok nframes /\
    Worker.duration (Z.to_nat nframes) fps = ok t /\
    0 < fstep /\ 0 <= nframes /\
    (inject_Z (Z.of_nat n) / inject_Z sr < t + 1 / inject_Z fps)%Q /\
    (t <= inject_Z (Z.of_nat n) / inject_Z (fstep * fps))%Q /\
    (sr mod fps = 0 -> (t <= inject_Z (Z.of_nat n) / inject_Z sr)%Q).
Proof.
  intros Hfps Hsr.
  destruct (frame_step_positive sr fps Hfps Hsr) as (Hfs & Hpos & [Hlo Hhi] & Hdiv).
  set (fstep := Z.quot sr fps) in *.
  exists fstep, (Z.of_nat n / fstep), (inject_Z (Z.of_nat n / fstep) / inject_Z fps)%Q.
  pose proof (Z.div_mod (Z.of_nat n) fstep ltac:(lia)) as Hdm.
  pose proof (Z.mod_pos_bound (Z.of_nat n) fstep Hpos) as Hmod.
  assert (Hnf : 0 <= Z.of_nat n / fstep) by (apply Z.div_pos; lia).
  set (nframes := Z.of_nat n / fstep) in *.
  split; [exact Hfs|]. split.
  { unfold Worker.num_frames. destruct (Z.eqb_spec fstep 0); [lia|reflexivity]. }
  split.
  { unfold Worker.duration. destruct (Z.eqb_spec fps 0); [lia|].
    rewrite Z2Nat.id by exact Hnf. reflexivity. }
  split; [exact Hpos|]. split; [exact Hnf|]. split; [|split].
  - assert (Heq : (inject_Z nframes / inject_Z fps + 1 / inject_Z fps
                   == inject_Z (nframes + 1) / inject_Z fps)%Q).
    { rewrite inject_Z_plus. unfold Qdiv. ring. }
    rewrite Heq. apply Qdiv_lt_cross; [lia|lia|nia].
  - apply Qdiv_le_cross; [lia|nia|nia].
  - intros Hz. apply Hdiv in Hz. apply Qdiv_le_cross; [lia|lia|nia].
Qed.

Lemma video_length_vs_audio_witness :
  0 < 60 /\ 60 <= 22050 /\
  exists fstep nframes t,
    Worker.frame_step 22050 60 = ok fstep /\
    Worker.num_frames (Z.of_nat 4410) fstep = ok nframes /\
    Worker.duration (Z.to_nat nframes) 60 = ok t /\
    (inject_Z (Z.of_nat 4410) / inject_Z 22050 < t + 1 / inject_Z 60)%Q.
Proof.
  split; [lia|]. split; [lia|].
  destruct (video_length_vs_audio 22050 60 4410 ltac:(lia) ltac:(lia))
    as (fstep & nframes & t & H1 & H2 & H3 & _ & _ & H4 & _).
  exists fstep, nframes, t. repeat split; assumption.
Defined.

(** Frame [i] is shown at [i / fps] seconds and drawn from the samples that
    start at [i * frame_step / sr] seconds: the picture never runs ahead of
    the sound, is in step with it exactly when the frame rate divides the
    sample rate, and otherwise falls behind from the second frame on. *)
Theorem frame_display_lag (sr fps : Z) (i : nat) :
  0 < fps -> fps <= sr ->
  let fstep := Z.quot sr fps in
  let shown := (inject_Z (Z.of_nat i) / inject_Z fps)%Q in
  let drawn := (inject_Z (Worker.window_start fstep i) / inject_Z sr)%Q in
  (drawn <= shown)%Q /\
  (sr mod fps = 0 -> (drawn == shown)%Q) /\
  (sr mod fps <> 0 -> (0 < i)%nat -> (drawn < shown)%Q).
Proof.
  intros Hfps Hsr fstep shown drawn.
  destruct (frame_step_positive sr fps Hfps Hsr) as (_ & Hpos & [Hlo Hhi] & Hdiv).
  fold fstep in Hpos, Hlo, Hhi, Hdiv.
  unfold drawn, shown, Worker.window_start. split; [|split].
  - apply Qdiv_le_cross; [lia|lia|nia].
  - intros Hz. apply Hdiv in Hz. apply Qdiv_eq_cross; [lia|lia|nia].
  - intros Hnz Hi.
    assert (fstep * fps < sr) by (destruct (Z.eq_dec (fstep * fps) sr) as [E|E];
                                  [apply Hdiv in E; contradiction|lia]).
    apply Qdiv_lt_cross; [lia|lia|nia].
Qed.

Lemma frame_display_lag_witness :
  0 < 60 /\ 60 <= 22050 /\ 22050 mod 60 <> 0 /\
  (inject_Z (Worker.window_start (Z.quot 22050 60) 60) / inject_Z 22050
   < inject_Z (Z.of_nat 60) / inject_Z 60)%Q.
Proof.
  split; [lia|]. split; [lia|]. split; [discriminate|].
  exact (proj2 (proj2 (frame_display_lag 22050 60 60 ltac:(lia) ltac:(lia)))
           ltac:(discriminate) ltac:(lia)).
Defined.

End TimingFacts.

(** ** The output file name *)

Section OutputName.

Lemma list_ascii_of_string_app (s1 s2 : string) :
  list_ascii_of_string (s1 +:+ s2)
  = (list_ascii_of_string s1 ++ list_ascii_of_string s2)%list.
Proof. induction s1 as [|c s1 IH]; simpl; [reflexivity|now rewrite IH]. Qed.

Lemma rfind_dot_none (cs : list ascii) :
  "."%char ∉ cs -> rfind_dot cs = None.
Proof.
  induction cs as [|c cs IH]; intros Hno; simpl; [reflexivity|].
  rewrite IH by (intros Hin; apply Hno; now right).
  destruct (Ascii.eqb_spec c "."%char) as [->|_]; [|reflexivity].
  exfalso. apply Hno. now left.
Qed.

Lemma rfind_dot_last (xs ys : list ascii) :
  "."%char ∉ ys -> rfind_dot (xs ++ "."%char :: ys) = Some (length xs).
Proof.
  intros Hno. induction xs as [|x xs IH]; simpl.
  - rewrite (rfind_dot_none ys Hno). reflexivity.
  - rewrite IH. reflexivity.
Qed.

Lemma all_dots_false (cs : list ascii) (c : ascii) :
  c ∈ cs -> c <> "."%char -> all_dots cs = false.
Proof.
  intros Hin Hc. induction Hin as [c cs|c d cs _ IH]; simpl.
  - destruct (Ascii.eqb_spec c "."%char); [contradiction|reflexivity].
  - rewrite (IH Hc). apply andb_false_r.
Qed.

Lemma rfind_sep_none (cs : list ascii) :
  "/"%char ∉ cs -> rfind_sep cs = None.
Proof.
  induction cs as [|c cs IH]; intros Hno; simpl; [reflexivity|].
  rewrite IH by (intros Hin; apply Hno; now right).
  destruct (Ascii.eqb_spec c "/"%char) as [->|_]; [|reflexivity].
  exfalso. apply Hno. now left.
Qed.

Lemma splitext_root_stem (stem ext : string) (c : ascii) :
  c ∈ list_ascii_of_string stem -> c <> "."%char ->
  "/"%char ∉ list_ascii_of_string stem ->
  "."%char ∉ list_ascii_of_string ext ->
  "/"%char ∉ list_ascii_of_string ext ->
  splitext_root (stem +:+ "." +:+ ext) = stem.
Proof.
  intros Hin Hc Hsep Hext Hsep'. unfold splitext_root.
  rewrite list_ascii_of_string_app. simpl list_ascii_of_string.
  rewrite (rfind_dot_last _ _ Hext).
  rewrite rfind_sep_none.
  2:{ intros Hs. apply elem_of_app in Hs as [Hs|Hs]; [exact (Hsep Hs)|].
      apply elem_of_cons in Hs as [Hs|Hs]; [discriminate Hs|exact (Hsep' Hs)]. }
  cbv zeta. simpl Nat.leb. rewrite Nat.sub_0_r.
  change (skipn 0 ?l) with l.
  rewrite !firstn_app, !Nat.sub_diag, !firstn_all. simpl firstn. rewrite !app_nil_r.
  rewrite (all_dots_false _ c Hin Hc). simpl.
  apply string_of_list_ascii_of_string.
Qed.

(** The output video is named after the stem of the audio file: for a
    file name [stem.ext] without directory part, whose stem has a character
    other than a dot and whose extension has no dot, the output is
    [stem_gonio.mp4]. Two audio files that differ only in the extension are
    therefore written to the same output file. *)
Theorem output_name_stem {A : Type} (self other : Worker.t A)
    (stem ext ext' : string) (c : ascii) :
  c ∈ list_ascii_of_string stem -> c <> "."%char ->
  "/"%char ∉ list_ascii_of_string stem ->
  "."%char ∉ list_ascii_of_string ext -> "/"%char ∉ list_ascii_of_string ext ->
  "."%char ∉ list_ascii_of_string ext' -> "/"%char ∉ list_ascii_of_string ext' ->
  Worker.audio_file self = stem +:+ "." +:+ ext ->
  Worker.audio_file other = stem +:+ "." +:+ ext' ->
  output_name self = stem +:+ "_gonio.mp4" /\
  output_name other = output_name self.
Proof.
  intros Hin Hc Hsep He Hes He' Hes' Hs Ho. unfold output_name. rewrite Hs, Ho.
  rewrite (splitext_root_stem stem ext c Hin Hc Hsep He Hes).
  rewrite (splitext_root_stem stem ext' c Hin Hc Hsep He' Hes'). split; reflexivity.
Qed.

Lemma output_name_stem_witness :
  output_name (demo_self 2) = "song_gonio.mp4" /\
  output_name {| Worker.audio_file := "song.MP3"; Worker.fps := 30;
                 Worker.resolution := (1280, 720); Worker.color := (0, 255, 0);
                 Worker.amplitude_scale := 2%R; Worker.point_size := 10%R |}
  = output_name (demo_self 2).
Proof.
  apply (output_name_stem (demo_self 2) _ "song" "mp3" "MP3" "s"%char).
  - simpl. left.
  - discriminate.
  - intros Hin. apply list_elem_of_In in Hin. simpl in Hin. intuition discriminate.
  - intros Hin. apply list_elem_of_In in Hin. simpl in Hin. intuition discriminate.
  - intros Hin. apply list_elem_of_In in Hin. simpl in Hin. intuition discriminate.
  - intros Hin. apply list_elem_of_In in Hin. simpl in Hin. intuition discriminate.
  - intros Hin. apply list_elem_of_In in Hin. simpl in Hin. intuition discriminate.
  - reflexivity.
  - reflexivity.
Defined.

(** A dot that precedes the last separator is not an extension's. *)
Example splitext_separator :
  splitext_root "a.b/c" = "a.b/c" /\ splitext_root "dir.d/song.mp3" = "dir.d/song" /\
  splitext_root "dir/.hidden" = "dir/.hidden" /\ splitext_root "x./y" = "x./y".
Proof. repeat split. Qed.

End OutputName.

(** ** The front end *)

Section FrontEndFacts.
Context {A : Type} {num_ops : NumOps A} {arctan2_op : Arctan2 A}.
Import GonioVisualizer.

Lemma start_processing_spec (g : t A) (name : string) :
  (fps_combo g < 3)%nat -> (res_combo g < 3)%nat -> audio_file g = Some name ->
  start_processing g
  = ok (set_worker (Some (worker_of g name)) (setValue 0 (setEnabled false g)),
        worker_of g name).
Proof.
  intros Hf Hr Ha. unfold start_processing, worker_of.
  destruct (fps_combo g) as [|[|[|n]]]; [| | |lia];
    destruct (res_combo g) as [|[|[|m]]]; try lia;
    simpl; rewrite Ha; reflexivity.
Qed.

Lemma deliver_keeps (signals : list signal) (g : t A) :
  let g' := fold_left deliver signals g in
  audio_file g' = audio_file g /\ color g' = color g /\
  amplitude_scale g' = amplitude_scale g /\ point_size g' = point_size g /\
  fps_combo g' = fps_combo g /\ res_combo g' = res_combo g /\
  amplitude_slider g' = amplitude_slider g /\
  point_size_slider g' = point_size_slider g /\ worker g' = worker g.
Proof.
  revert g. induction signals as [|sig signals IH]; intros g; simpl.
  - repeat split.
  - specialize (IH (deliver g sig)). cbv zeta in IH.
    destruct IH as (H1 & H2 & H3 & H4 & H5 & H6 & H7 & H8 & H9).
    rewrite H1, H2, H3, H4, H5, H6, H7, H8, H9.
    destruct sig; repeat split.
Qed.

(** The window after the signals of a job: whatever came first, the
    closing signal decides the label, the bar and the button. *)
Lemma deliver_closing (signals : list signal) (self : Worker.t A) (k : nat) (g : t A) :
  let g' := fold_left deliver (signals ++ [closing_signal self k])%list g in
  label g' = (if (0 <? k)%nat then msg_processed self k else msg_no_frames self) /\
  progress_bar g' = Some (if (0 <? k)%nat then 100 else 0) /\
  process_btn g' = true.
Proof.
  cbv zeta. rewrite fold_left_app. simpl. unfold closing_signal.
  destruct (0 <? k)%nat; simpl; repeat split.
Qed.

Lemma click_process_spec (env : Env A) (a : app A) (name : string) :
  (fps_combo (fst a) < 3)%nat -> (res_combo (fst a) < 3)%nat ->
  audio_file (fst a) = Some name -> process_btn (fst a) = true ->
  let w := worker_of (fst a) name in
  click_process env a
  = match Worker.run env w (snd a) with
    | (inl e, _) => inl e
    | (inr _, fin) =>
        ok (fold_left deliver (drop (length (emitted (snd a))) (emitted fin))
              (set_worker (Some w) (setValue 0 (setEnabled false (fst a)))), fin)
    end.
Proof.
  intros Hf Hr Ha Hb w. unfold click_process. rewrite Hb.
  rewrite (start_processing_spec (fst a) name Hf Hr Ha). reflexivity.
Qed.

(** A click that returns ran a job that returned. *)
Lemma click_returned (env : Env A) (a a' : app A) (name : string) :
  (fps_combo (fst a) < 3)%nat -> (res_combo (fst a) < 3)%nat ->
  audio_file (fst a) = Some name -> process_btn (fst a) = true ->
  click_process env a = ok a' ->
  let w := worker_of (fst a) name in
  let fin := snd (Worker.run env w (snd a)) in
  fst (Worker.run env w (snd a)) = ok tt /\
  a' = (fold_left deliver (drop (length (emitted (snd a))) (emitted fin))
          (set_worker (Some w) (setValue 0 (setEnabled false (fst a)))), fin).
Proof.
  intros Hf Hr Ha Hb Hclick w fin.
  rewrite (click_process_spec env a name Hf Hr Ha Hb) in Hclick. fold w in Hclick.
  unfold fin. destruct (Worker.run env w (snd a)) as [[e|[]] s']; [discriminate|].
  injection Hclick as <-. split; reflexivity.
Qed.

Lemma init_inv (s : State A) : front_end_inv (init s).
Proof.
  unfold front_end_inv, init. simpl.
  split; [discriminate|]. repeat split; try lia; try discriminate.
  right. split; reflexivity.
Qed.

Lemma selected_inv (file_path : string) (copied : result (result (ndarray A * Z)))
    (a a' : app A) :
  front_end_inv a -> selected file_path copied a = ok a' -> front_end_inv a'.
Proof.
  intros (Hb & Hf & Hr & Has & Hps & Hp & Ham & Ht & Hw) Hsel.
  unfold selected in Hsel. destruct copied as [e|content]; [discriminate|].
  simpl in Hsel. injection Hsel as <-.
  unfold front_end_inv. simpl. repeat split; try assumption; try lia; eauto.
  all: try (apply (Hw w); assumption).
Qed.

Lemma bounded_range (lo hi value : nat) :
  (lo <= hi)%nat -> (lo <= bounded lo hi value <= hi)%nat.
Proof. unfold bounded. lia. Qed.

Lemma click_inv (env : Env A) (a a' : app A) :
  front_end_inv a -> click_process env a = ok a' -> front_end_inv a'.
Proof.
  intros Hinv Hclick.
  destruct (process_btn (fst a)) eqn:Hbtn;
    [|unfold click_process in Hclick; rewrite Hbtn in Hclick; injection Hclick as <-;
      exact Hinv].
  destruct Hinv as (Hb & Hf & Hr & Has & Hps & Hp & Ham & Ht & Hw).
  destruct (Hb Hbtn) as [name Hname].
  destruct (click_returned env a a' name Hf Hr Hname Hbtn Hclick) as (Hok & ->).
  pose proof (deliver_keeps
                (drop (length (emitted (snd a)))
                      (emitted (snd (Worker.run env (worker_of (fst a) name) (snd a)))))
                (set_worker (Some (worker_of (fst a) name))
                            (setValue 0 (setEnabled false (fst a))))) as Hk.
  cbv zeta in Hk. simpl in Hk.
  destruct Hk as (K1 & K2 & K3 & K4 & K5 & K6 & K7 & K8 & K9).
  unfold front_end_inv. simpl fst. simpl snd.
  rewrite K1, K3, K4, K5, K6, K7, K8, K9.
  split; [intros _; rewrite Hname; eauto|].
  split; [exact Hf|]. split; [exact Hr|]. split; [exact Has|]. split; [exact Hps|].
  split; [exact Hp|]. split; [exact Ham|]. split.
  - destruct (run_returned env (worker_of (fst a) name) (snd a) Hok) as (Htemp & _).
    rewrite Htemp, Ht. apply set_eq. intros file. rewrite elem_of_filter. set_solver.
  - intros w [= <-]. unfold worker_of, fps_values, res_values. simpl.
    split.
    + destruct (fps_combo (fst a)) as [|[|[|n]]]; [| | |lia]; simpl; set_solver.
    + destruct (res_combo (fst a)) as [|[|[|n]]]; [| | |lia]; simpl; set_solver.
Qed.

Lemma step_inv (ev : event A) (a a' : app A) :
  front_end_inv a -> step ev a = ok a' -> front_end_inv a'.
Proof.
  intros Hinv Hstep. destruct ev as [urls|path copied|chosen|v|v|i|i|env]; simpl in Hstep.
  - induction urls as [|[path copied] urls IH]; simpl in Hstep.
    + injection Hstep as <-. exact Hinv.
    + destruct (endswith _ _); [exact (selected_inv _ _ _ _ Hinv Hstep)|exact (IH Hstep)].
  - unfold select_file in Hstep. destruct (String.eqb path "").
    + injection Hstep as <-. exact Hinv.
    + exact (selected_inv _ _ _ _ Hinv Hstep).
  - injection Hstep as <-.
    destruct Hinv as (Hb & Hf & Hr & Has & Hps & Hp & Ham & Ht & Hw).
    destruct chosen as [c|]; unfold front_end_inv; simpl;
      repeat split; try assumption; try lia; try (apply (Hw w); assumption).
  - injection Hstep as <-.
    destruct Hinv as (Hb & Hf & Hr & Has & Hps & Hp & Ham & Ht & Hw).
    unfold move_amplitude.
    pose proof (bounded_range 1 10 v ltac:(lia)) as Hbd.
    destruct (Nat.eqb_spec (bounded 1 10 v) (amplitude_slider (fst a))).
    + unfold front_end_inv; simpl;
        repeat split; try assumption; try lia; try (apply (Hw w); assumption).
    + unfold front_end_inv; simpl.
      split; [exact Hb|]. split; [exact Hf|]. split; [exact Hr|]. split; [exact Hbd|].
      split; [exact Hps|]. split; [exact Hp|]. split; [left; reflexivity|].
      split; [exact Ht|exact Hw].
  - injection Hstep as <-.
    destruct Hinv as (Hb & Hf & Hr & Has & Hps & Hp & Ham & Ht & Hw).
    unfold move_point_size.
    pose proof (bounded_range 1 50 v ltac:(lia)) as Hbd.
    destruct (Nat.eqb_spec (bounded 1 50 v) (point_size_slider (fst a))).
    + unfold front_end_inv; simpl;
        repeat split; try assumption; try lia; try (apply (Hw w); assumption).
    + unfold front_end_inv; simpl.
      split; [exact Hb|]. split; [exact Hf|]. split; [exact Hr|]. split; [exact Has|].
      split; [exact Hbd|]. split; [reflexivity|]. split; [exact Ham|].
      split; [exact Ht|exact Hw].
  - injection Hstep as <-.
    destruct Hinv as (Hb & Hf & Hr & Has & Hps & Hp & Ham & Ht & Hw).
    unfold pick_fps. destruct (Nat.ltb_spec i (length fps_items)) as [Hi|Hi];
      unfold front_end_inv; simpl; simpl in Hi;
      repeat split; try assumption; try lia; try (apply (Hw w); assumption).
  - injection Hstep as <-.
    destruct Hinv as (Hb & Hf & Hr & Has & Hps & Hp & Ham & Ht & Hw).
    unfold pick_res. destruct (Nat.ltb_spec i (length res_items)) as [Hi|Hi];
      unfold front_end_inv; simpl; simpl in Hi;
      repeat split; try assumption; try lia; try (apply (Hw w); assumption).
  - exact (click_inv env a a' Hinv Hstep).
Qed.

Lemma run_events_inv (evs : list (event A)) (a a' : app A) :
  front_end_inv a -> run_events evs a = ok a' -> front_end_inv a'.
Proof.
  revert a. induction evs as [|ev evs IH]; intros a Hinv Hrun; simpl in Hrun.
  - injection Hrun as <-. exact Hinv.
  - destruct (step ev a) as [e|a1] eqn:Hstep; [discriminate|].
    simpl in Hrun. exact (IH a1 (step_inv ev a a1 Hinv Hstep) Hrun).
Qed.

Lemma reachable_inv (a : app A) : reachable a -> front_end_inv a.
Proof.
  intros (s & evs & Hrun). exact (run_events_inv evs _ a (init_inv s) Hrun).
Qed.

End FrontEndFacts.

Section FrontEndTheorems.
Context {A : Type} {num_ops : NumOps A} {arctan2_op : Arctan2 A}.
Import GonioVisualizer.

Lemma click_signals (env : Env A) (self : Worker.t A) (s : State A) :
  fst (Worker.run env self s) = ok tt ->
  exists signals,
    drop (length (emitted s)) (emitted (snd (Worker.run env self s)))
    = (signals ++ [closing_signal self
                     (num_frames_generated (snd (Worker.run env self s)))])%list.
Proof.
  intros Hok.
  destruct (run_fields env self s) as (nf & k & loop_fault & _ & _ & _ & Hrun).
  cbv zeta in Hrun. destruct Hrun as (_ & _ & _ & _ & Hret & Hgen & _ & _ & Hemit & _).
  rewrite Hok in Hret. destruct (escaped _); [discriminate|].
  rewrite Hemit, Hgen, drop_app_length, !app_assoc. eexists. reflexivity.
Qed.

(** What a click on Process that returns leaves in the window, for a
    window that is ready: a file name, valid combo indices and the button
    enabled. *)
Lemma click_ready (env : Env A) (a a' : app A) (name : string) :
  (fps_combo (fst a) < 3)%nat -> (res_combo (fst a) < 3)%nat ->
  audio_file (fst a) = Some name -> process_btn (fst a) = true ->
  click_process env a = ok a' ->
  let w := worker_of (fst a) name in
  let fin := snd (Worker.run env w (snd a)) in
  let k := num_frames_generated fin in
  fst (Worker.run env w (snd a)) = ok tt /\
  snd a' = fin /\
  label (fst a') = (if (0 <? k)%nat then msg_processed w k else msg_no_frames w) /\
  progress_bar (fst a') = Some (if (0 <? k)%nat then 100 else 0) /\
  process_btn (fst a') = true /\
  audio_file (fst a') = Some name /\ worker (fst a') = Some w /\
  color (fst a') = color (fst a) /\ amplitude_scale (fst a') = amplitude_scale (fst a) /\
  point_size (fst a') = point_size (fst a) /\
  fps_combo (fst a') = fps_combo (fst a) /\ res_combo (fst a') = res_combo (fst a).
Proof.
  intros Hf Hr Ha Hb Hclick w fin k.
  destruct (click_returned env a a' name Hf Hr Ha Hb Hclick) as (Hok & ->).
  fold w fin in Hok |- *. simpl fst. simpl snd.
  split; [exact Hok|]. split; [reflexivity|].
  destruct (click_signals env w (snd a) Hok) as (signals & Hsig). fold fin k in Hsig.
  rewrite Hsig.
  pose proof (deliver_closing signals w k
                (set_worker (Some w) (setValue 0 (setEnabled false (fst a))))) as Hd.
  pose proof (deliver_keeps (signals ++ [closing_signal w k])
                (set_worker (Some w) (setValue 0 (setEnabled false (fst a))))) as Hk.
  cbv zeta in Hd, Hk. simpl in Hk.
  destruct Hd as (D1 & D2 & D3).
  destruct Hk as (K1 & K2 & K3 & K4 & K5 & K6 & _ & _ & K9).
  rewrite K1, Ha. repeat split; assumption.
Qed.



(** What the window shows after a job: only the closing signal counts. The
    label is the message of [finished] and the bar is at 100 when a frame
    was generated, the label is "No frames generated" and the bar at 0
    otherwise; the button is enabled again. Messages of earlier [error]
    signals have been overwritten. *)
Theorem job_display (a a' : app A) (env : Env A) :
  reachable a -> process_btn (fst a) = true ->
  click_process env a = ok a' ->
  exists name,
    audio_file (fst a) = Some name /\
    let k := num_frames_generated (snd a') in
    label (fst a')
    = (if (0 <? k)%nat
       then "Processed " +:+ name +:+ " with " +:+ str k +:+ " frames."
       else "No frames generated for " +:+ name +:+ ".") /\
    progress_bar (fst a') = Some (if (0 <? k)%nat then 100 else 0) /\
    process_btn (fst a') = true /\
    audio_file (fst a') = Some name.
Proof.
  intros Hreach Hbtn Hclick.
  destruct (reachable_inv a Hreach) as (Hb & Hf & Hr & _).
  destruct (Hb Hbtn) as [name Hname].
  destruct (click_ready env a a' name Hf Hr Hname Hbtn Hclick)
    as (_ & Hfin & Hl & Hp & Hbt & Ha & _).
  exists name. split; [exact Hname|]. cbv zeta. rewrite Hfin.
  split; [exact Hl|]. split; [exact Hp|]. split; [exact Hbt|exact Ha].
Qed.

(** The state in which a second click cannot succeed: a file name is
    selected and the button enabled, but the copy is gone. *)
Lemma stale_click (a a' : app A) (env : Env A) (name : string) :
  front_end_inv a ->
  audio_file (fst a) = Some name -> process_btn (fst a) = true ->
  input_folder (snd a) !! name = None ->
  click_process env a = ok a' ->
  (audio_file (fst a') = Some name /\ process_btn (fst a') = true /\
   input_folder (snd a') !! name = None) /\
  label (fst a') = "No frames generated for " +:+ name +:+ "." /\
  progress_bar (fst a') = Some 0 /\
  num_frames_generated (snd a') = O /\
  ffmpeg_calls (snd a') = ffmpeg_calls (snd a) /\
  output_folder (snd a') = output_folder (snd a).
Proof.
  intros (_ & Hf & Hr & _) Hname Hbtn Hgone Hclick.
  destruct (click_ready env a a' name Hf Hr Hname Hbtn Hclick)
    as (Hok & Hfin & Hl & Hp & Hbt & Ha & _).
  rewrite Hfin.
  pose proof (run_on_missing_input env (worker_of (fst a) name) (snd a) Hgone) as Hm.
  cbv zeta in Hm. destruct Hm as (_ & Hgen & _ & _ & Hcalls & Hout).
  rewrite Hgen in Hl, Hp. simpl in Hl, Hp.
  split; [split; [exact Ha|split; [exact Hbt|]]|].
  { exact (run_consumes_input env (worker_of (fst a) name) (snd a) Hok). }
  split; [exact Hl|]. split; [exact Hp|]. split; [exact Hgen|].
  split; [exact Hcalls|exact Hout].
Qed.

Lemma stale_events (evs : list (event A)) (a a' : app A) (name : string) :
  front_end_inv a ->
  audio_file (fst a) = Some name -> process_btn (fst a) = true ->
  input_folder (snd a) !! name = None ->
  Forall (fun ev => is_selection ev = false) evs ->
  run_events evs a = ok a' ->
  front_end_inv a' /\
  audio_file (fst a') = Some name /\ process_btn (fst a') = true /\
  input_folder (snd a') !! name = None /\
  ffmpeg_calls (snd a') = ffmpeg_calls (snd a) /\
  output_folder (snd a') = output_folder (snd a).
Proof.
  revert a. induction evs as [|ev evs IH]; intros a Hinv Hname Hbtn Hgone Hsel Hrun;
    simpl in Hrun.
  - injection Hrun as <-. split; [exact Hinv|]. repeat split; assumption.
  - destruct (step ev a) as [e|a1] eqn:Hstep; [discriminate|]. simpl in Hrun.
    apply Forall_cons in Hsel as [Hev Hsel].
    pose proof (step_inv ev a a1 Hinv Hstep) as Hinv1.
    assert (H1 : audio_file (fst a1) = Some name /\ process_btn (fst a1) = true /\
                 input_folder (snd a1) !! name = None /\
                 ffmpeg_calls (snd a1) = ffmpeg_calls (snd a) /\
                 output_folder (snd a1) = output_folder (snd a)).
    { destruct ev as [urls|path copied|chosen|v|v|i|i|env]; try discriminate;
        simpl in Hstep.
      - injection Hstep as <-. destruct chosen; simpl; repeat split; assumption.
      - injection Hstep as <-. unfold move_amplitude.
        destruct (_ =? _)%nat; simpl; repeat split; assumption.
      - injection Hstep as <-. unfold move_point_size.
        destruct (_ =? _)%nat; simpl; repeat split; assumption.
      - injection Hstep as <-. unfold pick_fps.
        destruct (_ <? _)%nat; simpl; repeat split; assumption.
      - injection Hstep as <-. unfold pick_res.
        destruct (_ <? _)%nat; simpl; repeat split; assumption.
      - destruct (stale_click a a1 env name Hinv Hname Hbtn Hgone Hstep)
          as ((S1 & S2 & S3) & _ & _ & _ & S4 & S5).
        repeat split; assumption. }
    destruct H1 as (N1 & B1 & G1 & C1 & O1).
    destruct (IH a1 Hinv1 N1 B1 G1 Hsel Hrun) as (I2 & N2 & B2 & G2 & C2 & O2).
    rewrite C2, C1, O2, O1. split; [exact I2|]. repeat split; assumption.
Qed.

(** After a job the button is enabled again but the copy of the audio file
    is gone: until a file is selected again, whatever else the user does,
    every further click on Process runs a job that generates no frame and
    never reaches the encoder, and leaves "No frames generated" in the label
    and the bar at 0. *)
Theorem process_again_fails (a a1 a2 a3 : app A) (env env' : Env A)
    (evs : list (event A)) :
  reachable a -> process_btn (fst a) = true ->
  click_process env a = ok a1 ->
  Forall (fun ev => is_selection ev = false) evs ->
  run_events evs a1 = ok a2 ->
  click_process env' a2 = ok a3 ->
  exists name,
    audio_file (fst a) = Some name /\
    label (fst a3) = "No frames generated for " +:+ name +:+ "." /\
    progress_bar (fst a3) = Some 0 /\
    process_btn (fst a3) = true /\
    num_frames_generated (snd a3) = O /\
    ffmpeg_calls (snd a3) = ffmpeg_calls (snd a1) /\
    output_folder (snd a3) = output_folder (snd a1).
Proof.
  intros Hreach Hbtn Hc1 Hsel Hrun Hc3.
  pose proof (reachable_inv a Hreach) as Hinv.
  pose proof Hinv as (Hb & Hf & Hr & _).
  destruct (Hb Hbtn) as [name Hname].
  destruct (click_ready env a a1 name Hf Hr Hname Hbtn Hc1)
    as (Hok & Hfin & _ & _ & Hbt1 & Ha1 & _).
  pose proof (click_inv env a a1 Hinv Hc1) as Hinv1.
  pose proof (run_consumes_input env (worker_of (fst a) name) (snd a) Hok) as Hgone.
  rewrite <- Hfin in Hgone.
  destruct (stale_events evs _ a2 name Hinv1 Ha1 Hbt1 Hgone Hsel Hrun)
    as (Hinv2 & N2 & B2 & G2 & C2 & O2).
  destruct (stale_click a2 a3 env' name Hinv2 N2 B2 G2 Hc3)
    as ((_ & B3 & _) & L3 & P3 & K3 & C3 & O3).
  exists name. split; [exact Hname|].
  rewrite C3, C2, O3, O2. repeat split; assumption.
Qed.

(** A file chosen in the dialog and copied is the file the next job
    reads: the window stores its base name and enables the button, the input
    folder holds the copy under that name, and a click on Process runs the
    worker on that name. When the job returns the copy is gone; when an
    exception leaves the job, and with it the application, the copy is still
    in the input folder. *)
Theorem selected_file_is_processed (a a1 : app A) (env : Env A)
    (file_path : string) (content : result (ndarray A * Z)) :
  reachable a -> file_path <> "" ->
  select_file file_path (ok content) a = ok a1 ->
  let name := PyStr.basename file_path in
  let w := worker_of (fst a1) name in
  let job := Worker.run env w (snd a1) in
  audio_file (fst a1) = Some name /\
  label (fst a1) = "Selected: " +:+ name /\
  process_btn (fst a1) = true /\
  input_folder (snd a1) !! name = Some content /\
  (forall other, other <> name ->
     input_folder (snd a1) !! other = input_folder (snd a) !! other) /\
  click_process env a1
  = match job with
    | (inl e, _) => inl e
    | (inr _, fin) =>
        ok (fold_left deliver (drop (length (emitted (snd a1))) (emitted fin))
              (set_worker (Some w) (setValue 0 (setEnabled false (fst a1)))), fin)
    end /\
  (fst job = ok tt -> input_folder (snd job) !! name = None) /\
  (forall e, fst job = inl e -> input_folder (snd job) !! name = Some content).
Proof.
  intros Hreach Hne Hsel name w job.
  pose proof (reachable_inv a Hreach) as Hinv.
  pose proof (selected_inv file_path (ok content) a a1 Hinv) as Hinv1.
  unfold select_file in Hsel.
  destruct (String.eqb_spec file_path ""); [contradiction|].
  specialize (Hinv1 Hsel). unfold selected in Hsel. simpl in Hsel.
  injection Hsel as <-. unfold job, w. simpl fst. simpl snd. fold name.
  split; [reflexivity|]. split; [reflexivity|]. split; [reflexivity|].
  assert (Hcopy : input_folder
                    (set_input_folder (fun files => <[name := content]> files) (snd a))
                  !! name = Some content) by apply lookup_insert_eq.
  split; [exact Hcopy|]. split.
  { intros other Hother. apply lookup_insert_ne. congruence. }
  destruct Hinv1 as (_ & Hf & Hr & _). simpl in Hf, Hr.
  split.
  { exact (click_process_spec env
             (setEnabled true (setText ("Selected: " +:+ name)
                                 (set_audio_file (Some name) (fst a))),
              set_input_folder (fun files => <[name := content]> files) (snd a))
             name Hf Hr eq_refl eq_refl). }
  split.
  - intros Hok. exact (run_consumes_input env _ _ Hok).
  - intros e He. destruct (run_escaped env _ _ e He) as (_ & _ & Hin & _).
    rewrite Hin. exact Hcopy.
Qed.

(** A drop of several files selects the first one whose path ends in
    [.mp3], in any letter case, exactly as the file dialog would have, and
    ignores all the others; a drop without such a file changes nothing. *)
Theorem drop_selects_first_mp3
    (before rest : list (string * result (result (ndarray A * Z))))
    (file_path : string) (copied : result (result (ndarray A * Z))) (a : app A) :
  Forall (fun url => endswith (PyStr.lower (fst url)) ".mp3" = false) before ->
  (endswith (PyStr.lower file_path) ".mp3" = true ->
   dropEvent (before ++ (file_path, copied) :: rest) a = selected file_path copied a /\
   (file_path <> "" ->
    dropEvent (before ++ (file_path, copied) :: rest) a
    = select_file file_path copied a)) /\
  dropEvent before a = ok a.
Proof.
  intros Hbefore. induction Hbefore as [|[path c] before Hpath _ IH].
  - split; [|reflexivity]. intros Hmp3. simpl. rewrite Hmp3.
    split; [reflexivity|]. intros Hne. unfold select_file.
    destruct (String.eqb_spec file_path ""); [contradiction|reflexivity].
  - simpl in Hpath. simpl. rewrite Hpath. exact IH.
Qed.

End FrontEndTheorems.

(** The settings the window hands to its workers, over the reals: the
    point size is the value of its slider, between 1 and 50; the amplitude
    scale is half the value of its slider, hence between 1/2 and 5, except
    that until the slider is first moved the scale is 2 while the slider
    stands at 2. *)
Theorem front_end_settings (a : GonioVisualizer.app R) :
  reachable a ->
  let g := fst a in
  (1 / 2 <= GonioVisualizer.amplitude_scale g <= 5)%R /\
  (1 <= GonioVisualizer.point_size g <= 50)%R /\
  GonioVisualizer.point_size g = INR (GonioVisualizer.point_size_slider g) /\
  (GonioVisualizer.amplitude_scale g = (INR (GonioVisualizer.amplitude_slider g) / 2)%R \/
   (GonioVisualizer.amplitude_scale g = 2%R /\
    GonioVisualizer.amplitude_slider g = 2%nat)).
Proof.
  intros Hreach g.
  destruct (reachable_inv a Hreach) as (_ & _ & _ & Has & Hps & Hp & Ham & _).
  fold g in Has, Hps, Hp, Ham.
  change (n_of_nat (GonioVisualizer.point_size_slider g))
    with (INR (GonioVisualizer.point_size_slider g)) in Hp.
  change (n_div (n_of_nat (GonioVisualizer.amplitude_slider g)) (n_of_nat 2))
    with (INR (GonioVisualizer.amplitude_slider g) / INR 2)%R in Ham.
  change (n_of_nat 2) with (INR 2) in Ham.
  assert (H2 : INR 2 = 2%R) by (simpl; lra). rewrite H2 in Ham.
  assert (Hsl : (1 <= INR (GonioVisualizer.amplitude_slider g) <= 10)%R).
  { split; [replace 1%R with (INR 1) by reflexivity|replace 10%R with (INR 10) by (simpl; lra)];
      apply le_INR; lia. }
  assert (Hpl : (1 <= INR (GonioVisualizer.point_size_slider g) <= 50)%R).
  { split; [replace 1%R with (INR 1) by reflexivity|replace 50%R with (INR 50) by (simpl; lra)];
      apply le_INR; lia. }
  split; [destruct Ham as [-> | [-> _]]; lra|].
  split; [rewrite Hp; exact Hpl|]. split; [exact Hp|exact Ham].
Qed.

(** ** A session of the front end *)

Lemma demo_app_reachable : reachable demo_app.
Proof.
  exists missing_state, demo_events. unfold demo_app.
  destruct (GonioVisualizer.run_events demo_events (GonioVisualizer.init missing_state))
    as [e|a] eqn:Hrun; [vm_compute in Hrun; discriminate|reflexivity].
Qed.



Lemma job_display_witness :
  reachable demo_app /\ GonioVisualizer.process_btn (fst demo_app) = true /\
  exists a',
    GonioVisualizer.click_process (demo_env None FfmpegOk) demo_app = ok a' /\
    GonioVisualizer.label (fst a') = "Processed song.mp3 with 3 frames." /\
    GonioVisualizer.progress_bar (fst a') = Some 100.
Proof.
  split; [exact demo_app_reachable|]. split; [vm_compute; reflexivity|].
  destruct (GonioVisualizer.click_process (demo_env None FfmpegOk) demo_app)
    as [e|a'] eqn:Hc; [vm_compute in Hc; discriminate|].
  exists a'. split; [reflexivity|].
  destruct (job_display demo_app a' (demo_env None FfmpegOk) demo_app_reachable
              ltac:(vm_compute; reflexivity) Hc) as (name & Hname & Hl & Hp & _).
  vm_compute in Hname. injection Hname as <-.
  vm_compute in Hc. injection Hc as <-.
  split; [rewrite Hl|rewrite Hp]; vm_compute; reflexivity.
Defined.

Lemma process_again_fails_witness :
  reachable demo_app /\ GonioVisualizer.process_btn (fst demo_app) = true /\
  exists a1 a2 a3,
    GonioVisualizer.click_process (demo_env None FfmpegOk) demo_app = ok a1 /\
    GonioVisualizer.run_events
      [GonioVisualizer.MovePointSize 20; GonioVisualizer.PickFps 1] a1 = ok a2 /\
    GonioVisualizer.click_process (demo_env None FfmpegOk) a2 = ok a3 /\
    GonioVisualizer.label (fst a3) = "No frames generated for song.mp3." /\
    GonioVisualizer.progress_bar (fst a3) = Some 0.
Proof.
  split; [exact demo_app_reachable|]. split; [vm_compute; reflexivity|].
  destruct (GonioVisualizer.click_process (demo_env None FfmpegOk) demo_app)
    as [e|a1] eqn:Hc1; [vm_compute in Hc1; discriminate|].
  destruct (GonioVisualizer.run_events
              [GonioVisualizer.MovePointSize 20; GonioVisualizer.PickFps 1] a1)
    as [e|a2] eqn:Hrun; [simpl in Hrun; discriminate|].
  assert (Hc3 : exists a3,
             GonioVisualizer.click_process (demo_env None FfmpegOk) a2 = ok a3).
  { simpl in Hrun. injection Hrun as <-.
    vm_compute in Hc1. injection Hc1 as <-. vm_compute. eexists. reflexivity. }
  destruct Hc3 as (a3 & Hc3).
  exists a1, a2, a3. split; [reflexivity|]. split; [exact Hrun|]. split; [exact Hc3|].
  destruct (process_again_fails demo_app a1 a2 a3 (demo_env None FfmpegOk)
              (demo_env None FfmpegOk)
              [GonioVisualizer.MovePointSize 20; GonioVisualizer.PickFps 1]
              demo_app_reachable ltac:(vm_compute; reflexivity) Hc1
              ltac:(repeat constructor) Hrun Hc3)
    as (name & Hname & Hl & Hp & _).
  vm_compute in Hname. injection Hname as <-.
  split; [exact Hl|exact Hp].
Defined.

Lemma selected_file_is_processed_witness :
  reachable (GonioVisualizer.init missing_state) /\ "/music/song.mp3" <> "" /\
  exists a1,
    GonioVisualizer.select_file "/music/song.mp3" (ok (ok (demo_audio, 60)))
      (GonioVisualizer.init missing_state) = ok a1 /\
    GonioVisualizer.audio_file (fst a1) = Some "song.mp3" /\
    input_folder (snd a1) !! "song.mp3" = Some (ok (demo_audio, 60)).
Proof.
  assert (Hr : reachable (GonioVisualizer.init missing_state))
    by (exists missing_state, []; reflexivity).
  split; [exact Hr|]. split; [discriminate|].
  eexists. split; [reflexivity|].
  pose proof (selected_file_is_processed (GonioVisualizer.init missing_state) _
                (demo_env None FfmpegOk) "/music/song.mp3" (ok (demo_audio, 60))
                Hr ltac:(discriminate) eq_refl) as Hsel.
  cbv zeta in Hsel. destruct Hsel as (Ha & _ & _ & Hin & _).
  split; [exact Ha|exact Hin].
Defined.

Lemma front_end_settings_witness :
  reachable demo_app /\
  (1 / 2 <= GonioVisualizer.amplitude_scale (fst demo_app) <= 5)%R /\
  GonioVisualizer.amplitude_slider (fst demo_app) = 3%nat.
Proof.
  split; [exact demo_app_reachable|].
  split; [exact (proj1 (front_end_settings demo_app demo_app_reachable))|].
  vm_compute. reflexivity.
Defined.

Lemma drop_selects_first_mp3_witness :
  Forall (fun url : string * result (result (ndarray R * Z)) =>
            endswith (PyStr.lower (fst url)) ".mp3" = false)
         [("/music/cover.jpg", ok (raise "ValueError" "not an audio file"))] /\
  endswith (PyStr.lower "/music/Song.MP3") ".mp3" = true /\
  GonioVisualizer.dropEvent
    [("/music/cover.jpg", ok (raise "ValueError" "not an audio file"));
     ("/music/Song.MP3", ok (ok (demo_audio, 60)));
     ("/music/other.mp3", ok (ok (demo_audio, 60)))]
    (GonioVisualizer.init missing_state)
  = GonioVisualizer.selected "/music/Song.MP3" (ok (ok (demo_audio, 60)))
      (GonioVisualizer.init missing_state).
Proof.
  assert (Hb : Forall (fun url : string * result (result (ndarray R * Z)) =>
                         endswith (PyStr.lower (fst url)) ".mp3" = false)
                      [("/music/cover.jpg", ok (raise "ValueError" "not an audio file"))])
    by (repeat constructor).
  split; [exact Hb|]. split; [reflexivity|].
  exact (proj1 (proj1 (drop_selects_first_mp3
                         [("/music/cover.jpg", ok (raise "ValueError" "not an audio file"))]
                         [("/music/other.mp3", ok (ok (demo_audio, 60)))]
                         "/music/Song.MP3" (ok (ok (demo_audio, 60)))
                         (GonioVisualizer.init missing_state) Hb) eq_refl)).
Defined.

(** ** The command-line variant *)

Section VizLabFacts.
Context {A : Type} {num_ops : NumOps A} {arctan2_op : Arctan2 A}.
Variable env : Env A.








End VizLabFacts.

Section VizLabTheorems.
Context {A : Type} {num_ops : NumOps A} {arctan2_op : Arctan2 A}.
Variable env : Env A.






End VizLabTheorems.


